(** * Obesity-classification workflow: preprocessing, experiments, report

    A shallow embedding of [data_preprocessing.py], [experiments.py] and
    [pipe.py].  The scripts are straight-line pandas / scikit-learn / mlflow
    code, so the embedding has three layers:

    - a fragment of pandas (typed columns, frames as ordered lists of named
      columns, the row and column operations the scripts call);
    - the scripts' own functions, written statement by statement on top of
      that fragment, with failures ([KeyError], [ValueError], a missing file)
      as [None] or as a raised exception of a small state-and-exception monad;
    - the module level of each script: which statements run when the file is
      executed as a program.

    Floating-point columns are idealised as real numbers (the scaler takes a
    square root); metrics, which are ratios of counts, are rationals. *)

From Stdlib Require Import Ascii Reals Lra QArith Qround.
From Stdlib Require Lqa.
From stdpp Require Import base option list strings gmap.

Close Scope Q_scope.
Close Scope R_scope.
Open Scope string_scope.
Open Scope nat_scope.

(** ** A fragment of pandas *)

(** Equality of reals is decidable classically; it is what
    [drop_duplicates] compares float cells with. *)
#[global] Instance R_eq_dec : EqDecision R := Req_dec_T.

(** One value of a table, as a Python lambda passed to [Series.apply]
    receives it. *)
Inductive cell : Type :=
| NaN
| Str (s : string)
| Int (z : Z)
| Float (x : R).

#[global] Instance cell_eq_dec : EqDecision cell.
Proof. solve_decision. Defined.

(** A column with its dtype.  [read_csv] yields [object] columns holding
    strings, [int64] columns (which cannot hold a missing value) and
    [float64] columns; [None] is a missing value.  A [bool] column counts as
    [int64]: all the scripts ask of a dtype is whether it is [object]. *)
Inductive Series : Type :=
| ObjectSeries (xs : list (option string))
| Int64Series (xs : list Z)
| Float64Series (xs : list (option R)).

Definition object_cell (o : option string) : cell := from_option Str NaN o.
Definition float_cell (o : option R) : cell := from_option Float NaN o.

Definition values (s : Series) : list cell :=
  match s with
  | ObjectSeries xs => object_cell <$> xs
  | Int64Series xs => Int <$> xs
  | Float64Series xs => float_cell <$> xs
  end.

(** [s.dtype == object] *)
Definition is_object (s : Series) : bool :=
  match s with ObjectSeries _ => true | _ => false end.

Definition is_numeric (s : Series) : bool := negb (is_object s).

(** Boolean indexing: keep the positions whose mask entry is [true]. *)
Fixpoint mask {A : Type} (m : list bool) (xs : list A) : list A :=
  match m, xs with
  | b :: m', x :: xs' => if b then x :: mask m' xs' else mask m' xs'
  | _, _ => []
  end.

Definition series_mask (m : list bool) (s : Series) : Series :=
  match s with
  | ObjectSeries xs => ObjectSeries (mask m xs)
  | Int64Series xs => Int64Series (mask m xs)
  | Float64Series xs => Float64Series (mask m xs)
  end.

(** A frame: its columns in order, each with its name.  The row index is
    left out: the scripts never read it, [to_csv] is called with
    [index=False], and every assignment below is between columns of one
    frame. *)
Abbreviation DataFrame := (list (string * Series)%type).

Definition columns (df : DataFrame) : list string := df.*1.

Definition nrows (df : DataFrame) : nat :=
  match df with
  | [] => 0
  | (_, s) :: _ => length (values s)
  end.

(** The rows of a frame, each a list of cells in column order. *)
Fixpoint rows (df : DataFrame) : list (list cell) :=
  match df with
  | [] => []
  | (_, s) :: df' =>
      match df' with
      | [] => (λ v, [v]) <$> values s
      | _ :: _ => zip_with cons (values s) (rows df')
      end
  end.

Definition frame_mask (m : list bool) (df : DataFrame) : DataFrame :=
  (λ kv, (kv.1, series_mask m kv.2)) <$> df.

(** [df[c]]: [KeyError] when there is no such column. *)
Fixpoint getitem (df : DataFrame) (c : string) : option Series :=
  match df with
  | [] => None
  | (k, s) :: df' => if decide (k = c) then Some s else getitem df' c
  end.

(** [df[c] = s]: replaces the column in place, or appends a new one. *)
Definition setitem (df : DataFrame) (c : string) (s : Series) : DataFrame :=
  if decide (c ∈ columns df)
  then (λ kv, if decide (kv.1 = c) then (c, s) else kv) <$> df
  else df ++ [(c, s)].

(** [df.drop(columns=cs)]: [KeyError] when a name is not a column. *)
Definition drop_columns (cs : list string) (df : DataFrame) : option DataFrame :=
  if decide (Forall (λ c, c ∈ columns df) cs)
  then Some (filter (λ kv, kv.1 ∉ cs) df)
  else None.

Definition notna (v : cell) : bool :=
  match v with NaN => false | _ => true end.

(** [df.isna().sum().sum()] *)
Definition count_missing (df : DataFrame) : nat :=
  sum_list ((λ kv, length (filter (λ v, notna v = false) (values kv.2))) <$> df).

(** [df.dropna()]: drops every row that holds a missing value. *)
Definition dropna (df : DataFrame) : DataFrame :=
  frame_mask (forallb notna <$> rows df) df.

(** [df.duplicated()]: a row is a duplicate when an earlier row equals it. *)
Fixpoint duplicated_from (seen rs : list (list cell)) : list bool :=
  match rs with
  | [] => []
  | r :: rs' => bool_decide (r ∈ seen) :: duplicated_from (r :: seen) rs'
  end.

Definition duplicated (df : DataFrame) : list bool := duplicated_from [] (rows df).

(** [df.duplicated().sum()] *)
Definition count_duplicates (df : DataFrame) : nat :=
  length (filter (λ b, b = true) (duplicated df)).

(** [df.drop_duplicates()]: keeps the first of equal rows. *)
Definition drop_duplicates (df : DataFrame) : DataFrame :=
  frame_mask (negb <$> duplicated df) df.

(** [s.apply(f)] for a lambda [f] that returns an int: the result is an
    [int64] column.  (On an empty column pandas keeps the dtype it had; the
    scripts never get that far with an empty table, the scaler refuses it.) *)
Definition apply (f : cell → Z) (s : Series) : Series :=
  Int64Series (f <$> values s).

(** [s.unique()]: the distinct values in order of first appearance, a
    missing value included. *)
Fixpoint unique_values (vs : list cell) : list cell :=
  match vs with
  | [] => []
  | v :: vs' => v :: filter (λ w, w ≠ v) (unique_values vs')
  end.

Definition unique (s : Series) : list cell := unique_values (values s).

(** [s.nunique()]: the number of distinct values, missing values apart. *)
Definition nunique (s : Series) : nat :=
  length (filter (λ v, v ≠ NaN) (unique s)).

(** The dict literal [{k0: 0, k1: 1}]: were the keys equal, the later
    entry would win. *)
Definition dict01 (k0 k1 : cell) (v : cell) : option Z :=
  if decide (v = k1) then Some 1%Z
  else if decide (v = k0) then Some 0%Z
  else None.

(** [s.map(d)] for a dict [d] with int values: a value that is no key
    becomes missing, and the column is then [float64]; with every value
    mapped the column is [int64]. *)
Definition map_dict (d : cell → option Z) (s : Series) : Series :=
  let ys := d <$> values s in
  match mapM (λ y, y) ys with
  | Some zs => Int64Series zs
  | None => Float64Series (fmap IZR <$> ys)
  end.

(** A [for] loop whose body may raise. *)
Fixpoint for_each {A S : Type} (body : S → A → option S) (xs : list A) (st : S) : option S :=
  match xs with
  | [] => Some st
  | x :: xs' => st' ← body st x; for_each body xs' st'
  end.

(** *** sklearn.preprocessing.StandardScaler

    Per column: [mean_] and the population variance [var_] (divisor [n]),
    [scale_ = sqrt(var_)] with a zero scale replaced by [1], and
    [(x - mean_) / scale_]. *)
Definition Rsum (xs : list R) : R := foldr Rplus 0%R xs.

Definition mean (xs : list R) : R := (Rsum xs / INR (length xs))%R.

Definition variance (xs : list R) : R :=
  mean ((λ x, ((x - mean xs) * (x - mean xs))%R) <$> xs).

Definition scale_ (xs : list R) : R :=
  if decide (variance xs = 0%R) then 1%R else sqrt (variance xs).

Definition standardize (xs : list R) : list R :=
  (λ x, ((x - mean xs) / scale_ xs)%R) <$> xs.

(** [StandardScaler().fit_transform(X)] on the columns of [X]:
    [ValueError] when [X] has no column or no row. *)
Definition fit_transform (X : list (list R)) : option (list (list R)) :=
  match X with
  | [] => None
  | xs :: _ => if decide (length xs = 0) then None else Some (standardize <$> X)
  end.

(** The conversion of a column to floats that the scaler starts with: a
    string cannot be converted ([ValueError]).  Missing values, which the
    scaler would skip, are not modelled: [dropna] has removed them before
    the scaler runs. *)
Definition to_float (s : Series) : option (list R) :=
  match s with
  | ObjectSeries _ => None
  | Int64Series xs => Some (IZR <$> xs)
  | Float64Series xs => mapM (λ x, x) xs
  end.

(** ** data_preprocessing.py *)

(** The file system as the scripts see it: a path holds a table. *)
Definition load_data (input_path : string) (fs : gmap string DataFrame) : option DataFrame :=
  fs !! input_path.

Definition clean_data (df : DataFrame) : DataFrame :=
  let df := dropna df in
  let df := drop_duplicates df in
  df.

Definition save_data (df : DataFrame) (output_path : string)
    (fs : gmap string DataFrame) : gmap string DataFrame :=
  <[output_path := df]> fs.

(** [x in [...]] for a list of strings: only an equal string is a member. *)
Definition cell_in (labels : list string) (x : cell) : bool :=
  match x with
  | Str s => bool_decide (s ∈ labels)
  | _ => false
  end.

Definition obese_labels : list string :=
  ["Obesity_Type_I"; "Obesity_Type_II"; "Obesity_Type_III";
   "Overweight_Level_I"; "Overweight_Level_II"].

(** The lambdas of lines 26 and 45-47. *)
Definition obesity_lambda (x : cell) : Z :=
  if cell_in obese_labels x then 1%Z else 0%Z.

Definition mtrans_lambda (x : cell) : Z :=
  if cell_in ["Public_Transportation"] x then 1%Z else 0%Z.

Definition frequency_lambda (x : cell) : Z :=
  if cell_in ["Frequently"; "Always"] x then 1%Z else 0%Z.

(** Lines 26-27 of [main]: the target column replaces the label column. *)
Definition add_target (df : DataFrame) : option DataFrame :=
  label ← getitem df "NObeyesdad";
  let df := setitem df "Obesity_Binary" (apply obesity_lambda label) in
  drop_columns ["NObeyesdad"] df.

(** Lines 33-39: the feature columns by dtype, in column order. *)
Definition cat_columns_of (features : DataFrame) : list string :=
  (filter (λ kv, is_object kv.2 = true) features).*1.

Definition num_columns_of (features : DataFrame) : list string :=
  (filter (λ kv, is_object kv.2 = false) features).*1.

(** Lines 42-43, the body of the loop over [cat_columns]. *)
Definition binarize_column (df : DataFrame) (col : string) : option DataFrame :=
  s ← getitem df col;
  if decide (nunique s = 2) then
    k0 ← unique s !! 0;
    k1 ← unique s !! 1;
    Some (setitem df col (map_dict (dict01 k0 k1) s))
  else Some df.

(** What the loop body leaves in the column it visits. *)
Definition binarized (s : Series) : Series :=
  if decide (nunique s = 2) then
    match unique s with
    | k0 :: k1 :: _ => map_dict (dict01 k0 k1) s
    | _ => s
    end
  else s.

(** Lines 45-49: the three indicator columns, then their sources go. *)
Definition add_indicators (df : DataFrame) : option DataFrame :=
  mtrans ← getitem df "MTRANS";
  let df := setitem df "MTRANS_Binary" (apply mtrans_lambda mtrans) in
  caec ← getitem df "CAEC";
  let df := setitem df "CAEC_binary" (apply frequency_lambda caec) in
  calc ← getitem df "CALC";
  let df := setitem df "CALC_binary" (apply frequency_lambda calc) in
  drop_columns ["MTRANS"; "CALC"; "CAEC"] df.

(** Lines 51-52: [df[num_columns] = scaler.fit_transform(df[num_columns])]. *)
Definition scale_numeric (num_columns : list string) (df : DataFrame) : option DataFrame :=
  X ← mapM (λ c, getitem df c ≫= to_float) num_columns;
  X' ← fit_transform X;
  Some (foldl (λ df cx, setitem df cx.1 (Float64Series (Some <$> cx.2))) df
          (zip num_columns X')).

(** Lines 25-43 of [main]: the target, the feature columns by dtype, and
    the loop over the categorical ones.  The list of numeric columns is
    fixed here, before any column is recoded. *)
Definition binarize_categoricals (df : DataFrame) : option (DataFrame * list string) :=
  df ← add_target df;
  features ← drop_columns ["Obesity_Binary"] df;
  let cat_columns := cat_columns_of features in
  let num_columns := num_columns_of features in
  df ← for_each binarize_column cat_columns df;
  Some (df, num_columns).

(** Lines 25-52 of [main], from the cleaned table to the table that is
    saved. *)
Definition transform (df : DataFrame) : option DataFrame :=
  '(df, num_columns) ← binarize_categoricals df;
  df ← add_indicators df;
  scale_numeric num_columns df.

(** [main].  Its last statement, at the indentation of its body, is
    [if __name__ == "__main__": main("./data/ObesityDataSet.csv",
    "./data/clean_data.csv")]: when the module's name is ["__main__"] a call
    of [main] ends by calling [main] again.  [depth] is the number of
    Python frames left; running out of them is a [RecursionError].  An
    exception is [None]: what had been written before it is not kept. *)
Fixpoint main (depth : nat) (name__ : string) (input_path output_path : string)
    (fs : gmap string DataFrame) : option (gmap string DataFrame) :=
  match depth with
  | 0 => None
  | S depth' =>
      df ← load_data input_path fs;
      let df := clean_data df in
      df ← transform df;
      let fs := save_data df output_path fs in
      if decide (name__ = "__main__")
      then main depth' name__ "./data/ObesityDataSet.csv" "./data/clean_data.csv" fs
      else Some fs
  end.

(** ** Running a file as a program

    [python file.py] executes the file's top-level statements in order with
    [__name__] bound to ["__main__"].  An [import] and a [def] bind names; a
    [def] does not run the body it binds. *)
Inductive statement : Type :=
| Import (module : string)
| Def (name : string)
| IfNameIsMain (body : gmap string DataFrame → option (gmap string DataFrame)).

Definition exec_statement (name__ : string) (fs : gmap string DataFrame)
    (st : statement) : option (gmap string DataFrame) :=
  match st with
  | Import _ => Some fs
  | Def _ => Some fs
  | IfNameIsMain body => if decide (name__ = "__main__") then body fs else Some fs
  end.

Definition exec_module (name__ : string) (stmts : list statement)
    (fs : gmap string DataFrame) : option (gmap string DataFrame) :=
  for_each (exec_statement name__) stmts fs.

(** The top level of [data_preprocessing.py]: two imports and four
    definitions.  The [if __name__ == "__main__"] statement of lines 57-58
    is part of the body of [main] (see [main] above), not of this list. *)
Definition data_preprocessing_py : list statement :=
  [Import "pandas"; Import "sklearn.preprocessing";
   Def "load_data"; Def "clean_data"; Def "save_data"; Def "main"].

(** [sys.getrecursionlimit()], CPython's default. *)
Definition recursion_limit : nat := 1000.

(** ** pipe.py *)

(** [process_data]: [subprocess.run(["python", "data_preprocessing.py"],
    check=True)]; a failing child process raises. *)
Definition process_data (fs : gmap string DataFrame) : option (gmap string DataFrame) :=
  exec_module "__main__" data_preprocessing_py fs.

(** ** experiments.py: data *)

Inductive exn : Type :=
| KeyError (key : string)
| ValueError (msg : string)
| TypeError (msg : string)
| FileNotFoundError (path : string)
| FileExistsError (path : string)
| MlflowException (msg : string)
| LibraryError (msg : string).

(** The estimators the script builds, with the arguments it passes. *)
Inductive Estimator : Type :=
| LogisticRegression (max_iter : nat) (C : Q) (random_state : nat)
| SVC (kernel : string) (random_state : nat)
| DecisionTreeClassifier (max_depth : nat) (random_state : nat).

(** One run of the tracking store. *)
Record RunInfo : Type := {
  run_name : string;
  params : gmap string string;
  metrics : gmap string Q;
  artifacts : list string;
  logged_models : list Estimator;
  start_time : Z;
  end_time : option Z;
  status : string
}.

(** A run record: one row of the frame [run_experiments] returns.  Run
    identifiers are numbers here (mlflow's are hexadecimal strings). *)
Record RunRecord : Type := {
  RunID : nat;
  Model : string;
  accuracy : Q;
  precision : Q;
  recall : Q;
  f1_score : Q;
  confusion_matrix_path : string;
  classification_report_path : string
}.

(** A row of [filtered_runs_display]: the run record without [RunID] and
    the two paths. *)
Record DisplayRow : Type := {
  d_Model : string;
  d_accuracy : Q;
  d_precision : Q;
  d_recall : Q;
  d_f1_score : Q
}.

(** The value [get_mlflow_model_performance] builds per run. *)
Record Performance : Type := {
  model_name : string;
  perf_metrics : gmap string Q;
  parameters : gmap string string;
  perf_start_time : Z;
  perf_end_time : Z;
  duration : Q;
  perf_status : string
}.

(** What [generate_report] hands to the template. *)
Record TemplateContext : Type := {
  ctx_experiment_name : string;
  ctx_runs : list DisplayRow;
  ctx_full_runs : list RunRecord;
  ctx_model_reports : list (string * string);
  ctx_insights : list string;
  ctx_graph_path : string;
  ctx_current_date : string;
  ctx_experiment_id : string;
  best_accuracy : Q;
  best_precision : Q;
  best_recall : Q;
  best_f1_score : Q;
  ctx_mlflow_plot : list (string * string);
  ctx_performance_data : list (nat * Performance)
}.

(** The dict [task.connect] is given in [run_experiments]. *)
Record Connected : Type := {
  c_accuracy : Q;
  c_precision : Q;
  c_recall : Q;
  c_f1_score : Q;
  c_confusion_matrix_path : string;
  c_classification_report_path : string
}.

(** The libraries the script calls into, as an interface: scikit-learn on
    the split fixed at module level ([test_size=0.3], [random_state=42]),
    matplotlib and seaborn, jinja2, clearml and [datetime].  Fitting and
    [task.connect] may raise; the metric functions are called with
    [zero_division=0] and do not. *)
Class Libraries : Type := {
  y_test : list Z;
  fit_predict : Estimator → exn + list Z;
  accuracy_score : list Z → list Z → Q;
  precision_score : list Z → list Z → Q;
  recall_score : list Z → list Z → Q;
  weighted_f1_score : list Z → list Z → Q;
  classification_report : list Z → list Z → string;
  get_params : Estimator → list (string * string);
  heatmap_png : list Z → list Z → string → string;
  metrics_bar_png : list DisplayRow → string;
  duration_bar_png : list string → list Q → string;
  render : string → TemplateContext → string;
  task_connect : Connected → option exn;
  strftime : string → Z → string
}.

(** The world the script runs in.  [frames] holds the frames of run
    records by reference: a frame passed to a function is the caller's
    object, and an assignment to one of its columns is seen by the caller.
    The model does not advance [clock]. *)
Record World : Type := {
  files : gmap string string;
  mlruns : gmap nat RunInfo;
  active_run : option nat;
  frames : gmap nat (list RunRecord);
  clock : Z
}.

(** State and exceptions: a raised exception keeps the state reached. *)
Definition M (A : Type) : Type := World → (exn + A) * World.

#[global] Instance M_ret : MRet M := λ A a w, (inr a, w).

#[global] Instance M_bind : MBind M := λ A B f m w,
  match m w with
  | (inl e, w') => (inl e, w')
  | (inr a, w') => f a w'
  end.

Definition raise {A : Type} (e : exn) : M A := λ w, (inl e, w).

Definition get_world : M World := λ w, (inr w, w).

Definition modify_world (f : World → World) : M unit := λ w, (inr tt, f w).

Definition lift_result {A : Type} (r : exn + A) : M A :=
  match r with inl e => raise e | inr a => mret a end.

(** A [for] loop in [M] that threads an accumulator. *)
Fixpoint for_each_M {A S : Type} (body : S → A → M S) (xs : list A) (st : S) : M S :=
  match xs with
  | [] => mret st
  | x :: xs' => st' ← body st x; for_each_M body xs' st'
  end.

Definition set_files (f : gmap string string → gmap string string) (w : World) : World :=
  {| files := f (files w); mlruns := mlruns w; active_run := active_run w;
     frames := frames w; clock := clock w |}.

Definition set_mlruns (f : gmap nat RunInfo → gmap nat RunInfo) (w : World) : World :=
  {| files := files w; mlruns := f (mlruns w); active_run := active_run w;
     frames := frames w; clock := clock w |}.

Definition set_active_run (r : option nat) (w : World) : World :=
  {| files := files w; mlruns := mlruns w; active_run := r;
     frames := frames w; clock := clock w |}.

Definition set_frames (f : gmap nat (list RunRecord) → gmap nat (list RunRecord))
    (w : World) : World :=
  {| files := files w; mlruns := mlruns w; active_run := active_run w;
     frames := f (frames w); clock := clock w |}.

(** [open(path, "w").write(text)] and [plt.savefig(path)] *)
Definition write_file (path text : string) : M unit :=
  modify_world (set_files <[path := text]>).

(** [open(path, "r").read()] *)
Definition read_file (path : string) : M string :=
  w ← get_world;
  match files w !! path with
  | Some text => mret text
  | None => raise (FileNotFoundError path)
  end.

(** [pd.DataFrame(results)]: a new frame object. *)
Definition new_frame (records : list RunRecord) : M nat :=
  w ← get_world;
  let ref := fresh (dom (frames w)) in
  modify_world (set_frames <[ref := records]>);;
  mret ref.

Definition read_frame (ref : nat) : M (list RunRecord) :=
  w ← get_world;
  match frames w !! ref with
  | Some records => mret records
  | None => raise (KeyError "frame")
  end.

Definition os_path_join (dir file : string) : string := dir ++ "/" ++ file.

Definition output_dir : string := "mlflow_output".

Definition experiment_name : string := "obesity_prediction_experiment".

(** A Python dict in insertion order: assigning to a key that is present
    replaces its value where it stands. *)
Definition dict_set {K V : Type} `{EqDecision K} (k : K) (v : V)
    (d : list (K * V)) : list (K * V) :=
  if decide (k ∈ d.*1)
  then (λ kv, if decide (kv.1 = k) then (k, v) else kv) <$> d
  else d ++ [(k, v)].

(** [model_name.lower().replace(' ', '_')] on ASCII names. *)
Definition lower_char (c : ascii) : ascii :=
  let n := nat_of_ascii c in
  if decide (65 ≤ n ∧ n ≤ 90) then ascii_of_nat (n + 32) else c.

Fixpoint string_map (f : ascii → ascii) (s : string) : string :=
  match s with
  | EmptyString => EmptyString
  | String c s' => String (f c) (string_map f s')
  end.

Definition file_stem (model_name : string) : string :=
  string_map (λ c, if decide (c = " "%char) then "_"%char else c)
    (string_map lower_char model_name).

(** ** experiments.py: the tracking store *)

Definition mlflow_get_run (run_id : nat) : M RunInfo :=
  w ← get_world;
  match mlruns w !! run_id with
  | Some run => mret run
  | None => raise (MlflowException "run not found")
  end.

Definition update_active_run (f : RunInfo → RunInfo) : M unit :=
  w ← get_world;
  match active_run w with
  | Some run_id => modify_world (set_mlruns (alter f run_id))
  | None => raise (MlflowException "no active run")
  end.

Definition mlflow_log_param (key value : string) : M unit :=
  update_active_run (λ r,
    {| run_name := run_name r; params := <[key := value]> (params r);
       metrics := metrics r; artifacts := artifacts r;
       logged_models := logged_models r; start_time := start_time r;
       end_time := end_time r; status := status r |}).

Definition mlflow_log_metric (key : string) (value : Q) : M unit :=
  update_active_run (λ r,
    {| run_name := run_name r; params := params r;
       metrics := <[key := value]> (metrics r); artifacts := artifacts r;
       logged_models := logged_models r; start_time := start_time r;
       end_time := end_time r; status := status r |}).

Definition mlflow_log_artifact (path : string) : M unit :=
  update_active_run (λ r,
    {| run_name := run_name r; params := params r; metrics := metrics r;
       artifacts := artifacts r ++ [path];
       logged_models := logged_models r; start_time := start_time r;
       end_time := end_time r; status := status r |}).

Definition mlflow_sklearn_log_model (model : Estimator) : M unit :=
  update_active_run (λ r,
    {| run_name := run_name r; params := params r; metrics := metrics r;
       artifacts := artifacts r;
       logged_models := logged_models r ++ [model]; start_time := start_time r;
       end_time := end_time r; status := status r |}).

Definition end_run (final : string) (now : Z) (r : RunInfo) : RunInfo :=
  {| run_name := run_name r; params := params r; metrics := metrics r;
     artifacts := artifacts r; logged_models := logged_models r;
     start_time := start_time r; end_time := Some now; status := final |}.

(** [with mlflow.start_run(run_name=...) as run: body]: the run is ended
    when the block is left, as [FAILED] when an exception leaves it, and
    the exception goes on. *)
Definition with_start_run {A : Type} (name : string) (body : nat → M A) : M A := λ w,
  let run_id := fresh (dom (mlruns w)) in
  let info := {| run_name := name; params := ∅; metrics := ∅; artifacts := [];
                 logged_models := []; start_time := clock w; end_time := None;
                 status := "RUNNING" |} in
  let w1 := set_active_run (Some run_id) (set_mlruns <[run_id := info]> w) in
  let rw := body run_id w1 in
  let final := match rw.1 with inl _ => "FAILED" | inr _ => "FINISHED" end in
  (rw.1, set_active_run None (set_mlruns (alter (end_run final (clock rw.2)) run_id) rw.2)).

(** ** experiments.py: training *)

(** What [log_model_with_metrics] returns. *)
Record RunResults : Type := {
  run_id : nat;
  r_confusion_matrix_path : string;
  r_classification_report_path : string
}.

Section experiments.
Context `{Libraries}.

Definition save_confusion_matrix (y_true y_pred : list Z) (model_name : string) : M string :=
  let filename := "confusion_matrix_" ++ file_stem model_name ++ ".png" in
  let save_path := os_path_join output_dir filename in
  write_file save_path (heatmap_png y_true y_pred ("Confusion Matrix - " ++ model_name));;
  mret filename.

(** The statement after the [return] (line 123) is never reached and is
    left out. *)
Definition log_model_with_metrics (model : Estimator) (model_name : string) : M RunResults :=
  w ← get_world;
  let timestamp := strftime "%Y%m%d_%H%M%S" (clock w) in
  with_start_run (model_name ++ "_" ++ timestamp) (λ run,
    y_pred ← lift_result (fit_predict model);
    let accuracy := accuracy_score y_test y_pred in
    let precision := precision_score y_test y_pred in
    let recall := recall_score y_test y_pred in
    let f1 := weighted_f1_score y_test y_pred in
    mlflow_log_param "model" model_name;;
    for_each_M (λ _ kv, mlflow_log_param kv.1 kv.2) (get_params model) tt;;
    mlflow_log_metric "accuracy" accuracy;;
    mlflow_log_metric "precision" precision;;
    mlflow_log_metric "recall" recall;;
    mlflow_log_metric "f1_score" f1;;
    cm_filename ← save_confusion_matrix y_test y_pred model_name;
    mlflow_log_artifact (os_path_join output_dir cm_filename);;
    let class_report := classification_report y_test y_pred in
    let report_filename := "classification_report_" ++ file_stem model_name ++ ".txt" in
    let report_save_path := os_path_join output_dir report_filename in
    write_file report_save_path class_report;;
    mlflow_log_artifact report_save_path;;
    mlflow_sklearn_log_model model;;
    mret {| run_id := run;
            r_confusion_matrix_path := cm_filename;
            r_classification_report_path := report_filename |}).

Definition experiments : list (Estimator * string) :=
  [(LogisticRegression 1000 1%Q 42, "Logistic Regression (C=1.0)");
   (LogisticRegression 2000 (1 # 2)%Q 42, "Logistic Regression (C=0.5)");
   (SVC "linear" 42, "SVM (Linear Kernel)");
   (DecisionTreeClassifier 10 42, "Decision Tree (max_depth=10)");
   (DecisionTreeClassifier 15 42, "Decision Tree (max_depth=15)")].

(** [mlflow.get_run(run_id).data.metrics[key]] *)
Definition get_run_metric (id : nat) (key : string) : M Q :=
  run ← mlflow_get_run id;
  match metrics run !! key with
  | Some value => mret value
  | None => raise (KeyError key)
  end.

(** The body of the loop of [run_experiments] (lines 153-184). *)
Definition run_one_experiment (results : list RunRecord) (exp : Estimator * string) :
    M (list RunRecord) :=
  run_results ← log_model_with_metrics exp.1 exp.2;
  let id := run_id run_results in
  a ← get_run_metric id "accuracy";
  p ← get_run_metric id "precision";
  r ← get_run_metric id "recall";
  f ← get_run_metric id "f1_score";
  let results := (results ++ [{| RunID := id; Model := exp.2;
                                 accuracy := a; precision := p; recall := r; f1_score := f;
                                 confusion_matrix_path := r_confusion_matrix_path run_results;
                                 classification_report_path :=
                                   r_classification_report_path run_results |}])%list in
  a ← get_run_metric id "accuracy";
  p ← get_run_metric id "precision";
  r ← get_run_metric id "recall";
  f ← get_run_metric id "f1_score";
  match task_connect {| c_accuracy := a; c_precision := p; c_recall := r; c_f1_score := f;
                        c_confusion_matrix_path := r_confusion_matrix_path run_results;
                        c_classification_report_path :=
                          r_classification_report_path run_results |} with
  | Some e => raise e
  | None => mret results
  end.

(** [run_experiments] returns the frame object built from [results]. *)
Definition run_experiments : M nat :=
  results ← for_each_M run_one_experiment experiments [];
  new_frame results.

End experiments.

(** ** experiments.py: the report *)

(** [numpy.round]: to the nearest integer, a tie to the even one. *)
Definition round_half_even (x : Q) : Z :=
  let f := Qfloor x in
  match Qcompare (x - inject_Z f) (1 # 2) with
  | Lt => f
  | Gt => (f + 1)%Z
  | Eq => if Z.even f then f else (f + 1)%Z
  end.

(** [Series.round(4)] on one value, in exact arithmetic. *)
Definition round4 (x : Q) : Q := Qmake (round_half_even (x * 10000)) 10000.

(** The four metric columns of the frame of run records. *)
Inductive metric_column : Type :=
| col_accuracy
| col_precision
| col_recall
| col_f1_score.

Definition get_column (m : metric_column) (r : RunRecord) : Q :=
  match m with
  | col_accuracy => accuracy r
  | col_precision => precision r
  | col_recall => recall r
  | col_f1_score => f1_score r
  end.

Definition set_column (m : metric_column) (v : Q) (r : RunRecord) : RunRecord :=
  {| RunID := RunID r; Model := Model r;
     accuracy := match m with col_accuracy => v | _ => accuracy r end;
     precision := match m with col_precision => v | _ => precision r end;
     recall := match m with col_recall => v | _ => recall r end;
     f1_score := match m with col_f1_score => v | _ => f1_score r end;
     confusion_matrix_path := confusion_matrix_path r;
     classification_report_path := classification_report_path r |}.

(** One row of [frame[m].round(4)] put back into its row. *)
Definition round_cell (m : metric_column) (r : RunRecord) : RunRecord :=
  set_column m (round4 (get_column m r)) r.

(** [filtered_runs[metric] = filtered_runs[metric].round(4)]: an
    assignment to a column of the frame object [filtered_runs] refers to. *)
Definition round_column (filtered_runs : nat) (m : metric_column) : M unit :=
  records ← read_frame filtered_runs;
  modify_world (set_frames <[filtered_runs := round_cell m <$> records]>).

(** [Series.idxmax()]: the position of the first largest value;
    [ValueError] on an empty column. *)
Fixpoint idxmax_from (best_i : nat) (best : Q) (i : nat) (xs : list Q) : nat :=
  match xs with
  | [] => best_i
  | x :: xs' =>
      if Qle_bool x best
      then idxmax_from best_i best (S i) xs'
      else idxmax_from i x (S i) xs'
  end.

Definition idxmax (xs : list Q) : option nat :=
  match xs with
  | [] => None
  | x :: xs' => Some (idxmax_from 0 x 1 xs')
  end.

(** [frame.loc[frame[m].idxmax()]] *)
Definition loc_idxmax (frame : nat) (m : metric_column) : M RunRecord :=
  records ← read_frame frame;
  match idxmax (get_column m <$> records) with
  | None => raise (ValueError "attempt to get argmax of an empty sequence")
  | Some i =>
      match records !! i with
      | Some row => mret row
      | None => raise (KeyError "loc")
      end
  end.

Definition display_row (r : RunRecord) : DisplayRow :=
  {| d_Model := Model r; d_accuracy := accuracy r; d_precision := precision r;
     d_recall := recall r; d_f1_score := f1_score r |}.

Definition dquote : string := String (ascii_of_nat 34) EmptyString.

Definition get_mlflow_model_performance (run_ids : list nat) : M (list (nat * Performance)) :=
  for_each_M (λ performance_data id,
    run ← mlflow_get_run id;
    let model_name := default "Unknown Model" (params run !! "model") in
    match end_time run with
    | None => raise (TypeError "unsupported operand type(s) for -: NoneType and int")
    | Some finished =>
        mret (dict_set id
                {| model_name := model_name;
                   perf_metrics := metrics run;
                   parameters := params run;
                   perf_start_time := start_time run;
                   perf_end_time := finished;
                   duration := (inject_Z (finished - start_time run) / 1000)%Q;
                   perf_status := status run |}
                performance_data)
    end) run_ids [].

Section report.
Context `{Libraries}.

Definition generate_mlflow_performance_plot (performance_data : list (nat * Performance)) :
    M (list (string * string)) :=
  let durations := (λ kv, duration kv.2) <$> performance_data in
  let model_names := (λ kv, model_name kv.2) <$> performance_data in
  let duration_plot_path := os_path_join output_dir "model_durations.png" in
  write_file duration_plot_path (duration_bar_png model_names durations);;
  mret [("duration_plot", "model_durations.png")].

Definition enhance_report_generation (filtered_runs : nat) :
    M (list (string * string) * list (nat * Performance)) :=
  records ← read_frame filtered_runs;
  let run_ids := RunID <$> records in
  performance_data ← get_mlflow_model_performance run_ids;
  performance_plot ← generate_mlflow_performance_plot performance_data;
  mret (performance_plot, performance_data).

(** Lines 196-285 of [generate_report]: everything up to the dict the
    template is rendered with. *)
Definition template_context (filtered_runs : nat) : M (string * TemplateContext) :=
  for_each_M (λ _ metric, round_column filtered_runs metric)
    [col_accuracy; col_precision; col_recall; col_f1_score] tt;;
  records ← read_frame filtered_runs;
  let filtered_runs_display := display_row <$> records in
  let graph_filename := "performance_comparison.png" in
  let graph_save_path := os_path_join output_dir graph_filename in
  write_file graph_save_path (metrics_bar_png filtered_runs_display);;
  best_row ← loc_idxmax filtered_runs col_f1_score;
  let best_model := Model best_row in
  let insights :=
    ["Наилучшая модель: " ++ best_model ++ ", так как она показала лучшие метрики.";
     "Результаты других моделей проанализированы в таблицах выше.";
     "Модели логистической регрессии также продемонстрировали хорошие результаты, но с некоторыми недостатками в полноте для класса "
       ++ dquote ++ "негатив" ++ dquote ++ ".";
     "Модели деревьев решений оказались менее эффективными по сравнению с линейными моделями, что может быть связано с их чувствительностью к переобучению, особенно при увеличении глубины дерева."] in
  let template_path := "report_template.html" in
  w ← get_world;
  let experiment_id := strftime "%Y%m%d%H%M%S" (clock w) in
  let current_date := strftime "%Y-%m-%d %H:%M:%S" (clock w) in
  best_model ← loc_idxmax filtered_runs col_accuracy;
  let best_accuracy := accuracy best_model in
  let best_precision := precision best_model in
  let best_recall := recall best_model in
  let best_f1_score := f1_score best_model in
  rows ← read_frame filtered_runs;
  model_reports ← for_each_M (λ model_reports row,
      let model_name := Model row in
      let report_path := os_path_join output_dir (classification_report_path row) in
      text ← read_file report_path;
      mret (dict_set model_name text model_reports)) rows [];
  template ← read_file template_path;
  mlflow_context ← enhance_report_generation filtered_runs;
  full_runs ← read_frame filtered_runs;
  mret (template,
        {| ctx_experiment_name := experiment_name;
           ctx_runs := filtered_runs_display;
           ctx_full_runs := full_runs;
           ctx_model_reports := model_reports;
           ctx_insights := insights;
           ctx_graph_path := graph_filename;
           ctx_current_date := current_date;
           ctx_experiment_id := experiment_id;
           best_accuracy := best_accuracy;
           best_precision := best_precision;
           best_recall := best_recall;
           best_f1_score := best_f1_score;
           ctx_mlflow_plot := mlflow_context.1;
           ctx_performance_data := mlflow_context.2 |}).

Definition generate_report (filtered_runs : nat) : M unit :=
  tc ← template_context filtered_runs;
  let output_path := os_path_join output_dir "index.html" in
  let html_content := render tc.1 tc.2 in
  write_file output_path html_content.

(** The [if __name__ == "__main__"] block at the top level of
    [experiments.py] (lines 369-375).  The statements of the module level
    that run before it are in [experiments_py] below. *)
Definition experiments_py_main : M unit :=
  experiment_results ← run_experiments;
  generate_report experiment_results.

End report.

(** ** experiments.py: the module level *)

(** What the statements of lines 24-45 call into: clearml's [Task.init],
    pandas' parser of the text of a csv file, scikit-learn's
    [train_test_split] (called with [test_size=0.3, random_state=42]) and
    [mlflow.set_experiment]; each may raise.  [libraries_on] gives the
    libraries as the functions of the script find them through the globals
    [task], [X_train], [X_test], [y_train] and [y_test] that the module
    level has bound. *)
Class ModuleLibraries : Type := {
  task_init : option exn;
  read_csv : string → exn + DataFrame;
  train_test_split : DataFrame → Series → exn + (DataFrame * DataFrame * Series * Series);
  mlflow_set_experiment : string → option exn;
  libraries_on : DataFrame * DataFrame * Series * Series → Libraries
}.

(** A library call that returns nothing, or raises. *)
Definition call (r : option exn) : M unit :=
  match r with
  | Some e => raise e
  | None => mret tt
  end.

(** A pandas operation on a frame: [None] is its [KeyError]. *)
Definition or_key_error {A : Type} (key : string) (r : option A) : M A :=
  match r with
  | Some a => mret a
  | None => raise (KeyError key)
  end.

(** [os.makedirs(path, exist_ok=True)].  The file store is flat and holds
    no directories: the call changes nothing, and raises when a regular
    file has that name. *)
Definition makedirs (path : string) : M unit :=
  w ← get_world;
  match files w !! path with
  | Some _ => raise (FileExistsError path)
  | None => mret tt
  end.

Section module_level.
Context `{ModuleLibraries}.

(** [pd.read_csv(path)] *)
Definition pd_read_csv (path : string) : M DataFrame :=
  text ← read_file path;
  lift_result (read_csv text).

(** [experiments.py] executed with [__name__] bound to [name__]: the
    statements of lines 24-49 in order, the definitions of lines 53-366,
    which bind names only, and the [if __name__ == "__main__"] block of
    lines 369-375.  ([mlflow.set_tracking_uri] stores its argument and is
    left out; the imports of lines 1-22 are taken to succeed.) *)
Definition experiments_py (name__ : string) : M unit :=
  call task_init;;
  data ← pd_read_csv "data/clean_data.csv";
  X ← or_key_error "['Obesity_Binary'] not found in axis"
         (drop_columns ["Obesity_Binary"] data);
  y ← or_key_error "Obesity_Binary" (getitem data "Obesity_Binary");
  split ← lift_result (train_test_split X y);
  call (mlflow_set_experiment experiment_name);;
  makedirs output_dir;;
  if decide (name__ = "__main__")
  then @experiments_py_main (libraries_on split)
  else mret tt.

End module_level.

(** A run record with its four metrics rounded, the rest as it was. *)
Definition round_metrics (r : RunRecord) : RunRecord :=
  {| RunID := RunID r; Model := Model r;
     accuracy := round4 (accuracy r); precision := round4 (precision r);
     recall := round4 (recall r); f1_score := round4 (f1_score r);
     confusion_matrix_path := confusion_matrix_path r;
     classification_report_path := classification_report_path r |}.

(** A computation that leaves every frame object as it found it, whether
    it returns or raises. *)
Definition keeps_frames {A : Type} (m : M A) : Prop :=
  ∀ w, frames (m w).2 = frames w.

(** ** Predicates used by the further properties *)

Definition has_height (n : nat) (df : DataFrame) : Prop :=
  ∀ c s, (c, s) ∈ df → length (values s) = n.

(** ** Sample inputs *)

(** A raw table of four rows: the third holds a missing value, the fourth
    repeats the first. *)
Definition sample_raw : DataFrame :=
  [("Gender", ObjectSeries [Some "Female"; Some "Male"; None; Some "Female"]);
   ("Age", Int64Series [21; 23; 30; 21]%Z);
   ("CAEC", ObjectSeries [Some "Sometimes"; Some "Frequently"; Some "no"; Some "Sometimes"]);
   ("CALC", ObjectSeries [Some "no"; Some "Sometimes"; Some "no"; Some "no"]);
   ("MTRANS", ObjectSeries [Some "Walking"; Some "Public_Transportation"; Some "Walking";
                            Some "Walking"]);
   ("NObeyesdad", ObjectSeries [Some "Normal_Weight"; Some "Obesity_Type_I";
                                Some "Obesity_Type_I"; Some "Normal_Weight"])].

(** What [transform] makes of it once cleaned. *)
Definition sample_out : DataFrame :=
  [("Gender", Int64Series [0; 1]%Z);
   ("Age", Float64Series [Some (-1)%R; Some 1%R]);
   ("Obesity_Binary", Int64Series [0; 1]%Z);
   ("MTRANS_Binary", Int64Series [0; 0]%Z);
   ("CAEC_binary", Int64Series [0; 0]%Z);
   ("CALC_binary", Int64Series [0; 0]%Z)].

(** The cleaned sample after the loop of lines 41-43, and after line 49. *)
Definition sample_after_loop : DataFrame :=
  [("Gender", Int64Series [0; 1]%Z);
   ("Age", Int64Series [21; 23]%Z);
   ("CAEC", Int64Series [0; 1]%Z);
   ("CALC", Int64Series [0; 1]%Z);
   ("MTRANS", Int64Series [0; 1]%Z);
   ("Obesity_Binary", Int64Series [0; 1]%Z)].

Definition sample_after_indicators : DataFrame :=
  [("Gender", Int64Series [0; 1]%Z);
   ("Age", Int64Series [21; 23]%Z);
   ("Obesity_Binary", Int64Series [0; 1]%Z);
   ("MTRANS_Binary", Int64Series [0; 0]%Z);
   ("CAEC_binary", Int64Series [0; 0]%Z);
   ("CALC_binary", Int64Series [0; 0]%Z)].

(** A table whose [Gender] column holds one value only, and what
    [transform] makes of it. *)
Definition mono_raw : DataFrame :=
  [("Gender", ObjectSeries [Some "Female"; Some "Female"]);
   ("Age", Int64Series [21; 23]%Z);
   ("CAEC", ObjectSeries [Some "Sometimes"; Some "Frequently"]);
   ("CALC", ObjectSeries [Some "no"; Some "Sometimes"]);
   ("MTRANS", ObjectSeries [Some "Walking"; Some "Public_Transportation"]);
   ("NObeyesdad", ObjectSeries [Some "Normal_Weight"; Some "Obesity_Type_I"])].

Definition mono_out : DataFrame :=
  [("Gender", ObjectSeries [Some "Female"; Some "Female"]);
   ("Age", Float64Series [Some (-1)%R; Some 1%R]);
   ("Obesity_Binary", Int64Series [0; 1]%Z);
   ("MTRANS_Binary", Int64Series [0; 0]%Z);
   ("CAEC_binary", Int64Series [0; 0]%Z);
   ("CALC_binary", Int64Series [0; 0]%Z)].

(** A table whose numeric column [Age] is constant, and what [transform]
    makes of it. *)
Definition const_raw : DataFrame :=
  [("Gender", ObjectSeries [Some "Female"; Some "Male"]);
   ("Age", Int64Series [21; 21]%Z);
   ("CAEC", ObjectSeries [Some "Sometimes"; Some "Frequently"]);
   ("CALC", ObjectSeries [Some "no"; Some "Sometimes"]);
   ("MTRANS", ObjectSeries [Some "Walking"; Some "Public_Transportation"]);
   ("NObeyesdad", ObjectSeries [Some "Normal_Weight"; Some "Obesity_Type_I"])].

Definition const_out : DataFrame :=
  [("Gender", Int64Series [0; 1]%Z);
   ("Age", Float64Series [Some 0%R; Some 0%R]);
   ("Obesity_Binary", Int64Series [0; 1]%Z);
   ("MTRANS_Binary", Int64Series [0; 0]%Z);
   ("CAEC_binary", Int64Series [0; 0]%Z);
   ("CALC_binary", Int64Series [0; 0]%Z)].

(** Evaluates the first stage of a chain of fallible stages. *)
Ltac eval_stage :=
  match goal with
  | |- context [mbind _ ?e] =>
      let v := eval vm_compute in e in
      replace e with v by (vm_compute; reflexivity);
      cbn [mbind option_bind]
  end.

(** Libraries for a sample run: the linear SVM predicts worse than the
    other four models on accuracy and better on F1. *)
Definition sample_libraries : Libraries :=
  {| y_test := [0; 1; 1]%Z;
     fit_predict := λ model,
       match model with
       | SVC _ _ => inr [1; 1; 1]%Z
       | _ => inr [0; 1; 0]%Z
       end;
     accuracy_score := λ _ y_pred,
       match y_pred with [1; 1; 1]%Z => (1 # 2)%Q | _ => (2 # 3)%Q end;
     precision_score := λ _ _, (1 # 3)%Q;
     recall_score := λ _ _, (1 # 3)%Q;
     weighted_f1_score := λ _ y_pred,
       match y_pred with [1; 1; 1]%Z => (7 # 8)%Q | _ => (1 # 3)%Q end;
     classification_report := λ _ _, "report";
     get_params := λ _, [("random_state", "42")];
     heatmap_png := λ _ _ _, "png";
     metrics_bar_png := λ _, "png";
     duration_bar_png := λ _ _, "png";
     render := λ template _, template;
     task_connect := λ _, None;
     strftime := λ _ _, "20240101_000000" |}.

(** The same libraries, with a linear SVM that cannot be fitted. *)
Definition failing_libraries : Libraries :=
  {| y_test := [0; 1; 1]%Z;
     fit_predict := λ model,
       match model with
       | SVC _ _ => inl (ValueError "could not convert string to float")
       | _ => inr [0; 1; 0]%Z
       end;
     accuracy_score := λ _ _, (2 # 3)%Q;
     precision_score := λ _ _, (1 # 3)%Q;
     recall_score := λ _ _, (1 # 3)%Q;
     weighted_f1_score := λ _ _, (1 # 3)%Q;
     classification_report := λ _ _, "report";
     get_params := λ _, [("random_state", "42")];
     heatmap_png := λ _ _ _, "png";
     metrics_bar_png := λ _, "png";
     duration_bar_png := λ _ _, "png";
     render := λ template _, template;
     task_connect := λ _, None;
     strftime := λ _ _, "20240101_000000" |}.

(** A world that holds the report template and nothing else. *)
Definition sample_world : World :=
  {| files := {[ "report_template.html" := "<html>" ]};
     mlruns := ∅; active_run := None; frames := ∅; clock := 0 |}.

(** Libraries for the module level of a sample run: the data file parses
    to the sample output table, and the split hands both halves the whole
    table. *)
Definition sample_module_libraries : ModuleLibraries :=
  {| task_init := None;
     read_csv := λ _, inr sample_out;
     train_test_split := λ X y, inr (X, X, y, y);
     mlflow_set_experiment := λ _, None;
     libraries_on := λ _, sample_libraries |}.

(** The sample output table without its target column. *)
Definition sample_features : DataFrame :=
  [("Gender", Int64Series [0; 1]%Z);
   ("Age", Float64Series [Some (-1)%R; Some 1%R]);
   ("MTRANS_Binary", Int64Series [0; 0]%Z);
   ("CAEC_binary", Int64Series [0; 0]%Z);
   ("CALC_binary", Int64Series [0; 0]%Z)].

(** A world that holds the data file and the report template. *)
Definition sample_data_world : World :=
  {| files := {[ "report_template.html" := "<html>";
                 "data/clean_data.csv" := "Gender,Age,Obesity_Binary,MTRANS_Binary,CAEC_binary,CALC_binary" ]};
     mlruns := ∅; active_run := None; frames := ∅; clock := 0 |}.

(** A world after two runs: model A is ahead on accuracy, model B on
    F1.  Both reports and the template are on disk. *)
Definition two_runs : list RunRecord :=
  [{| RunID := 0; Model := "A"; accuracy := (9 # 10)%Q; precision := (1 # 2)%Q;
      recall := (1 # 2)%Q; f1_score := (1 # 2)%Q;
      confusion_matrix_path := "confusion_matrix_a.png";
      classification_report_path := "classification_report_a.txt" |};
   {| RunID := 1; Model := "B"; accuracy := (8 # 10)%Q; precision := (3 # 4)%Q;
      recall := (3 # 4)%Q; f1_score := (7 # 10)%Q;
      confusion_matrix_path := "confusion_matrix_b.png";
      classification_report_path := "classification_report_b.txt" |}].

Definition finished_run (name : string) : RunInfo :=
  {| run_name := name; params := {[ "model" := name ]}; metrics := ∅; artifacts := [];
     logged_models := []; start_time := 0; end_time := Some 1000%Z;
     status := "FINISHED" |}.

Definition two_runs_world : World :=
  {| files := {[ "report_template.html" := "<html>";
                 "mlflow_output/classification_report_a.txt" := "report A";
                 "mlflow_output/classification_report_b.txt" := "report B" ]};
     mlruns := {[ 0 := finished_run "A"; 1 := finished_run "B" ]};
     active_run := None;
     frames := {[ 0 := two_runs ]};
     clock := 0 |}.

(** Two runs whose F1 scores and accuracies differ in the fifth decimal
    only: model B is ahead on both. *)
Definition close_runs : list RunRecord :=
  [{| RunID := 0; Model := "A"; accuracy := (90001 # 100000)%Q; precision := (1 # 2)%Q;
      recall := (1 # 2)%Q; f1_score := (90001 # 100000)%Q;
      confusion_matrix_path := "confusion_matrix_a.png";
      classification_report_path := "classification_report_a.txt" |};
   {| RunID := 1; Model := "B"; accuracy := (90004 # 100000)%Q; precision := (3 # 4)%Q;
      recall := (3 # 4)%Q; f1_score := (90004 # 100000)%Q;
      confusion_matrix_path := "confusion_matrix_b.png";
      classification_report_path := "classification_report_b.txt" |}].

Definition close_runs_world : World :=
  {| files := files two_runs_world;
     mlruns := mlruns two_runs_world;
     active_run := None;
     frames := {[ 0 := close_runs ]};
     clock := 0 |}.

(** A table whose [MTRANS] and [CAEC] columns hold one value only, and what
    [transform] makes of it. *)
Definition commuters_raw : DataFrame :=
  [("Age", Int64Series [21; 23]%Z);
   ("CAEC", ObjectSeries [Some "Frequently"; Some "Frequently"]);
   ("CALC", ObjectSeries [Some "no"; Some "Sometimes"]);
   ("MTRANS", ObjectSeries [Some "Public_Transportation"; Some "Public_Transportation"]);
   ("NObeyesdad", ObjectSeries [Some "Normal_Weight"; Some "Obesity_Type_I"])].

Definition commuters_out : DataFrame :=
  [("Age", Float64Series [Some (-1)%R; Some 1%R]);
   ("Obesity_Binary", Int64Series [0; 1]%Z);
   ("MTRANS_Binary", Int64Series [1; 1]%Z);
   ("CAEC_binary", Int64Series [1; 1]%Z);
   ("CALC_binary", Int64Series [0; 0]%Z)].

(** ** Facts about the pandas fragment *)

Lemma mask_fmap {A B : Type} (f : A → B) (m : list bool) (xs : list A) :
  mask m (f <$> xs) = f <$> mask m xs.
Proof.
  revert xs; induction m as [|b m IH]; intros [|x xs]; simpl; try done.
  destruct b; simpl; by rewrite IH.
Qed.

Lemma mask_zip_with {A B C : Type} (f : A → B → C) (m : list bool) xs ys :
  mask m (zip_with f xs ys) = zip_with f (mask m xs) (mask m ys).
Proof.
  revert xs ys; induction m as [|b m IH]; intros xs ys; [by destruct xs, ys|].
  destruct xs as [|x xs], ys as [|y ys]; simpl; try done.
  - destruct b; simpl; [done|]. by destruct (mask m xs).
  - destruct b; simpl; by rewrite IH.
Qed.

Lemma elem_of_mask {A : Type} (m : list bool) (xs : list A) (x : A) :
  x ∈ mask m xs ↔ ∃ i, m !! i = Some true ∧ xs !! i = Some x.
Proof.
  revert xs; induction m as [|b m IH]; intros [|y xs]; simpl.
  - split; [by intros ?%elem_of_nil | by intros (i & ? & ?)].
  - split; [by intros ?%elem_of_nil | by intros (i & ? & ?)].
  - split; [by intros ?%elem_of_nil | by intros (i & ? & ?)].
  - destruct b.
    + rewrite elem_of_cons, IH. split.
      * intros [->|(i & ? & ?)]; [by exists 0 | by exists (S i)].
      * intros ([|i] & ? & ?); simplify_eq/=; [by left | right; eauto].
    + rewrite IH. split.
      * intros (i & ? & ?); by exists (S i).
      * intros ([|i] & ? & ?); simplify_eq/=; eauto.
Qed.

Lemma mask_length_le {A : Type} (m : list bool) (xs : list A) :
  length (mask m xs) ≤ length xs.
Proof.
  revert xs; induction m as [|b m IH]; intros [|x xs]; simpl; try lia.
  specialize (IH xs). destruct b; simpl; lia.
Qed.

Lemma values_series_mask m s : values (series_mask m s) = mask m (values s).
Proof. destruct s; simpl; by rewrite mask_fmap. Qed.

Lemma rows_frame_mask m df : rows (frame_mask m df) = mask m (rows df).
Proof.
  induction df as [|[c s] df IH]; [by destruct m|].
  simpl. destruct df as [|kv df].
  - simpl. by rewrite values_series_mask, mask_fmap.
  - change (frame_mask m (kv :: df)) with ((kv.1, series_mask m kv.2) :: frame_mask m df) in *.
    rewrite values_series_mask, mask_zip_with. by rewrite <- IH.
Qed.

Lemma elem_of_frame_mask m (df : DataFrame) c s :
  (c, s) ∈ frame_mask m df ↔ ∃ s0, s = series_mask m s0 ∧ (c, s0) ∈ df.
Proof.
  unfold frame_mask. rewrite list_elem_of_fmap. split.
  - intros ([c0 s0] & ? & ?); simplify_eq/=. eauto.
  - intros (s0 & -> & ?). by exists (c, s0).
Qed.

Lemma rows_lookup (df : DataFrame) c s i r :
  (c, s) ∈ df → rows df !! i = Some r → ∃ v, values s !! i = Some v ∧ v ∈ r.
Proof.
  revert r; induction df as [|[c0 s0] df IH]; intros r Hin Hr; [by apply elem_of_nil in Hin|].
  simpl in Hr. destruct df as [|kv df].
  - apply list_elem_of_singleton in Hin. injection Hin as -> ->.
    rewrite list_lookup_fmap in Hr.
    destruct (values s0 !! i) as [v|]; simplify_eq/=.
    exists v; split; [done | apply list_elem_of_singleton; done].
  - apply lookup_zip_with_Some in Hr as (v & r' & -> & Hv & Hr').
    apply elem_of_cons in Hin as [Heq|Hin]; [injection Heq as -> ->|].
    + exists v; split; [done | by left].
    + destruct (IH r' Hin Hr') as (w & ? & ?). exists w; split; [done | by right].
Qed.

Lemma notna_true v : notna v = true ↔ v ≠ NaN.
Proof. by destruct v. Qed.

Lemma dropna_notna (df : DataFrame) c s v :
  (c, s) ∈ dropna df → v ∈ values s → v ≠ NaN.
Proof.
  unfold dropna. intros (s0 & -> & Hin)%elem_of_frame_mask.
  rewrite values_series_mask. intros (i & Hm & Hv)%elem_of_mask.
  rewrite list_lookup_fmap in Hm.
  destruct (rows df !! i) as [r|] eqn:Hr; simplify_eq/=.
  destruct (rows_lookup df c s0 i r Hin Hr) as (w & ? & Hw); simplify_eq.
  apply notna_true. rewrite forallb_forall in Hm. apply Hm.
  by apply list_elem_of_In.
Qed.

Lemma frame_mask_values m (df : DataFrame) c s v :
  (c, s) ∈ frame_mask m df → v ∈ values s → ∃ s0, (c, s0) ∈ df ∧ v ∈ values s0.
Proof.
  intros (s0 & -> & Hin)%elem_of_frame_mask.
  rewrite values_series_mask. intros (i & _ & Hv)%elem_of_mask.
  exists s0; split; [done|]. by eapply list_elem_of_lookup_2.
Qed.

Lemma filter_nil_Forall {A : Type} (P : A → Prop) `{∀ x, Decision (P x)} (l : list A) :
  Forall (λ x, ¬ P x) l → filter P l = [].
Proof.
  induction 1 as [|x l Hx _ IH]; [done|]. by rewrite filter_cons_False.
Qed.

Lemma count_missing_0 (df : DataFrame) :
  (∀ c s v, (c, s) ∈ df → v ∈ values s → v ≠ NaN) → count_missing df = 0.
Proof.
  unfold count_missing. induction df as [|[c s] df IH]; intros Hna; [done|].
  rewrite fmap_cons. cbn [sum_list snd].
  rewrite IH by (intros; eapply Hna; [by right|done]).
  assert (filter (λ v, notna v = false) (values s) = []) as ->; [|done].
  apply filter_nil_Forall, Forall_forall. intros v Hv Hf.
  eapply Hna in Hv; [|by left]. apply notna_true in Hv. congruence.
Qed.

Lemma duplicated_from_NoDup (seen rs : list (list cell)) :
  NoDup (mask (negb <$> duplicated_from seen rs) rs)
  ∧ ∀ r, r ∈ mask (negb <$> duplicated_from seen rs) rs → (r ∉ seen) ∧ (r ∈ rs).
Proof.
  revert seen; induction rs as [|r rs IH]; intros seen; simpl.
  - split; [constructor | by intros r ?%elem_of_nil].
  - destruct (IH (r :: seen)) as [Hnd Hsub]. case_bool_decide; simpl.
    + split; [done|]. intros r' Hr'. destruct (Hsub r' Hr') as [Hn ?].
      split; [|by right]. intros ?; apply Hn; by right.
    + split.
      * constructor; [|done]. intros Hr. destruct (Hsub r Hr) as [Hn _].
        apply Hn; by left.
      * intros r' [->|Hr']%elem_of_cons; [split; [done | by left]|].
        destruct (Hsub r' Hr') as [Hn ?]. split; [|by right].
        intros ?; apply Hn; by right.
Qed.

Lemma duplicated_from_fresh (seen rs : list (list cell)) :
  NoDup rs → (∀ r, r ∈ rs → r ∉ seen) →
  filter (λ b, b = true) (duplicated_from seen rs) = [].
Proof.
  intros Hnd; revert seen; induction Hnd as [|r rs Hr Hnd IH]; intros seen Hs; [done|].
  simpl. rewrite filter_cons. rewrite bool_decide_eq_false_2 by (apply Hs; by left).
  case_decide; [done|]. apply IH. intros r' Hr' [->|?]%elem_of_cons; [done|].
  eapply Hs; [by right | done].
Qed.

Lemma clean_data_values_notna (df : DataFrame) c s v :
  (c, s) ∈ clean_data df → v ∈ values s → v ≠ NaN.
Proof.
  unfold clean_data, drop_duplicates. intros Hin Hv.
  destruct (frame_mask_values _ _ _ _ _ Hin Hv) as (s0 & Hin0 & Hv0).
  by eapply dropna_notna.
Qed.

(** C2: whatever the input table, the cleaned table holds no missing value
    and no repeated row, and it has at most as many rows as the input. *)
Theorem clean_data_no_missing_no_duplicates (df : DataFrame) :
  count_missing (clean_data df) = 0
  ∧ count_duplicates (clean_data df) = 0
  ∧ NoDup (rows (clean_data df))
  ∧ nrows (clean_data df) ≤ nrows df.
Proof.
  assert (NoDup (rows (clean_data df))) as Hnd.
  { unfold clean_data, drop_duplicates, duplicated. rewrite rows_frame_mask.
    apply duplicated_from_NoDup. }
  split; [|split; [|split]]; [| |done|].
  - apply count_missing_0. apply clean_data_values_notna.
  - unfold count_duplicates, duplicated.
    rewrite duplicated_from_fresh; [done | done | by intros r _ ?%elem_of_nil].
  - unfold clean_data, drop_duplicates, dropna, nrows.
    destruct df as [|[c s] df]; [done|].
    cbn [frame_mask fmap list_fmap]. cbn [fst snd].
    rewrite !values_series_mask.
    etrans; [apply mask_length_le|]. apply mask_length_le.
Qed.

(** *** Columns by name *)

Lemma getitem_Some_elem_of (df : DataFrame) c s :
  getitem df c = Some s → (c, s) ∈ df.
Proof.
  induction df as [|[k s0] df IH]; simpl; [done|].
  case_decide; simplify_eq.
  - intros [= ->]. by left.
  - intros ?. right. by apply IH.
Qed.

Lemma getitem_None (df : DataFrame) c :
  getitem df c = None ↔ c ∉ columns df.
Proof.
  unfold columns. induction df as [|[k s0] df IH]; simpl.
  - split; [intros _ ?%elem_of_nil; done | done].
  - rewrite not_elem_of_cons. case_decide as Hk.
    + split; [done | by intros [? _]].
    + rewrite IH. split; [by split; [congruence|] | by intros [_ ?]].
Qed.

Lemma getitem_is_Some (df : DataFrame) c :
  is_Some (getitem df c) ↔ c ∈ columns df.
Proof.
  rewrite <- not_eq_None_Some, getitem_None.
  destruct (decide (c ∈ columns df)); naive_solver.
Qed.

Lemma elem_of_getitem (df : DataFrame) c s :
  NoDup (columns df) → (c, s) ∈ df → getitem df c = Some s.
Proof.
  unfold columns. induction df as [|[k s0] df IH]; simpl; intros Hnd Hin;
    [by apply elem_of_nil in Hin|].
  apply NoDup_cons in Hnd as [Hk Hnd].
  apply elem_of_cons in Hin as [Heq|Hin]; [injection Heq as -> ->|].
  - by rewrite decide_True.
  - rewrite decide_False; [by apply IH|].
    intros ->. apply Hk. apply list_elem_of_fmap. by exists (c, s).
Qed.

Lemma columns_setitem (df : DataFrame) c s :
  columns (setitem df c s) =
    if decide (c ∈ columns df) then columns df else (columns df ++ [c])%list.
Proof.
  unfold setitem, columns. case_decide as Hc.
  - rewrite <- list_fmap_compose. apply list_fmap_ext.
    intros i [k s0] _. simpl. by case_decide.
  - by rewrite fmap_app.
Qed.

Lemma NoDup_columns_setitem (df : DataFrame) c s :
  NoDup (columns df) → NoDup (columns (setitem df c s)).
Proof.
  intros Hnd. rewrite columns_setitem. case_decide; [done|].
  apply NoDup_app. split; [done|]. split; [|apply NoDup_singleton].
  intros k Hk ->%list_elem_of_singleton. done.
Qed.

Lemma getitem_setitem_eq (df : DataFrame) c s :
  getitem (setitem df c s) c = Some s.
Proof.
  unfold setitem. case_decide as Hc.
  - unfold columns in Hc. induction df as [|[k s0] df IH]; [by apply elem_of_nil in Hc|].
    simpl. case_decide; simplify_eq/=; [by rewrite decide_True|].
    rewrite decide_False by done. apply IH.
    apply elem_of_cons in Hc as [?|?]; [congruence | done].
  - apply getitem_None in Hc. induction df as [|[k s0] df IH]; simpl in *.
    + by rewrite decide_True.
    + case_decide; [done|]. by apply IH.
Qed.

Lemma getitem_setitem_ne (df : DataFrame) c c' s :
  c ≠ c' → getitem (setitem df c s) c' = getitem df c'.
Proof.
  intros Hne. unfold setitem. case_decide as Hc; clear Hc.
  - induction df as [|[k s0] df IH]; [done|]. simpl.
    case_decide; simplify_eq/=.
    + by rewrite !decide_False by done.
    + case_decide; [done | apply IH].
  - induction df as [|[k s0] df IH]; simpl.
    + by rewrite decide_False.
    + case_decide; [done | apply IH].
Qed.

Lemma getitem_setitem (df : DataFrame) c c' s :
  getitem (setitem df c s) c' = if decide (c = c') then Some s else getitem df c'.
Proof.
  case_decide as Hc; [subst; apply getitem_setitem_eq | by apply getitem_setitem_ne].
Qed.

Lemma getitem_filter_drop (cs : list string) (df : DataFrame) c :
  getitem (filter (λ kv, kv.1 ∉ cs) df) c = if decide (c ∈ cs) then None else getitem df c.
Proof.
  induction df as [|[k s0] df IH]; simpl; [by case_decide|].
  rewrite filter_cons. simpl. destruct (decide (k ∉ cs)) as [Hk|Hk]; simpl.
  - destruct (decide (k = c)) as [->|]; [by rewrite decide_False | done].
  - rewrite IH. destruct (decide (c ∈ cs)) as [Hc|Hc]; [done|].
    rewrite decide_False; [done | by intros ->].
Qed.

Lemma drop_columns_Some cs (df df' : DataFrame) :
  drop_columns cs df = Some df' →
  df' = filter (λ kv, kv.1 ∉ cs) df ∧ Forall (λ c, c ∈ columns df) cs.
Proof. unfold drop_columns. case_decide; naive_solver. Qed.

Lemma getitem_drop_columns cs (df df' : DataFrame) c :
  drop_columns cs df = Some df' →
  getitem df' c = if decide (c ∈ cs) then None else getitem df c.
Proof.
  intros [-> _]%drop_columns_Some. apply getitem_filter_drop.
Qed.

Lemma NoDup_columns_filter (P : string * Series → Prop) `{∀ kv, Decision (P kv)}
    (df : DataFrame) :
  NoDup (columns df) → NoDup (columns (filter P df)).
Proof.
  unfold columns. induction df as [|[k s0] df IH]; simpl; [done|].
  intros [Hk Hnd]%NoDup_cons. rewrite filter_cons. case_decide; [|by apply IH].
  simpl. apply NoDup_cons. split; [|by apply IH].
  intros ([k' s'] & ? & [_ ?]%list_elem_of_filter)%list_elem_of_fmap; simplify_eq/=.
  apply Hk. apply list_elem_of_fmap. by exists (k', s').
Qed.

Lemma NoDup_columns_drop cs (df df' : DataFrame) :
  drop_columns cs df = Some df' → NoDup (columns df) → NoDup (columns df').
Proof. intros [-> _]%drop_columns_Some. apply NoDup_columns_filter. Qed.

Lemma columns_frame_mask m (df : DataFrame) : columns (frame_mask m df) = columns df.
Proof.
  unfold columns, frame_mask. rewrite <- list_fmap_compose.
  apply list_fmap_ext. by intros i [k s0] _.
Qed.

Lemma columns_clean_data (df : DataFrame) : columns (clean_data df) = columns df.
Proof. unfold clean_data, drop_duplicates, dropna. by rewrite !columns_frame_mask. Qed.

(** *** The stages of [transform], column by column *)

Lemma add_target_getitem (df df' : DataFrame) :
  add_target df = Some df' →
  ∃ label, getitem df "NObeyesdad" = Some label ∧
    ∀ c, getitem df' c =
      if decide (c = "NObeyesdad") then None
      else if decide (c = "Obesity_Binary")
           then Some (apply obesity_lambda label)
           else getitem df c.
Proof.
  unfold add_target. destruct (getitem df "NObeyesdad") as [label|]; [|done].
  simpl. intros Hd. exists label. split; [done|]. intros c.
  rewrite (getitem_drop_columns _ _ _ c Hd).
  destruct (decide (c = "NObeyesdad")) as [->|Hc].
  - by rewrite decide_True by (by apply list_elem_of_singleton).
  - rewrite decide_False by (by rewrite list_elem_of_singleton).
    rewrite getitem_setitem. destruct (decide (c = "Obesity_Binary")) as [->|].
    + by rewrite decide_True.
    + by rewrite decide_False.
Qed.

Lemma add_target_NoDup (df df' : DataFrame) :
  add_target df = Some df' → NoDup (columns df) → NoDup (columns df').
Proof.
  unfold add_target. destruct (getitem df "NObeyesdad") as [label|]; [|done].
  simpl. intros Hd Hnd. eapply NoDup_columns_drop; [done|].
  by apply NoDup_columns_setitem.
Qed.

Lemma binarize_column_getitem (df df' : DataFrame) col :
  binarize_column df col = Some df' →
  ∃ s, getitem df col = Some s ∧
    ∀ c, getitem df' c = if decide (c = col) then Some (binarized s) else getitem df c.
Proof.
  unfold binarize_column, binarized.
  destruct (getitem df col) as [s|] eqn:Hs; [|done]. simpl.
  intros Hb. exists s. split; [done|]. intros c.
  destruct (decide (nunique s = 2)) as [Hn|Hn].
  - destruct (unique s) as [|k0 [|k1 ks]]; simplify_eq/=.
    rewrite getitem_setitem. destruct (decide (c = col)) as [->|].
    + by rewrite decide_True.
    + by rewrite decide_False.
  - simplify_eq. by destruct (decide (c = col)) as [->|].
Qed.

Lemma binarize_column_columns (df df' : DataFrame) col :
  binarize_column df col = Some df' → columns df' = columns df.
Proof.
  unfold binarize_column.
  destruct (getitem df col) as [s|] eqn:Hs; [|done]. simpl.
  case_decide; [|by intros [= ->]].
  destruct (unique s !! 0); [|done]. destruct (unique s !! 1); [|done]. simpl.
  intros [= <-]. rewrite columns_setitem. rewrite decide_True; [done|].
  apply getitem_is_Some. by exists s.
Qed.

Lemma for_each_binarize_columns cats (df df' : DataFrame) :
  for_each binarize_column cats df = Some df' → columns df' = columns df.
Proof.
  revert df; induction cats as [|col cats IH]; intros df; simpl; [by intros [= ->]|].
  destruct (binarize_column df col) as [df1|] eqn:H1; [|done]. simpl.
  intros H2. rewrite (IH _ H2). by eapply binarize_column_columns.
Qed.

Lemma for_each_binarize_getitem cats (df df' : DataFrame) :
  NoDup cats → for_each binarize_column cats df = Some df' →
  ∀ c, getitem df' c =
    if decide (c ∈ cats) then binarized <$> getitem df c else getitem df c.
Proof.
  intros Hnd; revert df; induction Hnd as [|col cats Hcol Hnd IH]; intros df; simpl.
  - by intros [= ->] c.
  - destruct (binarize_column df col) as [df1|] eqn:H1; [|done]. simpl.
    intros H2 c. rewrite (IH _ H2 c).
    destruct (binarize_column_getitem _ _ _ H1) as (s & Hs & Hg).
    rewrite (Hg c). destruct (decide (c = col)) as [->|Hc].
    + rewrite decide_False by done. rewrite decide_True by (by left). by rewrite Hs.
    + destruct (decide (c ∈ cats)).
      * by rewrite decide_True by (by right).
      * rewrite decide_False; [done|]. by intros [?|?]%elem_of_cons.
Qed.

Lemma add_indicators_getitem (df df' : DataFrame) :
  add_indicators df = Some df' →
  ∃ mtrans caec calc,
    getitem df "MTRANS" = Some mtrans ∧ getitem df "CAEC" = Some caec
    ∧ getitem df "CALC" = Some calc
    ∧ ∀ c, getitem df' c =
        if decide (c ∈ ["MTRANS"; "CALC"; "CAEC"]) then None
        else if decide (c = "CALC_binary") then Some (apply frequency_lambda calc)
        else if decide (c = "CAEC_binary") then Some (apply frequency_lambda caec)
        else if decide (c = "MTRANS_Binary") then Some (apply mtrans_lambda mtrans)
        else getitem df c.
Proof.
  unfold add_indicators.
  destruct (getitem df "MTRANS") as [mtrans|] eqn:Hm; [|done]. cbn [mbind option_bind].
  rewrite getitem_setitem_ne by done.
  destruct (getitem df "CAEC") as [caec|] eqn:Hcaec; [|done]. cbn [mbind option_bind].
  rewrite !getitem_setitem_ne by done.
  destruct (getitem df "CALC") as [calc|] eqn:Hcalc; [|done]. cbn [mbind option_bind].
  intros Hd. exists mtrans, caec, calc. do 3 (split; [done|]). intros c.
  rewrite (getitem_drop_columns _ _ _ c Hd).
  destruct (decide (c ∈ ["MTRANS"; "CALC"; "CAEC"])); [done|].
  rewrite !getitem_setitem.
  destruct (decide (c = "CALC_binary")) as [->|]; [by rewrite decide_True|].
  rewrite decide_False by done.
  destruct (decide (c = "CAEC_binary")) as [->|]; [by rewrite decide_True|].
  rewrite decide_False by done.
  destruct (decide (c = "MTRANS_Binary")) as [->|]; [by rewrite decide_True|].
  by rewrite decide_False by done.
Qed.

Lemma add_indicators_NoDup (df df' : DataFrame) :
  add_indicators df = Some df' → NoDup (columns df) → NoDup (columns df').
Proof.
  unfold add_indicators.
  destruct (getitem df "MTRANS") as [mtrans|]; [|done]. cbn [mbind option_bind].
  destruct (getitem _ "CAEC") as [caec|]; [|done]. cbn [mbind option_bind].
  destruct (getitem _ "CALC") as [calc|]; [|done]. cbn [mbind option_bind].
  intros Hd Hnd. eapply NoDup_columns_drop; [done|].
  by do 3 apply NoDup_columns_setitem.
Qed.

(** Assigning a list of named columns, as the scaler's result is. *)
Lemma getitem_foldl_setitem {A : Type} (g : A → Series) (l : list (string * A))
    (df : DataFrame) c :
  NoDup l.*1 →
  getitem (foldl (λ df cx, setitem df cx.1 (g cx.2)) df l) c =
    match list_find (λ cx, cx.1 = c) l with
    | Some (_, cx) => Some (g cx.2)
    | None => getitem df c
    end.
Proof.
  revert df; induction l as [|[k x] l IH]; intros df Hnd; [done|].
  apply NoDup_cons in Hnd as [Hk Hnd]. simpl. rewrite IH by done.
  destruct (decide (k = c)) as [->|Hkc]; simpl.
  - destruct (list_find _ l) as [[i [k' x']]|] eqn:Hf; simpl.
    + apply list_find_Some in Hf as (Hi & Hk' & _). simpl in Hk'. subst k'.
      destruct Hk. apply list_elem_of_fmap. exists (c, x'). split; [done|].
      by eapply list_elem_of_lookup_2.
    + apply getitem_setitem_eq.
  - destruct (list_find _ l) as [[i [k' x']]|]; simpl; [done|].
    by apply getitem_setitem_ne.
Qed.

Lemma NoDup_columns_foldl_setitem {A : Type} (g : A → Series) (l : list (string * A))
    (df : DataFrame) :
  NoDup (columns df) → NoDup (columns (foldl (λ df cx, setitem df cx.1 (g cx.2)) df l)).
Proof.
  revert df; induction l as [|[k x] l IH]; intros df Hnd; [done|].
  simpl. apply IH. by apply NoDup_columns_setitem.
Qed.

Lemma list_find_zip_fmap {A B : Type} (R : string → A → Prop) (f : A → B)
    (nums : list string) (X : list A) c :
  Forall2 R nums X →
  match list_find (λ cx, cx.1 = c) (zip nums (f <$> X)) with
  | Some (_, cx) => c ∈ nums ∧ ∃ xs, cx = (c, f xs) ∧ R c xs
  | None => c ∉ nums
  end.
Proof.
  induction 1 as [|k xs nums X HR HF IH]; simpl in *; [by intros ?%elem_of_nil|].
  destruct (decide (k = c)) as [->|Hk]; simpl.
  - split; [by left | by exists xs].
  - destruct (list_find _ _) as [[i cx]|]; simpl.
    + destruct IH as [? ?]. split; [by right | done].
    + by intros [?|?]%elem_of_cons.
Qed.

Lemma scale_numeric_Some nums (df df' : DataFrame) :
  scale_numeric nums df = Some df' →
  ∃ X, Forall2 (λ c xs, getitem df c ≫= to_float = Some xs) nums X
    ∧ fit_transform X = Some (standardize <$> X)
    ∧ df' = foldl (λ df cx, setitem df cx.1 (Float64Series (Some <$> cx.2))) df
              (zip nums (standardize <$> X)).
Proof.
  unfold scale_numeric.
  destruct (mapM _ nums) as [X|] eqn:HX; [|done]. cbn [mbind option_bind].
  destruct (fit_transform X) as [X'|] eqn:HX'; [|done]. cbn [mbind option_bind].
  intros [= <-]. exists X. apply mapM_Some in HX.
  assert (X' = standardize <$> X) as ->.
  { unfold fit_transform in HX'. destruct X as [|xs X]; [done|].
    case_decide; by simplify_eq. }
  done.
Qed.

Lemma scale_numeric_getitem nums (df df' : DataFrame) :
  NoDup nums → scale_numeric nums df = Some df' →
  ∀ c, getitem df' c =
    if decide (c ∈ nums)
    then s ← getitem df c; xs ← to_float s; Some (Float64Series (Some <$> standardize xs))
    else getitem df c.
Proof.
  intros Hnd (X & HX & _ & ->)%scale_numeric_Some c.
  rewrite (getitem_foldl_setitem (λ xs, Float64Series (Some <$> xs))).
  - pose proof (list_find_zip_fmap _ standardize nums X c HX) as Hf.
    destruct (list_find _ _) as [[i cx]|].
    + destruct Hf as (Hc & xs & -> & Hxs). rewrite decide_True by done. simpl.
      destruct (getitem df c) as [s0|]; [|done]. simpl in *. by rewrite Hxs.
    + by rewrite decide_False.
  - rewrite fst_zip; [done|]. rewrite length_fmap.
    by rewrite (Forall2_length _ _ _ HX).
Qed.

Lemma scale_numeric_NoDup nums (df df' : DataFrame) :
  scale_numeric nums df = Some df' → NoDup (columns df) → NoDup (columns df').
Proof.
  intros (X & _ & _ & ->)%scale_numeric_Some Hnd.
  by apply (NoDup_columns_foldl_setitem (λ xs, Float64Series (Some <$> xs))).
Qed.

Lemma for_each_binarize_other cats (df df' : DataFrame) c :
  c ∉ cats → for_each binarize_column cats df = Some df' → getitem df' c = getitem df c.
Proof.
  revert df; induction cats as [|col cats IH]; intros df Hc; simpl; [by intros [= ->]|].
  apply not_elem_of_cons in Hc as [Hne Hc].
  destruct (binarize_column df col) as [df1|] eqn:H1; [|done]. simpl.
  intros H2. rewrite (IH _ Hc H2).
  destruct (binarize_column_getitem _ _ _ H1) as (s & _ & Hg).
  by rewrite Hg, decide_False.
Qed.

Lemma getitem_foldl_setitem_other {A : Type} (g : A → Series) (l : list (string * A))
    (df : DataFrame) c :
  c ∉ l.*1 → getitem (foldl (λ df cx, setitem df cx.1 (g cx.2)) df l) c = getitem df c.
Proof.
  revert df; induction l as [|[k x] l IH]; intros df Hc; [done|].
  simpl in *. apply not_elem_of_cons in Hc as [Hne Hc].
  rewrite IH by done. by apply getitem_setitem_ne.
Qed.

Lemma scale_numeric_other nums (df df' : DataFrame) c :
  c ∉ nums → scale_numeric nums df = Some df' → getitem df' c = getitem df c.
Proof.
  intros Hc (X & HX & _ & ->)%scale_numeric_Some.
  apply (getitem_foldl_setitem_other (λ xs, Float64Series (Some <$> xs))).
  rewrite fst_zip; [done|]. rewrite length_fmap.
  by rewrite (Forall2_length _ _ _ HX).
Qed.

Lemma elem_of_cat_columns (features : DataFrame) c :
  c ∈ cat_columns_of features ↔ ∃ s, (c, s) ∈ features ∧ is_object s = true.
Proof.
  unfold cat_columns_of. rewrite list_elem_of_fmap. split.
  - intros ([k s] & -> & [? ?]%list_elem_of_filter). by exists s.
  - intros (s & ? & ?). exists (c, s). split; [done|]. by apply list_elem_of_filter.
Qed.

Lemma elem_of_num_columns (features : DataFrame) c :
  c ∈ num_columns_of features ↔ ∃ s, (c, s) ∈ features ∧ is_object s = false.
Proof.
  unfold num_columns_of. rewrite list_elem_of_fmap. split.
  - intros ([k s] & -> & [? ?]%list_elem_of_filter). by exists s.
  - intros (s & ? & ?). exists (c, s). split; [done|]. by apply list_elem_of_filter.
Qed.

Lemma elem_of_drop_columns cs (df df' : DataFrame) c s :
  drop_columns cs df = Some df' → (c, s) ∈ df' ↔ (c, s) ∈ df ∧ c ∉ cs.
Proof.
  intros [-> _]%drop_columns_Some. rewrite list_elem_of_filter. simpl. tauto.
Qed.

Lemma elem_of_columns (df : DataFrame) c :
  c ∈ columns df ↔ ∃ s, (c, s) ∈ df.
Proof.
  unfold columns. rewrite list_elem_of_fmap. split.
  - intros ([k s] & -> & ?). by exists s.
  - intros (s & ?). by exists (c, s).
Qed.

(** The stages [transform] goes through. *)
Lemma binarize_categoricals_Some (df df2 : DataFrame) nums :
  binarize_categoricals df = Some (df2, nums) →
  ∃ df1 features,
    add_target df = Some df1
    ∧ drop_columns ["Obesity_Binary"] df1 = Some features
    ∧ for_each binarize_column (cat_columns_of features) df1 = Some df2
    ∧ nums = num_columns_of features.
Proof.
  unfold binarize_categoricals.
  destruct (add_target df) as [df1|] eqn:H1; [|done]. cbn [mbind option_bind].
  destruct (drop_columns _ df1) as [features|] eqn:H2; [|done]. cbn [mbind option_bind].
  destruct (for_each _ _ df1) as [df2'|] eqn:H3; [|done]. cbn [mbind option_bind].
  intros [= <- <-]. by exists df1, features.
Qed.

Lemma transform_stages (df out : DataFrame) :
  transform df = Some out →
  ∃ df2 nums df3,
    binarize_categoricals df = Some (df2, nums)
    ∧ add_indicators df2 = Some df3
    ∧ scale_numeric nums df3 = Some out.
Proof.
  unfold transform.
  destruct (binarize_categoricals df) as [[df2 nums]|] eqn:H1; [|done].
  cbn [mbind option_bind].
  destruct (add_indicators df2) as [df3|] eqn:H4; [|done]. cbn [mbind option_bind].
  intros H5. by exists df2, nums, df3.
Qed.

Lemma transform_Some (df out : DataFrame) :
  transform df = Some out →
  ∃ df1 features df2 df3,
    add_target df = Some df1
    ∧ drop_columns ["Obesity_Binary"] df1 = Some features
    ∧ for_each binarize_column (cat_columns_of features) df1 = Some df2
    ∧ add_indicators df2 = Some df3
    ∧ scale_numeric (num_columns_of features) df3 = Some out.
Proof.
  intros (df2 & nums & df3 & H1 & H4 & H5)%transform_stages.
  apply binarize_categoricals_Some in H1 as (df1 & features & ? & ? & ? & ->).
  by exists df1, features, df2, df3.
Qed.

Lemma obesity_lambda_spec (x : cell) :
  (obesity_lambda x = 1%Z ↔
     x ∈ [Str "Obesity_Type_I"; Str "Obesity_Type_II"; Str "Obesity_Type_III";
          Str "Overweight_Level_I"; Str "Overweight_Level_II"])
  ∧ (obesity_lambda x = 0%Z ↔
     x ∉ [Str "Obesity_Type_I"; Str "Obesity_Type_II"; Str "Obesity_Type_III";
          Str "Overweight_Level_I"; Str "Overweight_Level_II"]).
Proof.
  assert (x ∈ [Str "Obesity_Type_I"; Str "Obesity_Type_II"; Str "Obesity_Type_III";
          Str "Overweight_Level_I"; Str "Overweight_Level_II"]
          ↔ cell_in obese_labels x = true) as ->.
  { change [Str "Obesity_Type_I"; Str "Obesity_Type_II"; Str "Obesity_Type_III";
            Str "Overweight_Level_I"; Str "Overweight_Level_II"]
      with (Str <$> obese_labels).
    rewrite list_elem_of_fmap. destruct x as [|s|z|r]; simpl;
      try (split; [intros (? & ? & ?); done | done]).
    rewrite bool_decide_eq_true. split; [by intros (? & [= ->] & ?) | by exists s]. }
  unfold obesity_lambda. destruct (cell_in obese_labels x); split; split; done.
Qed.

(** *** Distinct values and the two-valued recoding *)

Lemma elem_of_unique_values (vs : list cell) v : v ∈ unique_values vs ↔ v ∈ vs.
Proof.
  induction vs as [|x vs IH]; simpl; [done|].
  rewrite !elem_of_cons, list_elem_of_filter, IH.
  destruct (decide (v = x)); tauto.
Qed.

Lemma NoDup_unique_values (vs : list cell) : NoDup (unique_values vs).
Proof.
  induction vs as [|x vs IH]; simpl; [constructor|].
  apply NoDup_cons. split; [|by apply NoDup_filter].
  by intros [? _]%list_elem_of_filter.
Qed.

Lemma filter_all {A : Type} (P : A → Prop) `{∀ x, Decision (P x)} (l : list A) :
  Forall P l → filter P l = l.
Proof.
  induction 1 as [|x l Hx _ IH]; [done|]. by rewrite filter_cons_True, IH.
Qed.

Lemma unique_two (s : Series) :
  NaN ∉ values s → nunique s = 2 →
  ∃ a b, unique s = [a; b] ∧ a ≠ b ∧ head (values s) = Some a ∧ b ∈ values s
    ∧ ∀ v, v ∈ values s → v = a ∨ v = b.
Proof.
  unfold nunique, unique. intros Hna Hn.
  rewrite filter_all in Hn.
  2:{ apply Forall_forall. intros v Hv ->. by apply Hna, elem_of_unique_values. }
  pose proof (NoDup_unique_values (values s)) as Hnd.
  pose proof (elem_of_unique_values (values s)) as Hel.
  destruct (values s) as [|x vs] eqn:Hvs; [done|].
  destruct (unique_values (x :: vs)) as [|a [|b [|? ?]]] eqn:Hu; try done.
  exists a, b. split; [done|].
  apply NoDup_cons in Hnd as [Hab _]. split; [by intros ->; apply Hab; left|].
  split; [by simpl in Hu; injection Hu as -> _|].
  split; [apply Hel; right; by left|].
  intros v Hv. apply Hel in Hv.
  apply elem_of_cons in Hv as [->|Hv]; [by left|].
  apply list_elem_of_singleton in Hv as ->. by right.
Qed.

Lemma map_dict_two (s : Series) (a b : cell) :
  a ≠ b → (∀ v, v ∈ values s → v = a ∨ v = b) →
  map_dict (dict01 a b) s
  = Int64Series ((λ v, if decide (v = a) then 0%Z else 1%Z) <$> values s).
Proof.
  intros Hab Hv. unfold map_dict.
  assert (mapM (λ y : option Z, y) (dict01 a b <$> values s)
          = Some ((λ v, if decide (v = a) then 0%Z else 1%Z) <$> values s)) as ->; [|done].
  apply mapM_Some. apply Forall2_fmap. apply Forall2_same_length_lookup_2; [done|].
  intros i v v' Hi Hi'. simplify_eq. unfold dict01.
  destruct (Hv v) as [-> | ->]; [by eapply list_elem_of_lookup_2| |].
  - by rewrite decide_False, !decide_True.
  - by rewrite decide_True, decide_False.
Qed.

Lemma binarized_two (s : Series) :
  NaN ∉ values s → nunique s = 2 →
  ∃ first second,
    head (values s) = Some first ∧ second ∈ values s ∧ first ≠ second
    ∧ (∀ v, v ∈ values s → v = first ∨ v = second)
    ∧ binarized s = Int64Series ((λ v, if decide (v = first) then 0%Z else 1%Z) <$> values s).
Proof.
  intros Hna Hn. destruct (unique_two s Hna Hn) as (a & b & Hu & Hab & Hh & Hb & Hv).
  exists a, b. do 4 (split; [done|]).
  unfold binarized. rewrite decide_True by done. rewrite Hu. by apply map_dict_two.
Qed.

Lemma clean_data_notna (raw : DataFrame) c s :
  getitem (clean_data raw) c = Some s → NaN ∉ values s.
Proof.
  intros Hs%getitem_Some_elem_of Hv.
  by eapply (clean_data_values_notna raw c s NaN).
Qed.

(** *** The scaler in exact arithmetic *)

Lemma Rsum_cons (x : R) (xs : list R) : Rsum (x :: xs) = (x + Rsum xs)%R.
Proof. reflexivity. Qed.

Lemma Rsum_fmap_scale (f : R → R) (k : R) (xs : list R) :
  Rsum ((λ x, f x * k)%R <$> xs) = (Rsum (f <$> xs) * k)%R.
Proof.
  induction xs as [|x xs IH]; [simpl; lra|].
  rewrite !fmap_cons, !Rsum_cons, IH. lra.
Qed.

Lemma Rsum_centered (xs : list R) :
  Rsum ((λ x, x - mean xs)%R <$> xs) = 0%R.
Proof.
  assert (∀ m ys, Rsum ((λ x, x - m)%R <$> ys) = (Rsum ys - INR (length ys) * m)%R) as Hsub.
  { intros m ys. induction ys as [|y ys IH]; [simpl; lra|].
    rewrite fmap_cons, !Rsum_cons, IH. cbn [length]. rewrite S_INR. lra. }
  rewrite Hsub. unfold mean. destruct xs as [|x xs]; [simpl; lra|].
  assert (INR (length (x :: xs)) ≠ 0%R) as Hn by (apply not_0_INR; done).
  field. done.
Qed.

Lemma mean_standardize (xs : list R) : mean (standardize xs) = 0%R.
Proof.
  unfold mean at 1, standardize. unfold Rdiv at 2.
  rewrite (Rsum_fmap_scale (λ x, x - mean xs)%R), Rsum_centered. unfold Rdiv. lra.
Qed.

Lemma variance_standardize (xs : list R) :
  variance (standardize xs) = (variance xs * (/ scale_ xs * / scale_ xs))%R.
Proof.
  unfold variance at 1. rewrite mean_standardize. unfold standardize.
  rewrite <- list_fmap_compose. unfold mean at 1. rewrite !length_fmap.
  rewrite (list_fmap_ext _ (λ x, ((x - mean xs) * (x - mean xs)) * (/ scale_ xs * / scale_ xs))%R xs).
  2:{ intros i x _. simpl. unfold Rdiv. lra. }
  rewrite (Rsum_fmap_scale (λ x, (x - mean xs) * (x - mean xs))%R).
  unfold variance, mean. rewrite length_fmap. unfold Rdiv. ring.
Qed.

Lemma Rsum_nonneg (xs : list R) : Forall (λ x, 0 <= x)%R xs → (0 <= Rsum xs)%R.
Proof. induction 1; [simpl; lra|]. rewrite Rsum_cons. lra. Qed.

Lemma variance_nonneg (xs : list R) : (0 <= variance xs)%R.
Proof.
  unfold variance, mean. rewrite length_fmap.
  destruct xs as [|x xs]; [simpl; unfold Rdiv; lra|].
  apply Rmult_le_pos.
  - apply Rsum_nonneg, Forall_fmap, Forall_forall. intros y _.
    apply (Rle_0_sqr (y - _)).
  - left. apply Rinv_0_lt_compat. apply lt_0_INR. simpl. lia.
Qed.

Lemma variance_standardize_1 (xs : list R) :
  variance xs ≠ 0%R → variance (standardize xs) = 1%R.
Proof.
  intros Hv. rewrite variance_standardize. unfold scale_. rewrite decide_False by done.
  rewrite <- Rinv_mult. rewrite sqrt_sqrt by apply variance_nonneg. by apply Rinv_r.
Qed.

Lemma variance_standardize_0 (xs : list R) :
  variance xs = 0%R → variance (standardize xs) = 0%R.
Proof. intros Hv. rewrite variance_standardize, Hv. lra. Qed.

Lemma Rsum_nonneg_0 (xs : list R) :
  Forall (λ x, 0 <= x)%R xs → Rsum xs = 0%R → Forall (λ x, x = 0%R) xs.
Proof.
  induction 1 as [|x xs Hx Hxs IH]; [constructor|]. rewrite Rsum_cons. intros Hsum.
  pose proof (Rsum_nonneg xs Hxs) as Hs.
  constructor; [lra|]. apply IH. lra.
Qed.

Lemma variance_0_constant (xs : list R) :
  variance xs = 0%R → Forall (λ x, x = mean xs) xs.
Proof.
  intros Hv. destruct xs as [|x0 xs0] eqn:Hxs; [constructor|]. rewrite <- Hxs in *.
  assert (0 < INR (length xs))%R as Hn.
  { apply lt_0_INR. rewrite Hxs. simpl. lia. }
  unfold variance in Hv. unfold mean at 1 in Hv. rewrite length_fmap in Hv.
  generalize dependent (mean xs). intros m Hv.
  assert (Rsum ((λ x, (x - m) * (x - m))%R <$> xs) = 0%R) as Hsum.
  { apply (Rmult_eq_reg_r (/ INR (length xs))); [|apply Rinv_neq_0_compat; lra].
    unfold Rdiv in Hv. rewrite Hv. lra. }
  apply Rsum_nonneg_0 in Hsum.
  2:{ apply Forall_fmap, Forall_forall. intros x _. simpl. apply Rle_0_sqr. }
  apply Forall_fmap in Hsum. eapply Forall_impl; [exact Hsum|].
  intros x Hx. simpl in Hx. apply Rmult_integral in Hx. lra.
Qed.

(** A column of variance 0 is constant, and the scaler makes it zeros. *)
Lemma standardize_constant (xs : list R) :
  variance xs = 0%R → standardize xs = replicate (length xs) 0%R.
Proof.
  intros Hv. unfold standardize, scale_. rewrite decide_True by done.
  apply variance_0_constant in Hv. generalize dependent (mean xs). intros m Hm.
  induction Hm as [|x xs Hx Hxs IH]; [done|].
  rewrite fmap_cons, IH. cbn [length replicate]. f_equal. subst x. unfold Rdiv. lra.
Qed.

(** *** The sample table *)

Lemma mean_21_23 : mean [21%R; 23%R] = 22%R.
Proof. unfold mean, Rsum. simpl. lra. Qed.

Lemma variance_21_23 : variance [21%R; 23%R] = 1%R.
Proof. unfold variance. rewrite mean_21_23. unfold mean, Rsum. simpl. lra. Qed.

Lemma scale_21_23 : scale_ [21%R; 23%R] = 1%R.
Proof.
  unfold scale_. rewrite variance_21_23. rewrite decide_False by lra. apply sqrt_1.
Qed.

Lemma sample_transform : transform (clean_data sample_raw) = Some sample_out.
Proof.
  unfold transform. do 2 eval_stage. unfold scale_numeric. simpl.
  rewrite mean_21_23, scale_21_23.
  replace ((21 - 22) / 1)%R with (-1)%R by lra.
  replace ((23 - 22) / 1)%R with 1%R by lra.
  reflexivity.
Qed.

(** ** The claims about [data_preprocessing.py] *)

(** C1: in the table [transform] returns for a cleaned table, the column
    [Obesity_Binary] holds, row by row, 1 when the row's [NObeyesdad] label
    is one of the five listed strings and 0 when it is not, and the table no
    longer has a column [NObeyesdad]. *)
Theorem obesity_binary_iff_label (raw out : DataFrame) :
  transform (clean_data raw) = Some out →
  ∃ label target,
    getitem (clean_data raw) "NObeyesdad" = Some label
    ∧ getitem out "Obesity_Binary" = Some (Int64Series target)
    ∧ length target = length (values label)
    ∧ (∀ i x, values label !! i = Some x →
         ∃ b, target !! i = Some b
           ∧ (b = 1%Z ↔
                x ∈ [Str "Obesity_Type_I"; Str "Obesity_Type_II"; Str "Obesity_Type_III";
                     Str "Overweight_Level_I"; Str "Overweight_Level_II"])
           ∧ (b = 0%Z ↔
                x ∉ [Str "Obesity_Type_I"; Str "Obesity_Type_II"; Str "Obesity_Type_III";
                     Str "Overweight_Level_I"; Str "Overweight_Level_II"]))
    ∧ "NObeyesdad" ∉ columns out.
Proof.
  intros (df1 & features & df2 & df3 & H1 & H2 & H3 & H4 & H5)%transform_Some.
  destruct (add_target_getitem _ _ H1) as (label & Hlabel & Hg1).
  destruct (add_indicators_getitem _ _ H4) as (mtrans & caec & calc & _ & _ & _ & Hg3).
  assert (∀ c, c ∈ columns features → c ≠ "Obesity_Binary" ∧ c ≠ "NObeyesdad") as Hf.
  { intros c (s & [Hin Hc]%(elem_of_drop_columns _ _ _ _ _ H2))%elem_of_columns.
    split; [by intros ->; apply Hc; left|].
    intros ->. apply getitem_Some_elem_of in Hlabel.
    assert (is_Some (getitem df1 "NObeyesdad")) as [? Hs].
    { apply getitem_is_Some, elem_of_columns. by exists s. }
    by rewrite Hg1 in Hs. }
  assert (∀ c, c = "Obesity_Binary" ∨ c = "NObeyesdad" → getitem out c = getitem df1 c) as Hout.
  { intros c Hc.
    assert (c ∉ columns features) as Hnf.
    { intros Hin. destruct (Hf c Hin) as [? ?]. by destruct Hc. }
    assert (c ∉ num_columns_of features) as Hn.
    { intros (s & ? & _)%elem_of_num_columns. apply Hnf, elem_of_columns. by exists s. }
    assert (c ∉ cat_columns_of features) as Hcat.
    { intros (s & ? & _)%elem_of_cat_columns. apply Hnf, elem_of_columns. by exists s. }
    rewrite (scale_numeric_other _ _ _ c Hn H5), (Hg3 c).
    rewrite (for_each_binarize_other _ _ _ c Hcat H3).
    destruct Hc as [-> | ->]; reflexivity. }
  exists label, (obesity_lambda <$> values label). split; [done|].
  split; [|split; [|split]].
  - rewrite Hout by (by left). rewrite Hg1.
    by rewrite decide_False, decide_True.
  - by rewrite length_fmap.
  - intros i x Hx. exists (obesity_lambda x). split.
    + by rewrite list_lookup_fmap, Hx.
    + apply obesity_lambda_spec.
  - apply getitem_None. rewrite Hout by (by right). rewrite Hg1. by rewrite decide_True.
Qed.

Lemma obesity_binary_iff_label_witness :
  ∃ label target,
    getitem (clean_data sample_raw) "NObeyesdad" = Some label
    ∧ getitem sample_out "Obesity_Binary" = Some (Int64Series target)
    ∧ length target = length (values label)
    ∧ (∀ i x, values label !! i = Some x →
         ∃ b, target !! i = Some b
           ∧ (b = 1%Z ↔
                x ∈ [Str "Obesity_Type_I"; Str "Obesity_Type_II"; Str "Obesity_Type_III";
                     Str "Overweight_Level_I"; Str "Overweight_Level_II"])
           ∧ (b = 0%Z ↔
                x ∉ [Str "Obesity_Type_I"; Str "Obesity_Type_II"; Str "Obesity_Type_III";
                     Str "Overweight_Level_I"; Str "Overweight_Level_II"]))
    ∧ "NObeyesdad" ∉ columns sample_out.
Proof. exact (obesity_binary_iff_label sample_raw sample_out sample_transform). Defined.


Lemma NoDup_cat_columns (features : DataFrame) :
  NoDup (columns features) → NoDup (cat_columns_of features).
Proof. apply NoDup_columns_filter. Qed.

Lemma NoDup_num_columns (features : DataFrame) :
  NoDup (columns features) → NoDup (num_columns_of features).
Proof. apply NoDup_columns_filter. Qed.

(** What is known once lines 25-43 have run on a cleaned table whose
    column names are distinct. *)
Lemma binarize_categoricals_inv (raw df2 : DataFrame) nums :
  NoDup (columns raw) →
  binarize_categoricals (clean_data raw) = Some (df2, nums) →
  ∃ df1 features label,
    getitem (clean_data raw) "NObeyesdad" = Some label
    ∧ (∀ c, getitem df1 c =
         if decide (c = "NObeyesdad") then None
         else if decide (c = "Obesity_Binary") then Some (apply obesity_lambda label)
              else getitem (clean_data raw) c)
    ∧ NoDup (columns df1) ∧ NoDup (columns features)
    ∧ (∀ c s, (c, s) ∈ features ↔ getitem df1 c = Some s ∧ c ≠ "Obesity_Binary")
    ∧ nums = num_columns_of features
    ∧ columns df2 = columns df1
    ∧ ∀ c, getitem df2 c =
        if decide (c ∈ cat_columns_of features)
        then binarized <$> getitem df1 c else getitem df1 c.
Proof.
  intros Hnd (df1 & features & H1 & H2 & H3 & ->)%binarize_categoricals_Some.
  destruct (add_target_getitem _ _ H1) as (label & Hlabel & Hg1).
  assert (NoDup (columns df1)) as Hnd1.
  { eapply add_target_NoDup; [done|]. by rewrite columns_clean_data. }
  assert (NoDup (columns features)) as Hndf by (by eapply NoDup_columns_drop).
  exists df1, features, label. do 4 (split; [done|]). split; [|split; [done|split]].
  - intros c s. rewrite (elem_of_drop_columns _ _ _ c s H2), list_elem_of_singleton.
    split; intros [? ?]; (split; [|done]).
    + by apply elem_of_getitem.
    + by apply getitem_Some_elem_of.
  - by eapply for_each_binarize_columns.
  - apply for_each_binarize_getitem; [|done]. by apply NoDup_cat_columns.
Qed.

Lemma loop_recodes_two_valued (raw df2 : DataFrame) nums col s :
  NoDup (columns raw) →
  binarize_categoricals (clean_data raw) = Some (df2, nums) →
  getitem (clean_data raw) col = Some s →
  col ∉ ["NObeyesdad"; "Obesity_Binary"] →
  is_object s = true →
  nunique s = 2 →
  (col ∉ nums)
  ∧ ∃ first second,
      head (values s) = Some first ∧ second ∈ values s ∧ first ≠ second
      ∧ (∀ v, v ∈ values s → v = first ∨ v = second)
      ∧ getitem df2 col
        = Some (Int64Series ((λ v, if decide (v = first) then 0%Z else 1%Z) <$> values s)).
Proof.
  intros Hnd Hb Hs Hcol Hobj Hn.
  destruct (binarize_categoricals_inv _ _ _ Hnd Hb)
    as (df1 & features & label & Hlabel & Hg1 & Hnd1 & Hndf & Hf & -> & Hcols & Hg2).
  apply not_elem_of_cons in Hcol as [Hc1 Hcol]. apply not_elem_of_cons in Hcol as [Hc2 _].
  assert (getitem df1 col = Some s) as Hs1.
  { rewrite Hg1. by rewrite !decide_False. }
  assert ((col, s) ∈ features) as Hin by (by apply Hf).
  assert (col ∈ cat_columns_of features) as Hcat.
  { apply elem_of_cat_columns. by exists s. }
  split.
  { intros (s' & Hin' & Hobj')%elem_of_num_columns.
    apply Hf in Hin' as [Hs' _]. rewrite Hs1 in Hs'. injection Hs' as <-. congruence. }
  destruct (binarized_two s) as (first & second & Hh & Hsec & Hne & Hv & Hbin);
    [by eapply clean_data_notna | done |].
  exists first, second. do 4 (split; [done|]).
  rewrite Hg2, decide_True by done. rewrite Hs1. simpl. by rewrite Hbin.
Qed.

(** C6: a categorical column of the cleaned table with exactly two
    distinct values is recoded by the loop of lines 41-43 into 0 for the
    value of its first row and 1 for the other value; unless a later line
    overwrites or drops it, the column reaches the output so. *)
Theorem two_valued_first_encountered (raw df2 : DataFrame) nums col s :
  NoDup (columns raw) →
  binarize_categoricals (clean_data raw) = Some (df2, nums) →
  getitem (clean_data raw) col = Some s →
  col ∉ ["NObeyesdad"; "Obesity_Binary"] →
  is_object s = true →
  nunique s = 2 →
  ∃ first second,
    head (values s) = Some first ∧ second ∈ values s ∧ first ≠ second
    ∧ (∀ v, v ∈ values s → v = first ∨ v = second)
    ∧ getitem df2 col
      = Some (Int64Series ((λ v, if decide (v = first) then 0%Z else 1%Z) <$> values s))
    ∧ ∀ df3 out,
        add_indicators df2 = Some df3 → scale_numeric nums df3 = Some out →
        col ∉ ["MTRANS"; "CALC"; "CAEC"; "MTRANS_Binary"; "CAEC_binary"; "CALC_binary"] →
        getitem out col = getitem df2 col.
Proof.
  intros Hnd Hb Hs Hcol Hobj Hn.
  destruct (loop_recodes_two_valued _ _ _ _ _ Hnd Hb Hs Hcol Hobj Hn)
    as (Hnum & first & second & Hh & Hsec & Hne & Hv & Hg).
  exists first, second. do 5 (split; [done|]).
  intros df3 out H4 H5 Hnot.
  rewrite (scale_numeric_other _ _ _ col Hnum H5).
  destruct (add_indicators_getitem _ _ H4) as (mtrans & caec & calc & _ & _ & _ & Hg3).
  rewrite (Hg3 col).
  rewrite decide_False
    by (intros Hx; apply Hnot;
        repeat (apply elem_of_cons in Hx as [->|Hx]; [repeat constructor|]);
        by apply elem_of_nil in Hx).
  rewrite !decide_False; [done| | |]; intros ->; apply Hnot; repeat constructor.
Qed.

Lemma frequency_lambda_Int (zs : list Z) :
  frequency_lambda <$> (Int <$> zs) = replicate (length zs) 0%Z.
Proof. induction zs as [|z zs IH]; [done|]. simpl. by rewrite <- IH. Qed.

(** C10: when the [CAEC] (or [CALC]) column of the cleaned table holds
    strings of exactly two distinct values, the loop of lines 41-43 has made
    it a column of integers before lines 46-47 read it, and the indicator
    column [CAEC_binary] (or [CALC_binary]) is 0 in every row, whatever the
    two strings were. *)
Theorem two_valued_consumption_all_zero (raw df2 df3 : DataFrame) nums col s :
  NoDup (columns raw) →
  binarize_categoricals (clean_data raw) = Some (df2, nums) →
  add_indicators df2 = Some df3 →
  col ∈ ["CAEC"; "CALC"] →
  getitem (clean_data raw) col = Some s →
  is_object s = true →
  nunique s = 2 →
  (∃ zs, getitem df2 col = Some (Int64Series zs))
  ∧ getitem df3 (col ++ "_binary")
    = Some (Int64Series (replicate (length (values s)) 0%Z))
  ∧ ∀ out, scale_numeric nums df3 = Some out →
      col ++ "_binary" ∉ columns raw →
      getitem out (col ++ "_binary")
      = Some (Int64Series (replicate (length (values s)) 0%Z)).
Proof.
  intros Hnd Hb H4 Hcol Hs Hobj Hn.
  assert (col ∉ ["NObeyesdad"; "Obesity_Binary"]) as Hcol'.
  { intros Hx. repeat (apply elem_of_cons in Hcol as [->|Hcol]);
      try (by apply elem_of_nil in Hcol);
      repeat (apply elem_of_cons in Hx as [?|Hx]; [done|]); by apply elem_of_nil in Hx. }
  destruct (loop_recodes_two_valued _ _ _ _ _ Hnd Hb Hs Hcol' Hobj Hn)
    as (_ & first & second & _ & _ & _ & _ & Hg).
  destruct (add_indicators_getitem _ _ H4) as (mtrans & caec & calc & _ & Hcaec & Hcalc & Hg3).
  assert (getitem df3 (col ++ "_binary")
          = Some (Int64Series (replicate (length (values s)) 0%Z))) as H3.
  { rewrite Hg3.
    repeat (apply elem_of_cons in Hcol as [->|Hcol]); try (by apply elem_of_nil in Hcol).
    - simpl. rewrite Hg in Hcaec. injection Hcaec as <-.
      unfold apply. simpl. by rewrite frequency_lambda_Int, length_fmap.
    - simpl. rewrite Hg in Hcalc. injection Hcalc as <-.
      unfold apply. simpl. by rewrite frequency_lambda_Int, length_fmap. }
  split; [by eexists|]. split; [done|].
  intros out H5 Hraw. rewrite <- H3. apply (scale_numeric_other nums); [|done].
  destruct (binarize_categoricals_inv _ _ _ Hnd Hb)
    as (df1 & features & label & _ & Hg1 & _ & _ & Hf & -> & _ & _).
  intros (s' & [Hs' Hne]%Hf & _)%elem_of_num_columns.
  rewrite Hg1 in Hs'. apply Hraw. rewrite <- columns_clean_data.
  apply getitem_is_Some. exists s'.
  repeat (apply elem_of_cons in Hcol as [->|Hcol]); try (by apply elem_of_nil in Hcol);
    by rewrite !decide_False in Hs'.
Qed.

Lemma sample_NoDup : NoDup (columns sample_raw).
Proof. apply (bool_decide_unpack _). by vm_compute. Qed.

Lemma sample_binarize :
  binarize_categoricals (clean_data sample_raw) = Some (sample_after_loop, ["Age"]).
Proof. by vm_compute. Qed.

Lemma sample_indicators : add_indicators sample_after_loop = Some sample_after_indicators.
Proof. by vm_compute. Qed.

Lemma two_valued_first_encountered_witness :
  ∃ first second,
    head (values (ObjectSeries [Some "Female"; Some "Male"])) = Some first
    ∧ second ∈ values (ObjectSeries [Some "Female"; Some "Male"])
    ∧ first ≠ second
    ∧ (∀ v, v ∈ values (ObjectSeries [Some "Female"; Some "Male"]) → v = first ∨ v = second)
    ∧ getitem sample_after_loop "Gender"
      = Some (Int64Series ((λ v, if decide (v = first) then 0%Z else 1%Z)
                             <$> values (ObjectSeries [Some "Female"; Some "Male"])))
    ∧ ∀ df3 out,
        add_indicators sample_after_loop = Some df3 → scale_numeric ["Age"] df3 = Some out →
        "Gender" ∉ ["MTRANS"; "CALC"; "CAEC"; "MTRANS_Binary"; "CAEC_binary"; "CALC_binary"] →
        getitem out "Gender" = getitem sample_after_loop "Gender".
Proof.
  apply (two_valued_first_encountered sample_raw sample_after_loop ["Age"] "Gender"
           (ObjectSeries [Some "Female"; Some "Male"])).
  - exact sample_NoDup.
  - exact sample_binarize.
  - by vm_compute.
  - apply (bool_decide_unpack _). by vm_compute.
  - reflexivity.
  - by vm_compute.
Defined.

Lemma two_valued_consumption_all_zero_witness :
  (∃ zs, getitem sample_after_loop "CAEC" = Some (Int64Series zs))
  ∧ getitem sample_after_indicators ("CAEC" ++ "_binary")
    = Some (Int64Series
              (replicate (length (values (ObjectSeries [Some "Sometimes"; Some "Frequently"])))
                 0%Z))
  ∧ ∀ out, scale_numeric ["Age"] sample_after_indicators = Some out →
      "CAEC" ++ "_binary" ∉ columns sample_raw →
      getitem out ("CAEC" ++ "_binary")
      = Some (Int64Series
                (replicate (length (values (ObjectSeries [Some "Sometimes"; Some "Frequently"])))
                   0%Z)).
Proof.
  apply (two_valued_consumption_all_zero sample_raw sample_after_loop
           sample_after_indicators ["Age"] "CAEC"
           (ObjectSeries [Some "Sometimes"; Some "Frequently"])).
  - exact sample_NoDup.
  - exact sample_binarize.
  - exact sample_indicators.
  - by left.
  - by vm_compute.
  - reflexivity.
  - by vm_compute.
Defined.

Lemma columns_NoDup_stages (raw df2 df3 out : DataFrame) nums :
  NoDup (columns raw) →
  binarize_categoricals (clean_data raw) = Some (df2, nums) →
  add_indicators df2 = Some df3 →
  scale_numeric nums df3 = Some out →
  NoDup (columns out).
Proof.
  intros Hnd Hb H4 H5.
  destruct (binarize_categoricals_inv _ _ _ Hnd Hb)
    as (df1 & features & label & _ & _ & Hnd1 & _ & _ & _ & Hcols & _).
  eapply scale_numeric_NoDup; [done|]. eapply add_indicators_NoDup; [done|].
  by rewrite Hcols.
Qed.

(** Which columns lines 33-39 put into [num_columns], and what the scaler
    finds under their names at line 52. *)
Lemma num_columns_spec (raw df2 df3 out : DataFrame) nums :
  NoDup (columns raw) →
  binarize_categoricals (clean_data raw) = Some (df2, nums) →
  add_indicators df2 = Some df3 →
  scale_numeric nums df3 = Some out →
  NoDup nums
  ∧ (∀ c, c ∈ nums ↔
       ∃ s, getitem (clean_data raw) c = Some s ∧ is_object s = false
            ∧ c ∉ ["NObeyesdad"; "Obesity_Binary"])
  ∧ (∀ c, c ∈ nums → c ∉ ["MTRANS"; "CALC"; "CAEC"])
  ∧ (∀ c, c ∈ nums → c ∉ ["MTRANS_Binary"; "CAEC_binary"; "CALC_binary"] →
       getitem df3 c = getitem (clean_data raw) c)
  ∧ (∀ c s, getitem (clean_data raw) c = Some s → is_object s = true →
       c ∉ ["NObeyesdad"; "Obesity_Binary"; "MTRANS"; "CALC"; "CAEC";
            "MTRANS_Binary"; "CAEC_binary"; "CALC_binary"] →
       getitem df3 c = Some (binarized s)).
Proof.
  intros Hnd Hb H4 H5.
  destruct (binarize_categoricals_inv _ _ _ Hnd Hb)
    as (df1 & features & label & _ & Hg1 & _ & Hndf & Hf & -> & _ & Hg2).
  destruct (add_indicators_getitem _ _ H4) as (mtrans & caec & calc & _ & _ & _ & Hg3).
  destruct (scale_numeric_Some _ _ _ H5) as (X & HX & _ & _).
  assert (∀ c, c ∈ num_columns_of features ↔
            ∃ s, getitem (clean_data raw) c = Some s ∧ is_object s = false
                 ∧ c ∉ ["NObeyesdad"; "Obesity_Binary"]) as Hnums.
  { intros c. rewrite elem_of_num_columns. split.
    - intros (s & [Hs Hne]%Hf & Hobj). exists s. rewrite Hg1 in Hs.
      destruct (decide (c = "NObeyesdad")) as [->|Hn]; [done|].
      rewrite decide_False in Hs by done. do 2 (split; [done|]).
      rewrite !not_elem_of_cons. repeat split; [done..|apply not_elem_of_nil].
    - intros (s & Hs & Hobj & Hc). exists s. split; [|done].
      apply not_elem_of_cons in Hc as [N1 Hc]. apply not_elem_of_cons in Hc as [N2 _].
      apply Hf. split; [|done]. by rewrite Hg1, !decide_False. }
  assert (∀ c, c ∈ num_columns_of features → c ∉ ["MTRANS"; "CALC"; "CAEC"]) as Hsrc.
  { intros c [i Hi]%list_elem_of_lookup Hc.
    destruct (Forall2_lookup_l _ _ _ _ _ HX Hi) as (xs & _ & Hxs).
    rewrite Hg3, decide_True in Hxs by done. done. }
  split; [by apply NoDup_num_columns|]. split; [done|]. split; [done|]. split.
  - intros c Hnum Hc. pose proof (Hsrc c Hnum) as Hc'.
    apply elem_of_num_columns in Hnum as (s & [Hs Hne]%Hf & Hobj).
    rewrite Hg3, decide_False by done.
    apply not_elem_of_cons in Hc as [N3 Hc]. apply not_elem_of_cons in Hc as [N4 Hc].
    apply not_elem_of_cons in Hc as [N5 _].
    rewrite !decide_False by done. rewrite Hg2, decide_False.
    + rewrite Hg1. destruct (decide (c = "NObeyesdad")) as [->|]; [by rewrite Hg1 in Hs|].
      by rewrite decide_False.
    + intros (s' & [Hs' _]%Hf & Hobj')%elem_of_cat_columns. congruence.
  - intros c s Hs Hobj Hc.
    assert (c ≠ "NObeyesdad" ∧ c ≠ "Obesity_Binary" ∧ (c ∉ ["MTRANS"; "CALC"; "CAEC"])
            ∧ c ≠ "MTRANS_Binary" ∧ c ≠ "CAEC_binary" ∧ c ≠ "CALC_binary")
      as (N1 & N2 & N & N3 & N4 & N5).
    { rewrite !not_elem_of_cons in Hc. rewrite !not_elem_of_cons. tauto. }
    rewrite Hg3, !decide_False by done.
    assert (getitem df1 c = Some s) as Hs1 by (by rewrite Hg1, !decide_False).
    rewrite Hg2, decide_True, Hs1; [done|].
    apply elem_of_cat_columns. exists s. split; [|done]. by apply Hf.
Qed.

(** C4 (amended): line 52 standardizes exactly the columns listed in
    [num_columns] by lines 33-39: the columns of the cleaned table, other
    than [NObeyesdad] and [Obesity_Binary], whose dtype is not [object]
    before any column is recoded.  Each is replaced by
    [(x - mean) / scale] of the values found under its name at line 52:
    its cleaned values, or, for a numeric input column named
    [MTRANS_Binary], [CAEC_binary] or [CALC_binary], the indicator that
    lines 45-47 have written over it.  The mean and the population
    variance are those of all rows of the table being transformed; the
    scale is the square root of the variance, or 1 when the variance is 0.
    In exact arithmetic the result has mean 0, and variance 1 unless the
    values are all equal, in which case it is all zeros.  Every other
    column is saved as line 49 left it: the target [Obesity_Binary], every
    recoded or untouched [object] column, and each indicator whose name is
    not that of a numeric input column. *)
Theorem numeric_columns_standardized (raw out : DataFrame) :
  NoDup (columns raw) →
  transform (clean_data raw) = Some out →
  ∃ df2 num_columns df3 label mtrans caec calc,
    binarize_categoricals (clean_data raw) = Some (df2, num_columns)
    ∧ add_indicators df2 = Some df3
    ∧ scale_numeric num_columns df3 = Some out
    ∧ (∀ c, c ∈ num_columns ↔
         ∃ s, getitem (clean_data raw) c = Some s ∧ is_object s = false
              ∧ c ∉ ["NObeyesdad"; "Obesity_Binary"])
    ∧ (∀ c, c ∈ num_columns →
         ∃ s xs, getitem df3 c = Some s ∧ to_float s = Some xs
           ∧ getitem out c = Some (Float64Series (Some <$> standardize xs))
           ∧ (∀ i x, xs !! i = Some x →
                standardize xs !! i = Some ((x - mean xs) / scale_ xs)%R)
           ∧ mean (standardize xs) = 0%R
           ∧ (variance xs ≠ 0%R → variance (standardize xs) = 1%R)
           ∧ (variance xs = 0%R →
                standardize xs = replicate (length xs) 0%R
                ∧ variance (standardize xs) = 0%R))
    ∧ (∀ c, c ∈ num_columns → c ∉ ["MTRANS_Binary"; "CAEC_binary"; "CALC_binary"] →
         getitem df3 c = getitem (clean_data raw) c)
    ∧ getitem df2 "MTRANS" = Some mtrans
    ∧ getitem df2 "CAEC" = Some caec
    ∧ getitem df2 "CALC" = Some calc
    ∧ getitem df3 "MTRANS_Binary" = Some (apply mtrans_lambda mtrans)
    ∧ getitem df3 "CAEC_binary" = Some (apply frequency_lambda caec)
    ∧ getitem df3 "CALC_binary" = Some (apply frequency_lambda calc)
    ∧ (∀ c, c ∉ num_columns → getitem out c = getitem df3 c)
    ∧ getitem (clean_data raw) "NObeyesdad" = Some label
    ∧ getitem out "Obesity_Binary" = Some (apply obesity_lambda label)
    ∧ (∀ c s, getitem (clean_data raw) c = Some s → is_object s = true →
         c ∉ ["NObeyesdad"; "Obesity_Binary"; "MTRANS"; "CALC"; "CAEC";
              "MTRANS_Binary"; "CAEC_binary"; "CALC_binary"] →
         getitem out c = Some (binarized s)).
Proof.
  intros Hnd (df2 & nums & df3 & Hb & H4 & H5)%transform_stages.
  destruct (num_columns_spec _ _ _ _ _ Hnd Hb H4 H5) as (Hndn & Hnums & Hsrc & Hsame & Hobj).
  destruct (binarize_categoricals_inv _ _ _ Hnd Hb)
    as (df1 & features & label & Hlabel & Hg1 & _ & _ & Hf & _ & _ & Hg2).
  destruct (add_indicators_getitem _ _ H4) as (mtrans & caec & calc & Hm & Hcaec & Hcalc & Hg3).
  destruct (scale_numeric_Some _ _ _ H5) as (X & HX & _ & _).
  assert (∀ c, c ∉ nums → getitem out c = getitem df3 c) as Hother.
  { intros c Hc. by apply (scale_numeric_other nums). }
  assert ("Obesity_Binary" ∉ nums) as Htarget.
  { intros (s & _ & _ & Hc)%Hnums. apply Hc. repeat constructor. }
  exists df2, nums, df3, label, mtrans, caec, calc.
  do 4 (split; [done|]). split; [|split; [done|]].
  { intros c Hnum. pose proof (scale_numeric_getitem _ _ _ Hndn H5 c) as Hout.
    rewrite decide_True in Hout by done.
    apply list_elem_of_lookup in Hnum as [i Hi].
    destruct (Forall2_lookup_l _ _ _ _ _ HX Hi) as (xs & _ & Hxs).
    destruct (getitem df3 c) as [s|] eqn:Hs3; [|done]. simpl in Hxs, Hout.
    rewrite Hxs in Hout. simpl in Hout. exists s, xs.
    do 3 (split; [done|]). split; [|split; [|split]].
    - intros j x Hx. unfold standardize. by rewrite list_lookup_fmap, Hx.
    - apply mean_standardize.
    - apply variance_standardize_1.
    - intros Hv. split; [by apply standardize_constant | by apply variance_standardize_0]. }
  do 3 (split; [done|]).
  split; [by rewrite Hg3|]. split; [by rewrite Hg3|]. split; [by rewrite Hg3|].
  split; [done|]. split; [done|]. split.
  - rewrite Hother, Hg3 by done. simpl. rewrite Hg2, decide_False.
    + by rewrite Hg1.
    + intros (s & [_ Hne]%Hf & _)%elem_of_cat_columns. done.
  - intros c s Hs Ho Hc. rewrite Hother; [by eapply Hobj|].
    intros (s' & Hs' & Ho' & _)%Hnums. congruence.
Qed.

Lemma numeric_columns_standardized_witness :
  ∃ df2 num_columns df3 label mtrans caec calc,
    binarize_categoricals (clean_data sample_raw) = Some (df2, num_columns)
    ∧ add_indicators df2 = Some df3
    ∧ scale_numeric num_columns df3 = Some sample_out
    ∧ (∀ c, c ∈ num_columns ↔
         ∃ s, getitem (clean_data sample_raw) c = Some s ∧ is_object s = false
              ∧ c ∉ ["NObeyesdad"; "Obesity_Binary"])
    ∧ (∀ c, c ∈ num_columns →
         ∃ s xs, getitem df3 c = Some s ∧ to_float s = Some xs
           ∧ getitem sample_out c = Some (Float64Series (Some <$> standardize xs))
           ∧ (∀ i x, xs !! i = Some x →
                standardize xs !! i = Some ((x - mean xs) / scale_ xs)%R)
           ∧ mean (standardize xs) = 0%R
           ∧ (variance xs ≠ 0%R → variance (standardize xs) = 1%R)
           ∧ (variance xs = 0%R →
                standardize xs = replicate (length xs) 0%R
                ∧ variance (standardize xs) = 0%R))
    ∧ (∀ c, c ∈ num_columns → c ∉ ["MTRANS_Binary"; "CAEC_binary"; "CALC_binary"] →
         getitem df3 c = getitem (clean_data sample_raw) c)
    ∧ getitem df2 "MTRANS" = Some mtrans
    ∧ getitem df2 "CAEC" = Some caec
    ∧ getitem df2 "CALC" = Some calc
    ∧ getitem df3 "MTRANS_Binary" = Some (apply mtrans_lambda mtrans)
    ∧ getitem df3 "CAEC_binary" = Some (apply frequency_lambda caec)
    ∧ getitem df3 "CALC_binary" = Some (apply frequency_lambda calc)
    ∧ (∀ c, c ∉ num_columns → getitem sample_out c = getitem df3 c)
    ∧ getitem (clean_data sample_raw) "NObeyesdad" = Some label
    ∧ getitem sample_out "Obesity_Binary" = Some (apply obesity_lambda label)
    ∧ (∀ c s, getitem (clean_data sample_raw) c = Some s → is_object s = true →
         c ∉ ["NObeyesdad"; "Obesity_Binary"; "MTRANS"; "CALC"; "CAEC";
              "MTRANS_Binary"; "CAEC_binary"; "CALC_binary"] →
         getitem sample_out c = Some (binarized s)).
Proof.
  exact (numeric_columns_standardized sample_raw sample_out sample_NoDup sample_transform).
Defined.

Lemma mean_21_21 : mean [21%R; 21%R] = 21%R.
Proof. unfold mean, Rsum. simpl. lra. Qed.

Lemma variance_21_21 : variance [21%R; 21%R] = 0%R.
Proof. unfold variance. rewrite mean_21_21. unfold mean, Rsum. simpl. lra. Qed.

Lemma scale_21_21 : scale_ [21%R; 21%R] = 1%R.
Proof. unfold scale_. rewrite variance_21_21. by rewrite decide_True. Qed.

Lemma const_transform : transform (clean_data const_raw) = Some const_out.
Proof.
  unfold transform. do 2 eval_stage. unfold scale_numeric. simpl.
  rewrite mean_21_21, scale_21_21.
  replace ((21 - 21) / 1)%R with 0%R by lra.
  reflexivity.
Qed.

Lemma variance_0_0 : variance [0%R; 0%R] = 0%R.
Proof. unfold variance, mean, Rsum. simpl. lra. Qed.

Lemma mean_0_1 : mean [0%R; 1%R] = (1 / 2)%R.
Proof. unfold mean, Rsum. simpl. lra. Qed.

Lemma variance_0_1 : variance [0%R; 1%R] = (1 / 4)%R.
Proof. unfold variance. rewrite mean_0_1. unfold mean, Rsum. simpl. lra. Qed.

(** C4 as stated fails twice over.  The constant column [Age] of
    [const_raw] comes out as zeros, whose variance is 0 and not 1.  And the
    saved table holds numeric columns that line 52 does not touch: the
    recoded [Gender] and the target [Obesity_Binary] are [0; 1], of mean
    1/2 and variance 1/4. *)
Lemma constant_column_variance_zero :
  transform (clean_data const_raw) = Some const_out
  ∧ getitem (clean_data const_raw) "Age" = Some (Int64Series [21; 21]%Z)
  ∧ getitem const_out "Age" = Some (Float64Series (Some <$> [0%R; 0%R]))
  ∧ variance [0%R; 0%R] = 0%R
  ∧ variance [0%R; 0%R] ≠ 1%R
  ∧ getitem (clean_data const_raw) "Gender" = Some (ObjectSeries [Some "Female"; Some "Male"])
  ∧ getitem const_out "Gender" = Some (Int64Series [0; 1]%Z)
  ∧ getitem const_out "Obesity_Binary" = Some (Int64Series [0; 1]%Z)
  ∧ is_object (Int64Series [0; 1]%Z) = false
  ∧ to_float (Int64Series [0; 1]%Z) = Some [0%R; 1%R]
  ∧ mean [0%R; 1%R] ≠ 0%R
  ∧ variance [0%R; 1%R] ≠ 1%R.
Proof.
  split; [exact const_transform|]. split; [by vm_compute|]. split; [reflexivity|].
  rewrite variance_0_0, mean_0_1, variance_0_1.
  split; [done|]. split; [lra|]. split; [by vm_compute|].
  do 4 (split; [reflexivity|]). split; lra.
Qed.

Lemma mono_transform : transform (clean_data mono_raw) = Some mono_out.
Proof.
  unfold transform. do 2 eval_stage. unfold scale_numeric. simpl.
  rewrite mean_21_23, scale_21_23.
  replace ((21 - 22) / 1)%R with (-1)%R by lra.
  replace ((23 - 22) / 1)%R with 1%R by lra.
  reflexivity.
Qed.

(** C5 as stated fails: [mono_raw] has every expected column and is
    transformed without error, and its [Gender] column, which holds one
    value only, is still a column of strings in the output. *)
Lemma single_valued_column_stays_object :
  transform (clean_data mono_raw) = Some mono_out
  ∧ ("Gender", ObjectSeries [Some "Female"; Some "Female"]) ∈ mono_out
  ∧ is_numeric (ObjectSeries [Some "Female"; Some "Female"]) = false.
Proof.
  split; [exact mono_transform|]. split; [by left | reflexivity].
Qed.

Lemma binarized_numeric_iff (s : Series) :
  is_object s = true → NaN ∉ values s →
  (is_numeric (binarized s) = true ↔ nunique s = 2).
Proof.
  intros Hobj Hna. split.
  - intros Hnum. destruct (decide (nunique s = 2)) as [|Hn]; [done|].
    unfold binarized in Hnum. rewrite decide_False in Hnum by done.
    unfold is_numeric in Hnum. by rewrite Hobj in Hnum.
  - intros Hn. destruct (binarized_two s Hna Hn) as (a & b & _ & _ & _ & _ & ->). done.
Qed.

(** C5 (amended): the output of a successful run has only numeric columns
    exactly when every string column of the cleaned table, the label, the
    three consumed columns and the names of derived columns apart, holds
    exactly two distinct values. *)
Theorem output_numeric_iff_two_valued (raw out : DataFrame) :
  NoDup (columns raw) →
  transform (clean_data raw) = Some out →
  Forall (λ kv, is_numeric kv.2 = true) out
  ↔ (∀ c s, getitem (clean_data raw) c = Some s → is_object s = true →
       c ∉ ["NObeyesdad"; "Obesity_Binary"; "MTRANS"; "CALC"; "CAEC";
            "MTRANS_Binary"; "CAEC_binary"; "CALC_binary"] →
       nunique s = 2).
Proof.
  intros Hnd (df2 & nums & df3 & Hb & H4 & H5)%transform_stages.
  pose proof (columns_NoDup_stages _ _ _ _ _ Hnd Hb H4 H5) as Hndo.
  destruct (binarize_categoricals_inv _ _ _ Hnd Hb)
    as (df1 & features & label & _ & Hg1 & _ & Hndf & Hf & -> & _ & Hg2).
  destruct (add_indicators_getitem _ _ H4) as (mtrans & caec & calc & _ & _ & _ & Hg3).
  pose proof (scale_numeric_getitem _ _ _ (NoDup_num_columns _ Hndf) H5) as Hg4.
  split.
  - intros Hall c s Hs Hobj Hc.
    assert (c ≠ "NObeyesdad" ∧ c ≠ "Obesity_Binary" ∧ (c ∉ ["MTRANS"; "CALC"; "CAEC"])
            ∧ c ≠ "CALC_binary" ∧ c ≠ "CAEC_binary" ∧ c ≠ "MTRANS_Binary")
      as (N1 & N2 & N3 & N4 & N5 & N6).
    { repeat split; try (intros ->; apply Hc; repeat constructor).
      intros Hx. apply Hc. do 2 right.
      repeat (apply elem_of_cons in Hx as [->|Hx]; [repeat constructor|]).
      by apply elem_of_nil in Hx. }
    assert (getitem df1 c = Some s) as Hs1 by (by rewrite Hg1, !decide_False).
    assert ((c, s) ∈ features) as Hin by (by apply Hf).
    assert (getitem out c = Some (binarized s)) as Hout.
    { rewrite Hg4, decide_False.
      - rewrite Hg3, !decide_False by done. rewrite Hg2, decide_True, Hs1; [done|].
        apply elem_of_cat_columns. by exists s.
      - intros (s' & [Hs' _]%Hf & Hobj')%elem_of_num_columns. congruence. }
    apply getitem_Some_elem_of in Hout.
    rewrite Forall_forall in Hall. specialize (Hall _ Hout). simpl in Hall.
    apply binarized_numeric_iff in Hall; [done | done | by eapply clean_data_notna].
  - intros Htwo. apply Forall_forall. intros [c so] Hin. simpl.
    apply (elem_of_getitem _ _ _ Hndo) in Hin. rewrite Hg4 in Hin.
    destruct (decide (c ∈ num_columns_of features)).
    { destruct (getitem df3 c) as [s3|]; [|done]. simpl in Hin.
      destruct (to_float s3); [|done]. by injection Hin as <-. }
    rewrite Hg3 in Hin.
    destruct (decide (c ∈ ["MTRANS"; "CALC"; "CAEC"])) as [|N3]; [done|].
    destruct (decide (c = "CALC_binary")) as [|N4]; [by injection Hin as <-|].
    destruct (decide (c = "CAEC_binary")) as [|N5]; [by injection Hin as <-|].
    destruct (decide (c = "MTRANS_Binary")) as [|N6]; [by injection Hin as <-|].
    rewrite Hg2, Hg1 in Hin.
    destruct (decide (c = "NObeyesdad")) as [|N1].
    { by destruct (decide (c ∈ cat_columns_of features)). }
    destruct (decide (c = "Obesity_Binary")) as [|N2].
    { destruct (decide (c ∈ cat_columns_of features)) as [Hcat|]; [|by injection Hin as <-].
      by apply elem_of_cat_columns in Hcat as (s' & [_ ?]%Hf & _). }
    destruct (decide (c ∈ cat_columns_of features)) as [Hcat|Hcat].
    + destruct (getitem (clean_data raw) c) as [s|] eqn:Hs; [|done].
      injection Hin as <-.
      apply elem_of_cat_columns in Hcat as (s' & [Hs' _]%Hf & Hobj).
      rewrite Hg1, !decide_False, Hs in Hs' by done. injection Hs' as <-.
      apply binarized_numeric_iff; [done | by eapply clean_data_notna |].
      apply (Htwo c s Hs Hobj).
      intros Hx.
      repeat (apply elem_of_cons in Hx as [->|Hx];
              [first [done | by apply N3; repeat constructor]|]).
      by apply elem_of_nil in Hx.
    + unfold is_numeric. destruct (is_object so) eqn:Hobj; [|done].
      destruct Hcat. apply elem_of_cat_columns. exists so. split; [|done].
      apply Hf. split; [|done]. by rewrite Hg1, !decide_False.
Qed.

Lemma output_numeric_iff_two_valued_witness :
  Forall (λ kv, is_numeric kv.2 = true) sample_out
  ↔ (∀ c s, getitem (clean_data sample_raw) c = Some s → is_object s = true →
       c ∉ ["NObeyesdad"; "Obesity_Binary"; "MTRANS"; "CALC"; "CAEC";
            "MTRANS_Binary"; "CAEC_binary"; "CALC_binary"] →
       nunique s = 2).
Proof.
  exact (output_numeric_iff_two_valued sample_raw sample_out sample_NoDup sample_transform).
Defined.

(** ** The scripts as programs *)

(** Called in a module that is not the program ([__name__] is the
    module's name), [main] does the whole preprocessing once. *)
Lemma main_imported depth name__ input_path output_path (fs : gmap string DataFrame) :
  name__ ≠ "__main__" →
  main (S depth) name__ input_path output_path fs
  = (df ← load_data input_path fs;
     out ← transform (clean_data df);
     Some (save_data out output_path fs)).
Proof.
  intros Hname. simpl. destruct (load_data input_path fs) as [df|]; [|done]. simpl.
  destruct (transform (clean_data df)) as [out|]; [|done]. simpl.
  by rewrite decide_False.
Qed.

(** Called in the program itself, [main] would call itself until Python
    gives up: it never returns. *)
Lemma main_as_program_never_returns depth input_path output_path
    (fs : gmap string DataFrame) :
  main depth "__main__" input_path output_path fs = None.
Proof.
  revert input_path output_path fs.
  induction depth as [|depth IH]; intros input_path output_path fs; [done|].
  simpl. destruct (load_data input_path fs) as [df|]; [|done]. simpl.
  destruct (transform (clean_data df)) as [out|]; [|done]. simpl.
  apply IH.
Qed.

(** C3 (the code does otherwise): run as a program,
    [data_preprocessing.py] defines its four functions and stops; no file is
    read and none is written, so [process_data] of the pipeline succeeds and
    leaves the file system as it was.  On a file system that holds the
    sample table as input, no [clean_data.csv] appears, where a call of
    [main] from an importing module writes it. *)
Theorem preprocessing_script_writes_nothing :
  (∀ fs : gmap string DataFrame,
     exec_module "__main__" data_preprocessing_py fs = Some fs
     ∧ process_data fs = Some fs)
  ∧ process_data {[ "./data/ObesityDataSet.csv" := sample_raw ]}
    = Some {[ "./data/ObesityDataSet.csv" := sample_raw ]}
  ∧ ({[ "./data/ObesityDataSet.csv" := sample_raw ]} : gmap string DataFrame)
      !! "./data/clean_data.csv" = None
  ∧ main recursion_limit "data_preprocessing"
      "./data/ObesityDataSet.csv" "./data/clean_data.csv"
      {[ "./data/ObesityDataSet.csv" := sample_raw ]}
    = Some (<[ "./data/clean_data.csv" := sample_out ]>
              {[ "./data/ObesityDataSet.csv" := sample_raw ]}).
Proof.
  split; [by intros fs|].
  split; [reflexivity|]. split; [by vm_compute|].
  unfold recursion_limit. rewrite main_imported by done.
  unfold load_data. rewrite lookup_singleton_eq. cbn [mbind option_bind].
  by rewrite sample_transform.
Qed.

(** ** The state-and-exception monad *)

Lemma bind_run {A B : Type} (m : M A) (f : A → M B) (w : World) :
  (m ≫= f) w = match m w with
               | (inl e, w1) => (inl e, w1)
               | (inr a, w1) => f a w1
               end.
Proof. reflexivity. Qed.

Lemma bind_inr {A B : Type} (m : M A) (f : A → M B) (w w' : World) (b : B) :
  (m ≫= f) w = (inr b, w') → ∃ a w1, m w = (inr a, w1) ∧ f a w1 = (inr b, w').
Proof.
  rewrite bind_run. destruct (m w) as [[e|a] w1]; [done|]. intros Hf. by exists a, w1.
Qed.

Lemma for_each_M_app {A S : Type} (body : S → A → M S) (xs ys : list A) (st : S) (w : World) :
  for_each_M body (xs ++ ys) st w
  = match for_each_M body xs st w with
    | (inl e, w1) => (inl e, w1)
    | (inr st1, w1) => for_each_M body ys st1 w1
    end.
Proof.
  revert st w; induction xs as [|x xs IH]; intros st w; [done|].
  cbn [app for_each_M]. rewrite !bind_run.
  destruct (body st x w) as [[e|st1] w1]; [done|]. apply IH.
Qed.

(** A loop either raises or has run its body on every element. *)
Lemma for_each_M_inr {A S : Type} (P : S → list A → Prop) (body : S → A → M S)
    (xs : list A) (st st' : S) (w w' : World) :
  (∀ st x st1 w w1 seen,
     P st seen → body st x w = (inr st1, w1) → P st1 (seen ++ [x])%list) →
  P st [] →
  for_each_M body xs st w = (inr st', w') → P st' xs.
Proof.
  intros Hstep. assert (∀ seen st w, P st seen →
    for_each_M body xs st w = (inr st', w') → P st' (seen ++ xs)%list) as Hgen.
  { induction xs as [|x xs IH]; intros seen st0 w0 HP Hrun.
    - injection Hrun as <- <-. by rewrite app_nil_r.
    - cbn [for_each_M] in Hrun. apply bind_inr in Hrun as (st1 & w1 & Hb & Hrest).
      rewrite (cons_middle x seen xs), app_assoc. eapply IH; [|done].
      by eapply Hstep. }
  intros HP Hrun. by apply (Hgen [] st w).
Qed.

(** *** Computations that do not touch the frames *)

Lemma keeps_frames_ret {A : Type} (a : A) : keeps_frames (mret a).
Proof. by intros w. Qed.

Lemma keeps_frames_raise {A : Type} (e : exn) : keeps_frames (raise (A := A) e).
Proof. by intros w. Qed.

Lemma keeps_frames_bind {A B : Type} (m : M A) (f : A → M B) :
  keeps_frames m → (∀ a, keeps_frames (f a)) → keeps_frames (m ≫= f).
Proof.
  intros Hm Hf w. rewrite bind_run. specialize (Hm w).
  destruct (m w) as [[e|a] w1]; [done|]. simpl in Hm. by rewrite Hf.
Qed.

Lemma keeps_frames_get_world : keeps_frames get_world.
Proof. by intros w. Qed.

Lemma keeps_frames_lift_result {A : Type} (r : exn + A) : keeps_frames (lift_result r).
Proof. by destruct r. Qed.

Lemma keeps_frames_for_each_M {A S : Type} (body : S → A → M S) (xs : list A) (st : S) :
  (∀ st x, keeps_frames (body st x)) → keeps_frames (for_each_M body xs st).
Proof.
  intros Hbody. revert st; induction xs as [|x xs IH]; intros st.
  - apply keeps_frames_ret.
  - by apply keeps_frames_bind.
Qed.

Lemma keeps_frames_write_file path text : keeps_frames (write_file path text).
Proof. by intros w. Qed.

Lemma keeps_frames_read_file path : keeps_frames (read_file path).
Proof. intros w. unfold read_file. rewrite bind_run. simpl. by destruct (files w !! path). Qed.

Lemma keeps_frames_read_frame ref : keeps_frames (read_frame ref).
Proof. intros w. unfold read_frame. rewrite bind_run. simpl. by destruct (frames w !! ref). Qed.

Lemma keeps_frames_mlflow_get_run id : keeps_frames (mlflow_get_run id).
Proof.
  intros w. unfold mlflow_get_run. rewrite bind_run. simpl. by destruct (mlruns w !! id).
Qed.

Lemma keeps_frames_update_active_run f : keeps_frames (update_active_run f).
Proof.
  intros w. unfold update_active_run. rewrite bind_run. simpl. by destruct (active_run w).
Qed.

Lemma keeps_frames_with_start_run {A : Type} name (body : nat → M A) :
  (∀ run, keeps_frames (body run)) → keeps_frames (with_start_run name body).
Proof. intros Hbody w. unfold with_start_run. simpl. by rewrite Hbody. Qed.

Create HintDb frames.

#[local] Hint Resolve keeps_frames_ret keeps_frames_raise keeps_frames_get_world
  keeps_frames_lift_result keeps_frames_write_file keeps_frames_read_file
  keeps_frames_read_frame keeps_frames_mlflow_get_run keeps_frames_update_active_run : frames.

(** Splits a computation into its steps and closes those known to keep
    the frames. *)
Ltac keeps_frames_steps :=
  repeat (intros; cbv zeta;
          first [ solve [auto with frames]
                | apply keeps_frames_for_each_M
                | apply keeps_frames_with_start_run
                | apply keeps_frames_bind
                | match goal with
                  | |- keeps_frames (match ?x with _ => _ end) => destruct x
                  end ]).

Lemma keeps_frames_loc_idxmax frame m : keeps_frames (loc_idxmax frame m).
Proof.
  unfold loc_idxmax. keeps_frames_steps.
Qed.

Lemma keeps_frames_get_mlflow_model_performance run_ids :
  keeps_frames (get_mlflow_model_performance run_ids).
Proof.
  unfold get_mlflow_model_performance. keeps_frames_steps.
Qed.

#[local] Hint Resolve keeps_frames_loc_idxmax keeps_frames_get_mlflow_model_performance : frames.

(** ** The claims about [experiments.py] *)

Section experiments_facts.
Context `{Libraries}.

Lemma keeps_frames_get_run_metric id key : keeps_frames (get_run_metric id key).
Proof.
  unfold get_run_metric. keeps_frames_steps.
Qed.

Lemma keeps_frames_log_model_with_metrics model name :
  keeps_frames (log_model_with_metrics model name).
Proof.
  unfold log_model_with_metrics, save_confusion_matrix, mlflow_log_param, mlflow_log_metric,
    mlflow_log_artifact, mlflow_sklearn_log_model.
  keeps_frames_steps.
Qed.

Lemma keeps_frames_run_one_experiment results exp :
  keeps_frames (run_one_experiment results exp).
Proof.
  unfold run_one_experiment.
  pose proof keeps_frames_get_run_metric. pose proof keeps_frames_log_model_with_metrics.
  keeps_frames_steps.
Qed.

Lemma run_one_experiment_inr results exp (w w' : World) results' :
  run_one_experiment results exp w = (inr results', w') →
  ∃ r, results' = (results ++ [r])%list ∧ Model r = exp.2.
Proof.
  unfold run_one_experiment. intros Hrun.
  apply bind_inr in Hrun as (run_results & w1 & _ & Hrun).
  do 8 (apply bind_inr in Hrun as (? & ? & _ & Hrun)).
  destruct (task_connect _) as [e|]; [done|].
  injection Hrun as <- <-. by eexists.
Qed.

Lemma new_frame_spec records (w : World) :
  ∃ ref w', new_frame records w = (inr ref, w')
    ∧ frames w !! ref = None ∧ frames w' !! ref = Some records.
Proof.
  exists (fresh (dom (frames w))), (set_frames <[fresh (dom (frames w)) := records]> w).
  split; [reflexivity|]. split.
  - apply not_elem_of_dom. apply is_fresh.
  - simpl. apply lookup_insert_eq.
Qed.

(** C9: [run_experiments] either raises, and then has created no
    collection, or returns a new frame that holds one record per configured
    model, in the order of the list; and when the loop body raises for some
    model, that exception is the outcome of [run_experiments], reached in the
    state the body left, the models after it not run. *)
Theorem run_experiments_all_or_nothing (w : World) :
  ((∃ e w', run_experiments w = (inl e, w') ∧ frames w' = frames w)
   ∨ (∃ ref records w',
        run_experiments w = (inr ref, w')
        ∧ frames w !! ref = None
        ∧ frames w' !! ref = Some records
        ∧ Model <$> records
          = ["Logistic Regression (C=1.0)"; "Logistic Regression (C=0.5)";
             "SVM (Linear Kernel)"; "Decision Tree (max_depth=10)";
             "Decision Tree (max_depth=15)"]))
  ∧ (∀ before exp after results w1 e w2,
       experiments = (before ++ exp :: after)%list →
       for_each_M run_one_experiment before [] w = (inr results, w1) →
       run_one_experiment results exp w1 = (inl e, w2) →
       run_experiments w = (inl e, w2)).
Proof.
  split.
  - unfold run_experiments. rewrite bind_run.
    pose proof (keeps_frames_for_each_M run_one_experiment experiments []
                  keeps_frames_run_one_experiment w) as Hkeep.
    destruct (for_each_M run_one_experiment experiments [] w) as [[e|results] w1] eqn:Hloop.
    { left. by exists e, w1. }
    right. destruct (new_frame_spec results w1) as (ref & w' & Hnew & Hfresh & Hframe).
    assert (Model <$> results = experiments.*2) as Hnames.
    { apply (for_each_M_inr (λ rs seen, Model <$> rs = seen.*2) _ _ _ _ _ _) in Hloop;
        [done| |done].
      intros st x st1 w0 w0' seen Hst (r & -> & Hr)%run_one_experiment_inr.
      rewrite !fmap_app, Hst. simpl. by rewrite Hr. }
    exists ref, results, w'. split; [done|]. simpl in Hkeep. rewrite <- Hkeep.
    split; [done|]. split; [done|]. by rewrite Hnames.
  - intros before exp after results w1 e w2 Hexp Hbefore Hbody.
    unfold run_experiments. rewrite bind_run, Hexp, for_each_M_app, Hbefore.
    cbn [for_each_M]. by rewrite bind_run, Hbody.
Qed.

End experiments_facts.

(** ** The claims about the report *)

Lemma keeps_frames_run {A : Type} (m : M A) (w w' : World) (r : exn + A) :
  keeps_frames m → m w = (r, w') → frames w' = frames w.
Proof. intros Hm Hrun. specialize (Hm w). by rewrite Hrun in Hm. Qed.

Lemma read_frame_inr ref (w w' : World) records :
  read_frame ref w = (inr records, w') → w' = w ∧ frames w !! ref = Some records.
Proof.
  unfold read_frame. rewrite bind_run. simpl.
  destruct (frames w !! ref); [|done]. by intros [= <- <-].
Qed.

Lemma loc_idxmax_inr frame m (w w' : World) row :
  loc_idxmax frame m w = (inr row, w') →
  w' = w ∧ ∃ records i,
    frames w !! frame = Some records
    ∧ idxmax (get_column m <$> records) = Some i ∧ records !! i = Some row.
Proof.
  unfold loc_idxmax. intros (records & w1 & [-> Hr]%read_frame_inr & Hrun)%bind_inr.
  destruct (idxmax _) as [i|] eqn:Hi; [|done].
  destruct (records !! i) as [row'|] eqn:Hrow; [|done].
  injection Hrun as <- <-. split; [done|]. by exists records, i.
Qed.

Lemma round_column_run ref m (w : World) records :
  frames w !! ref = Some records →
  round_column ref m w = (inr tt, set_frames <[ref := round_cell m <$> records]> w).
Proof.
  intros Hr. unfold round_column, read_frame. rewrite !bind_run. simpl. by rewrite Hr.
Qed.

Lemma round_all_columns (r : RunRecord) :
  round_cell col_f1_score
    (round_cell col_recall (round_cell col_precision (round_cell col_accuracy r)))
  = round_metrics r.
Proof. by destruct r. Qed.

(** The loop of lines 197-198 on a frame that exists. *)
Lemma round_columns_run ref (w : World) records :
  frames w !! ref = Some records →
  ∃ w1,
    for_each_M (λ _ metric, round_column ref metric)
      [col_accuracy; col_precision; col_recall; col_f1_score] tt w = (inr tt, w1)
    ∧ frames w1 = <[ref := round_metrics <$> records]> (frames w).
Proof.
  intros Hr. cbn [for_each_M]. rewrite bind_run.
  rewrite (round_column_run _ _ _ _ Hr). rewrite bind_run.
  erewrite round_column_run by (simpl; apply lookup_insert_eq). rewrite bind_run.
  erewrite round_column_run by (simpl; apply lookup_insert_eq). rewrite bind_run.
  erewrite round_column_run by (simpl; apply lookup_insert_eq).
  eexists. split; [reflexivity|]. simpl. rewrite !insert_insert_eq.
  f_equal. rewrite <- !list_fmap_compose. apply list_fmap_ext.
  intros i r _. apply round_all_columns.
Qed.

Lemma idxmax_from_spec (xs pre : list Q) (b : Q) (bi : nat) :
  pre !! bi = Some b →
  (∀ j y, pre !! j = Some y → (y <= b)%Q) →
  (∀ j y, j < bi → pre !! j = Some y → (y < b)%Q) →
  ∃ m, (pre ++ xs)%list !! idxmax_from bi b (length pre) xs = Some m
    ∧ (∀ j y, (pre ++ xs)%list !! j = Some y → (y <= m)%Q)
    ∧ (∀ j y, j < idxmax_from bi b (length pre) xs →
         (pre ++ xs)%list !! j = Some y → (y < m)%Q).
Proof.
  revert pre b bi; induction xs as [|x xs IH]; intros pre b bi Hb Hmax Hfirst.
  - rewrite app_nil_r. by exists b.
  - cbn [idxmax_from]. rewrite (cons_middle x pre xs), app_assoc.
    replace (S (length pre)) with (length (pre ++ [x])%list)
      by (rewrite length_app; simpl; lia).
    destruct (Qle_bool x b) eqn:Hx.
    + apply Qle_bool_iff in Hx. apply IH.
      * by apply lookup_app_l_Some.
      * intros j y [[_ Hy]|[_ <-]]%lookup_snoc_Some; [by eapply Hmax | done].
      * intros j y Hj [[_ Hy]|[-> _]]%lookup_snoc_Some; [by eapply Hfirst|].
        apply lookup_lt_Some in Hb. lia.
    + assert (b < x)%Q as Hlt.
      { apply Qnot_le_lt. intros Hle. apply Qle_bool_iff in Hle. congruence. }
      apply IH.
      * apply lookup_snoc_Some. right. done.
      * intros j y [[_ Hy]|[_ <-]]%lookup_snoc_Some; [|apply Qle_refl].
        apply Qlt_le_weak. eapply Qle_lt_trans; [by eapply Hmax | done].
      * intros j y Hj [[_ Hy]|[-> _]]%lookup_snoc_Some; [|lia].
        eapply Qle_lt_trans; [by eapply Hmax | done].
Qed.

(** [idxmax] finds the first position that holds the largest value. *)
Lemma idxmax_spec (xs : list Q) (i : nat) :
  idxmax xs = Some i →
  ∃ m, xs !! i = Some m
    ∧ (∀ j y, xs !! j = Some y → (y <= m)%Q)
    ∧ (∀ j y, j < i → xs !! j = Some y → (y < m)%Q).
Proof.
  destruct xs as [|x xs]; [done|]. intros [= <-].
  apply (idxmax_from_spec xs [x] x 0); [done| |].
  - intros [|j] y Hy; simplify_eq/=. apply Qle_refl.
  - intros j y Hj. lia.
Qed.

Section report_facts.
Context `{Libraries}.

Lemma keeps_frames_enhance_report_generation ref :
  keeps_frames (enhance_report_generation ref).
Proof.
  unfold enhance_report_generation, generate_mlflow_performance_plot. keeps_frames_steps.
Qed.

(** What a successful [template_context] has read and selected. *)
Lemma template_context_inr ref (w w' : World) template ctx :
  template_context ref w = (inr (template, ctx), w') →
  ∃ original records i j by_f1 by_accuracy,
    frames w !! ref = Some original
    ∧ records = round_metrics <$> original
    ∧ frames w' = <[ref := records]> (frames w)
    ∧ idxmax (f1_score <$> records) = Some i ∧ records !! i = Some by_f1
    ∧ idxmax (accuracy <$> records) = Some j ∧ records !! j = Some by_accuracy
    ∧ head (ctx_insights ctx)
      = Some ("Наилучшая модель: " ++ Model by_f1 ++ ", так как она показала лучшие метрики.")
    ∧ best_accuracy ctx = accuracy by_accuracy
    ∧ best_precision ctx = precision by_accuracy
    ∧ best_recall ctx = recall by_accuracy
    ∧ best_f1_score ctx = f1_score by_accuracy
    ∧ ctx_full_runs ctx = records.
Proof.
  unfold template_context. intros Hrun.
  destruct (frames w !! ref) as [original|] eqn:Horig.
  2:{ cbn [for_each_M] in Hrun. rewrite bind_run in Hrun.
      unfold round_column, read_frame in Hrun. rewrite !bind_run in Hrun.
      simpl in Hrun. by rewrite Horig in Hrun. }
  destruct (round_columns_run ref w original Horig) as (w1 & Hround & Hf1).
  rewrite bind_run, Hround in Hrun.
  assert (frames w1 !! ref = Some (round_metrics <$> original)) as Hrec
    by (rewrite Hf1; apply lookup_insert_eq).
  apply bind_inr in Hrun as (records & ? & [-> Hr]%read_frame_inr & Hrun).
  rewrite Hrec in Hr. injection Hr as <-.
  apply bind_inr in Hrun as ([] & w2 & Hw & Hrun).
  apply (keeps_frames_run _ _ _ _ (keeps_frames_write_file _ _)) in Hw.
  apply bind_inr in Hrun as (by_f1 & ? & [-> (rs & i & Hrs & Hi & Hrow)]%loc_idxmax_inr & Hrun).
  rewrite Hw, Hrec in Hrs. injection Hrs as <-.
  apply bind_inr in Hrun as (? & ? & [= <- <-] & Hrun).
  apply bind_inr in Hrun
    as (by_acc & ? & [-> (rs & j & Hrs & Hj & Hrowj)]%loc_idxmax_inr & Hrun).
  rewrite Hw, Hrec in Hrs. injection Hrs as <-.
  apply bind_inr in Hrun as (rows & ? & [-> _]%read_frame_inr & Hrun).
  apply bind_inr in Hrun as (model_reports & w3 & Hw3 & Hrun).
  apply keeps_frames_run in Hw3.
  2:{ apply keeps_frames_for_each_M. intros. keeps_frames_steps. }
  apply bind_inr in Hrun as (tpl & w4 & Hw4 & Hrun).
  apply (keeps_frames_run _ _ _ _ (keeps_frames_read_file _)) in Hw4.
  apply bind_inr in Hrun as (mlflow_context & w5 & Hw5 & Hrun).
  apply (keeps_frames_run _ _ _ _ (keeps_frames_enhance_report_generation _)) in Hw5.
  apply bind_inr in Hrun as (full_runs & ? & [-> Hfull]%read_frame_inr & Hrun).
  rewrite Hw5, Hw4, Hw3, Hw, Hrec in Hfull. injection Hfull as <-.
  injection Hrun as <- <- <-.
  exists original, (round_metrics <$> original), i, j, by_f1, by_acc.
  split; [done|]. split; [done|]. split; [by rewrite Hw5, Hw4, Hw3, Hw|].
  done.
Qed.

Lemma round_metrics_fields (r : RunRecord) :
  RunID (round_metrics r) = RunID r ∧ Model (round_metrics r) = Model r
  ∧ confusion_matrix_path (round_metrics r) = confusion_matrix_path r
  ∧ classification_report_path (round_metrics r) = classification_report_path r
  ∧ accuracy (round_metrics r) = round4 (accuracy r)
  ∧ precision (round_metrics r) = round4 (precision r)
  ∧ recall (round_metrics r) = round4 (recall r)
  ∧ f1_score (round_metrics r) = round4 (f1_score r).
Proof. done. Qed.

(** C7 (amended): when [generate_report] returns, the frame it was given
    holds the same records in the same order with identifier, model name
    and both paths as before, and each of the four metrics replaced by its
    value rounded to 4 decimals; the other frames are as before. *)
Theorem generate_report_rounds_in_place ref (w w' : World) original :
  generate_report ref w = (inr tt, w') →
  frames w !! ref = Some original →
  ∃ records,
    frames w' !! ref = Some records
    ∧ length records = length original
    ∧ (∀ i r, original !! i = Some r →
         ∃ r', records !! i = Some r'
           ∧ RunID r' = RunID r ∧ Model r' = Model r
           ∧ confusion_matrix_path r' = confusion_matrix_path r
           ∧ classification_report_path r' = classification_report_path r
           ∧ accuracy r' = round4 (accuracy r)
           ∧ precision r' = round4 (precision r)
           ∧ recall r' = round4 (recall r)
           ∧ f1_score r' = round4 (f1_score r))
    ∧ (∀ other, other ≠ ref → frames w' !! other = frames w !! other).
Proof.
  unfold generate_report. intros ([template ctx] & w1 & Htc & Hw)%bind_inr Horig.
  apply (keeps_frames_run _ _ _ _ (keeps_frames_write_file _ _)) in Hw.
  apply template_context_inr in Htc
    as (original' & records & _ & _ & _ & _ & Ho & -> & Hf & _).
  rewrite Horig in Ho. injection Ho as <-.
  exists (round_metrics <$> original). rewrite Hw, Hf.
  split; [apply lookup_insert_eq|]. split; [apply length_fmap|]. split.
  - intros i r Hr. exists (round_metrics r).
    split; [by rewrite list_lookup_fmap, Hr | apply round_metrics_fields].
  - intros other Hne. by rewrite lookup_insert_ne.
Qed.

(** C8 (amended): [generate_report] first rounds the four metrics of the
    frame it is given to 4 decimals, in place (lines 196-198), and selects
    twice among the rounded records.  The narrative names the model of the
    first record whose rounded [f1_score] is the largest, the headline
    metrics are the rounded metrics of the first record whose rounded
    [accuracy] is the largest: no record has a larger rounded value, and
    every earlier record has a smaller one, so the earliest wins a tie,
    also a tie that rounding has made.  Each selection reads its own column
    only; and there are runs for which the two records are records of
    different models. *)
Theorem report_selects_best_twice :
  (∀ ref (w w' : World) template ctx,
     template_context ref w = (inr (template, ctx), w') →
     ∃ original records i j by_f1 by_accuracy,
       frames w !! ref = Some original
       ∧ records = round_metrics <$> original
       ∧ frames w' !! ref = Some records
       ∧ idxmax (f1_score <$> records) = Some i ∧ records !! i = Some by_f1
       ∧ (∀ r, r ∈ records → (f1_score r <= f1_score by_f1)%Q)
       ∧ (∀ k r, k < i → records !! k = Some r → (f1_score r < f1_score by_f1)%Q)
       ∧ head (ctx_insights ctx)
         = Some ("Наилучшая модель: " ++ Model by_f1
                   ++ ", так как она показала лучшие метрики.")
       ∧ idxmax (accuracy <$> records) = Some j ∧ records !! j = Some by_accuracy
       ∧ (∀ r, r ∈ records → (accuracy r <= accuracy by_accuracy)%Q)
       ∧ (∀ k r, k < j → records !! k = Some r → (accuracy r < accuracy by_accuracy)%Q)
       ∧ best_accuracy ctx = accuracy by_accuracy
       ∧ best_precision ctx = precision by_accuracy
       ∧ best_recall ctx = recall by_accuracy
       ∧ best_f1_score ctx = f1_score by_accuracy)
  ∧ (∃ template ctx w',
       template_context 0 two_runs_world = (inr (template, ctx), w')
       ∧ head (ctx_insights ctx)
         = Some ("Наилучшая модель: " ++ "B" ++ ", так как она показала лучшие метрики.")
       ∧ (round_metrics <$> two_runs) !! 0 = Some
           {| RunID := 0; Model := "A"; accuracy := best_accuracy ctx;
              precision := best_precision ctx; recall := best_recall ctx;
              f1_score := best_f1_score ctx;
              confusion_matrix_path := "confusion_matrix_a.png";
              classification_report_path := "classification_report_a.txt" |}).
Proof.
  split.
  - intros ref w w' template ctx Htc.
    apply template_context_inr in Htc
      as (original & records & i & j & by_f1 & by_acc & Ho & Hrec & Hf & Hi & Hri & Hj & Hrj
          & Hins & Ha & Hp & Hr & Hf1 & _).
    exists original, records, i, j, by_f1, by_acc.
    do 2 (split; [done|]).
    split; [rewrite Hf; apply lookup_insert_eq|].
    destruct (idxmax_spec _ _ Hi) as (m & Hm & Hmax & Hfirst).
    rewrite list_lookup_fmap, Hri in Hm. injection Hm as <-.
    destruct (idxmax_spec _ _ Hj) as (m & Hm & Hmax' & Hfirst').
    rewrite list_lookup_fmap, Hrj in Hm. injection Hm as <-.
    do 2 (split; [done|]). split.
    { intros r [k Hk]%list_elem_of_lookup.
      apply (Hmax k). by rewrite list_lookup_fmap, Hk. }
    split.
    { intros k r Hlt Hk. apply (Hfirst k); [done|]. by rewrite list_lookup_fmap, Hk. }
    do 3 (split; [done|]). split.
    { intros r [k Hk]%list_elem_of_lookup.
      apply (Hmax' k). by rewrite list_lookup_fmap, Hk. }
    split; [|done].
    intros k r Hlt Hk. apply (Hfirst' k); [done|]. by rewrite list_lookup_fmap, Hk.
  - do 3 eexists. split; [vm_compute; reflexivity|]. split; reflexivity.
Qed.

End report_facts.

(** C8 as stated fails: in [close_runs] model B has the highest F1 score
    and the highest accuracy; rounded to 4 decimals both models stand at
    0.9, the first record wins the tie, and the report names model A and
    shows A's metrics as the best model's. *)
Lemma rounding_hides_the_best_model :
  ∃ a b template ctx w',
    frames close_runs_world !! 0 = Some [a; b]
    ∧ Model a = "A" ∧ Model b = "B"
    ∧ (f1_score a < f1_score b)%Q
    ∧ (accuracy a < accuracy b)%Q
    ∧ @template_context sample_libraries 0 close_runs_world = (inr (template, ctx), w')
    ∧ (@generate_report sample_libraries 0 close_runs_world).1 = inr tt
    ∧ head (ctx_insights ctx)
      = Some ("Наилучшая модель: " ++ "A" ++ ", так как она показала лучшие метрики.")
    ∧ best_accuracy ctx = round4 (accuracy a)
    ∧ best_precision ctx = round4 (precision a)
    ∧ best_recall ctx = round4 (recall a)
    ∧ best_f1_score ctx = round4 (f1_score a)
    ∧ ¬ (best_precision ctx == round4 (precision b))%Q
    ∧ (round4 (f1_score a) == round4 (f1_score b))%Q
    ∧ (round4 (accuracy a) == round4 (accuracy b))%Q.
Proof.
  do 5 eexists. split; [reflexivity|].
  split; [reflexivity|]. split; [reflexivity|].
  split; [by vm_compute|]. split; [by vm_compute|].
  split; [vm_compute; reflexivity|].
  split; [vm_compute; reflexivity|].
  split; [reflexivity|].
  split; [vm_compute; reflexivity|]. split; [vm_compute; reflexivity|].
  split; [vm_compute; reflexivity|]. split; [vm_compute; reflexivity|].
  split; [by vm_compute|]. split; by vm_compute.
Qed.

(** C7 as stated fails: after a sample run and its report, which is what
    the [__main__] block of [experiments.py] does, the first record of the collection
    holds accuracy 0.6667 where training had put 2/3. *)
Lemma report_replaces_stored_metrics :
  ∃ ref w1 w2 r r',
    @run_experiments sample_libraries sample_world = (inr ref, w1)
    ∧ @generate_report sample_libraries ref w1 = (inr tt, w2)
    ∧ @experiments_py_main sample_libraries sample_world = (inr tt, w2)
    ∧ frames w1 !! ref ≫= head = Some r
    ∧ frames w2 !! ref ≫= head = Some r'
    ∧ accuracy r = (2 # 3)%Q
    ∧ accuracy r' = (6667 # 10000)%Q
    ∧ ¬ (accuracy r' == accuracy r)%Q.
Proof.
  do 5 eexists. split; [vm_compute; reflexivity|].
  split; [vm_compute; reflexivity|].
  split; [vm_compute; reflexivity|].
  split; [vm_compute; reflexivity|].
  split; [vm_compute; reflexivity|].
  split; [reflexivity|]. split; [reflexivity|]. by vm_compute.
Qed.

Lemma generate_report_rounds_in_place_witness :
  ∃ records,
    frames (@generate_report sample_libraries 0 two_runs_world).2 !! 0 = Some records
    ∧ length records = length two_runs
    ∧ (∀ i r, two_runs !! i = Some r →
         ∃ r', records !! i = Some r'
           ∧ RunID r' = RunID r ∧ Model r' = Model r
           ∧ confusion_matrix_path r' = confusion_matrix_path r
           ∧ classification_report_path r' = classification_report_path r
           ∧ accuracy r' = round4 (accuracy r)
           ∧ precision r' = round4 (precision r)
           ∧ recall r' = round4 (recall r)
           ∧ f1_score r' = round4 (f1_score r))
    ∧ (∀ other, other ≠ 0 →
         frames (@generate_report sample_libraries 0 two_runs_world).2 !! other
         = frames two_runs_world !! other).
Proof.
  apply (@generate_report_rounds_in_place sample_libraries 0 two_runs_world
           (@generate_report sample_libraries 0 two_runs_world).2 two_runs).
  - by vm_compute.
  - by vm_compute.
Defined.

(** A sample batch in which the third model cannot be fitted: the batch
    raises, two runs are finished and one failed, and no collection
    exists. *)
Example run_experiments_on_failure :
  ∃ w', @run_experiments failing_libraries sample_world
        = (inl (ValueError "could not convert string to float"), w')
    ∧ frames w' = ∅
    ∧ status <$> mlruns w' !! 0 = Some "FINISHED"
    ∧ status <$> mlruns w' !! 1 = Some "FINISHED"
    ∧ status <$> mlruns w' !! 2 = Some "FAILED"
    ∧ mlruns w' !! 3 = None.
Proof.
  eexists. split; [vm_compute; reflexivity|]. repeat split; by vm_compute.
Qed.

(** ** Further properties of [clean_data] *)

Lemma mask_fmap_filter {A : Type} (f : A → bool) (xs : list A) :
  mask (f <$> xs) xs = filter (λ x, f x = true) xs.
Proof.
  induction xs as [|x xs IH]; [done|]. cbn [fmap list_fmap mask].
  rewrite filter_cons. destruct (f x) eqn:Hx.
  - rewrite decide_True by done. f_equal. apply IH.
  - rewrite decide_False by done. apply IH.
Qed.

Lemma forallb_notna (r : list cell) : forallb notna r = true ↔ NaN ∉ r.
Proof.
  rewrite forallb_forall. split.
  - intros Hall Hin. apply list_elem_of_In in Hin. by apply Hall in Hin.
  - intros Hn v Hv. apply notna_true. intros ->. by apply Hn, list_elem_of_In.
Qed.

Lemma elem_of_rows_dropna (df : DataFrame) (r : list cell) :
  r ∈ rows (dropna df) ↔ r ∈ rows df ∧ NaN ∉ r.
Proof.
  unfold dropna. rewrite rows_frame_mask, mask_fmap_filter, list_elem_of_filter.
  rewrite forallb_notna. tauto.
Qed.

Lemma elem_of_first_occurrences (seen rs : list (list cell)) (r : list cell) :
  r ∈ mask (negb <$> duplicated_from seen rs) rs ↔ r ∈ rs ∧ r ∉ seen.
Proof.
  revert seen; induction rs as [|x rs IH]; intros seen; simpl.
  - split; [by intros ?%elem_of_nil | by intros [?%elem_of_nil _]].
  - case_bool_decide as Hx; simpl.
    + rewrite IH, !elem_of_cons. split.
      * intros [Hr Hs]. split; [by right | tauto].
      * intros [[->|Hr] Hs]; [done|]. split; [done|]. intros [->|?]; done.
    + rewrite !elem_of_cons, IH, !elem_of_cons. split.
      * intros [->|[Hr Hs]]; [by split; [left|] | split; [by right | tauto]].
      * intros [[->|Hr] Hs]; [by left|].
        destruct (decide (r = x)) as [->|Hne]; [by left | right; tauto].
Qed.

(** X1: the rows of the cleaned table are exactly the rows of the input
    that hold no missing value. *)
Theorem clean_data_rows (df : DataFrame) (r : list cell) :
  r ∈ rows (clean_data df) ↔ r ∈ rows df ∧ NaN ∉ r.
Proof.
  unfold clean_data, drop_duplicates, duplicated.
  rewrite rows_frame_mask, elem_of_first_occurrences, elem_of_rows_dropna.
  split; [by intros [? _] | intros ?; split; [done | by intros ?%elem_of_nil]].
Qed.

Lemma mask_sublist {A : Type} (m : list bool) (xs : list A) : mask m xs `sublist_of` xs.
Proof.
  revert xs; induction m as [|b m IH]; intros [|x xs]; simpl;
    try apply sublist_nil_l.
  destruct b; [by apply sublist_skip | by apply sublist_cons].
Qed.

Lemma getitem_frame_mask m (df : DataFrame) c :
  getitem (frame_mask m df) c = series_mask m <$> getitem df c.
Proof.
  induction df as [|[k s0] df IH]; simpl; [done|]. by case_decide.
Qed.

(** X2: cleaning keeps the columns, their order and their dtypes, and keeps
    the surviving rows in the order of the input. *)
Theorem clean_data_keeps_schema_and_order (df : DataFrame) :
  columns (clean_data df) = columns df
  ∧ rows (clean_data df) `sublist_of` rows df
  ∧ ∀ c s', getitem (clean_data df) c = Some s' →
      ∃ s, getitem df c = Some s
        ∧ is_object s' = is_object s
        ∧ values s' `sublist_of` values s.
Proof.
  split; [apply columns_clean_data|]. split.
  - unfold clean_data, drop_duplicates, dropna. rewrite !rows_frame_mask.
    etrans; apply mask_sublist.
  - intros c s'. unfold clean_data, drop_duplicates, dropna.
    rewrite !getitem_frame_mask. destruct (getitem df c) as [s|]; [|done].
    simpl. intros [= <-]. exists s. split; [done|]. split; [by destruct s|].
    rewrite !values_series_mask. etrans; apply mask_sublist.
Qed.

Lemma length_rows_le (df : DataFrame) c s :
  (c, s) ∈ df → length (rows df) ≤ length (values s).
Proof.
  intros Hin. destruct (decide (length (rows df) ≤ length (values s))) as [|Hgt]; [done|].
  destruct (lookup_lt_is_Some_2 (rows df) (length (values s))) as [r Hr]; [lia|].
  destruct (rows_lookup df c s _ r Hin Hr) as (v & Hv%lookup_lt_Some & _). lia.
Qed.

Lemma mask_length {A : Type} (m : list bool) (xs : list A) :
  length m ≤ length xs → length (mask m xs) = length (filter (λ b, b = true) m).
Proof.
  revert xs; induction m as [|b m IH]; intros [|x xs] Hl; simpl in *; try done; try lia.
  rewrite filter_cons. destruct b; simpl; rewrite IH by lia; done.
Qed.

(** A frame filtered by a mask no longer than its rows has columns of one
    length, the number of its rows. *)
Lemma frame_mask_rectangular m (df : DataFrame) c s :
  length m ≤ length (rows df) → (c, s) ∈ frame_mask m df →
  length (values s) = length (rows (frame_mask m df)).
Proof.
  intros Hm (s0 & -> & Hin)%elem_of_frame_mask.
  rewrite values_series_mask, rows_frame_mask, !mask_length; [done|done|].
  etrans; [done|]. by eapply length_rows_le.
Qed.

Lemma length_duplicated_from (seen rs : list (list cell)) :
  length (duplicated_from seen rs) = length rs.
Proof. revert seen; induction rs as [|r rs IH]; intros seen; simpl; [done|]. by rewrite IH. Qed.

Lemma clean_data_rectangular (df : DataFrame) c s :
  (c, s) ∈ clean_data df → length (values s) = length (rows (clean_data df)).
Proof.
  unfold clean_data, drop_duplicates. apply frame_mask_rectangular.
  unfold duplicated. by rewrite length_fmap, length_duplicated_from.
Qed.

Lemma mask_all_true {A : Type} (n : nat) (xs : list A) :
  length xs ≤ n → mask (replicate n true) xs = xs.
Proof.
  revert xs; induction n as [|n IH]; intros [|x xs] Hl; simpl in *; try done; try lia.
  by rewrite IH by lia.
Qed.

Lemma series_mask_all_true (n : nat) (s : Series) :
  length (values s) ≤ n → series_mask (replicate n true) s = s.
Proof.
  destruct s; simpl; rewrite length_fmap; intros Hl; by rewrite mask_all_true.
Qed.

Lemma frame_mask_all_true (n : nat) (df : DataFrame) :
  (∀ c s, (c, s) ∈ df → length (values s) ≤ n) → frame_mask (replicate n true) df = df.
Proof.
  intros Hl. unfold frame_mask. rewrite <- (list_fmap_id df) at 2.
  apply Forall_fmap_ext, Forall_forall. intros [c s] Hin. simpl.
  by rewrite series_mask_all_true by (by eapply Hl).
Qed.

Lemma duplicated_from_NoDup_false (seen rs : list (list cell)) :
  NoDup rs → (∀ r, r ∈ rs → r ∉ seen) →
  duplicated_from seen rs = replicate (length rs) false.
Proof.
  intros Hnd; revert seen; induction Hnd as [|r rs Hr Hnd IH]; intros seen Hs; [done|].
  simpl. rewrite bool_decide_eq_false_2 by (apply Hs; by left). f_equal.
  apply IH. intros r' Hr' [->|?]%elem_of_cons; [done|].
  eapply Hs; [by right | done].
Qed.

Lemma fmap_replicate_const {A B : Type} (f : A → B) (n : nat) (x : A) :
  f <$> replicate n x = replicate n (f x).
Proof. induction n; simpl; [done|]. by f_equal. Qed.

Lemma fmap_all_true {A : Type} (f : A → bool) (xs : list A) :
  (∀ x, x ∈ xs → f x = true) → f <$> xs = replicate (length xs) true.
Proof.
  induction xs as [|x xs IH]; intros Hf; [done|]. simpl. f_equal.
  - apply Hf. by left.
  - apply IH. intros y Hy. apply Hf. by right.
Qed.

(** A frame with columns of one length, no missing value and no repeated
    row is left as it is by [clean_data]. *)
Lemma clean_data_fixed (d : DataFrame) :
  (∀ c s, (c, s) ∈ d → length (values s) = length (rows d)) →
  (∀ r, r ∈ rows d → NaN ∉ r) →
  NoDup (rows d) →
  clean_data d = d.
Proof.
  intros Hrect Hna Hnd.
  assert (dropna d = d) as Hdrop.
  { unfold dropna.
    rewrite (fmap_all_true (forallb notna) (rows d))
      by (intros r Hr; by apply forallb_notna, Hna).
    apply frame_mask_all_true. intros c s Hin. by rewrite (Hrect c s Hin). }
  unfold clean_data. rewrite Hdrop. unfold drop_duplicates, duplicated.
  rewrite duplicated_from_NoDup_false; [|done|by intros r _ ?%elem_of_nil].
  rewrite fmap_replicate_const. simpl.
  apply frame_mask_all_true. intros c s Hin. by rewrite (Hrect c s Hin).
Qed.

(** X3: cleaning is idempotent: a cleaned table is left as it is by a
    second cleaning. *)
Theorem clean_data_idempotent (df : DataFrame) :
  clean_data (clean_data df) = clean_data df.
Proof.
  apply clean_data_fixed.
  - apply clean_data_rectangular.
  - unfold clean_data, drop_duplicates, duplicated. rewrite rows_frame_mask.
    intros r Hr. apply duplicated_from_NoDup in Hr as [_ Hr].
    by apply elem_of_rows_dropna in Hr as [_ ?].
  - unfold clean_data, drop_duplicates, duplicated. rewrite rows_frame_mask.
    apply duplicated_from_NoDup.
Qed.

(** *** Every column of a frame has the frame's number of rows *)

Lemma elem_of_setitem (df : DataFrame) k v c s :
  (c, s) ∈ setitem df k v → ((c, s) ∈ df ∧ c ≠ k) ∨ (c = k ∧ s = v).
Proof.
  unfold setitem. case_decide.
  - intros ([c' s'] & Heq & Hin)%list_elem_of_fmap. simpl in Heq.
    case_decide; simplify_eq; [by right | by left].
  - intros [Hin|Hin%list_elem_of_singleton]%elem_of_app; [|simplify_eq; by right].
    left. split; [done|]. intros ->. apply H. apply elem_of_columns. by exists s.
Qed.

Lemma elem_of_setitem_other (df : DataFrame) k v c s :
  (c, s) ∈ df → c ≠ k → (c, s) ∈ setitem df k v.
Proof.
  intros Hin Hne. unfold setitem. case_decide.
  - apply list_elem_of_fmap. exists (c, s). simpl. by rewrite decide_False.
  - apply elem_of_app. by left.
Qed.

Lemma has_height_setitem n (df : DataFrame) k v :
  has_height n df → length (values v) = n → has_height n (setitem df k v).
Proof.
  intros Hdf Hv c s [[Hin _]|[_ ->]]%elem_of_setitem; [by eapply Hdf | done].
Qed.

Lemma has_height_drop_columns n cs (df df' : DataFrame) :
  has_height n df → drop_columns cs df = Some df' → has_height n df'.
Proof.
  intros Hdf Hdrop c s Hin. apply (elem_of_drop_columns _ _ _ _ _ Hdrop) in Hin as [Hin _].
  by eapply Hdf.
Qed.

Lemma length_values_apply (f : cell → Z) (s : Series) :
  length (values (apply f s)) = length (values s).
Proof. unfold apply. simpl. by rewrite !length_fmap. Qed.

Lemma length_values_map_dict (d : cell → option Z) (s : Series) :
  length (values (map_dict d s)) = length (values s).
Proof.
  unfold map_dict. destruct (mapM _ _) as [zs|] eqn:Hm; cbn [values].
  - apply length_mapM in Hm. by rewrite length_fmap, <- Hm, length_fmap.
  - by rewrite !length_fmap.
Qed.

Lemma has_height_binarize_column n (df df' : DataFrame) col :
  has_height n df → binarize_column df col = Some df' → has_height n df'.
Proof.
  intros Hdf. unfold binarize_column.
  destruct (getitem df col) as [s|] eqn:Hs; [|done]. simpl.
  case_decide; [|by intros [= <-]].
  destruct (unique s !! 0) as [k0|]; [|done]. simpl.
  destruct (unique s !! 1) as [k1|]; [|done]. simpl. intros [= <-].
  apply has_height_setitem; [done|]. rewrite length_values_map_dict.
  by eapply Hdf, getitem_Some_elem_of.
Qed.

Lemma has_height_for_each_binarize n cats (df df' : DataFrame) :
  has_height n df → for_each binarize_column cats df = Some df' → has_height n df'.
Proof.
  revert df; induction cats as [|col cats IH]; intros df Hdf; simpl; [by intros [= <-]|].
  destruct (binarize_column df col) as [df1|] eqn:Hb; [|done]. simpl.
  apply IH. by eapply has_height_binarize_column.
Qed.

Lemma has_height_add_target n (df df' : DataFrame) :
  has_height n df → add_target df = Some df' → has_height n df'.
Proof.
  intros Hdf. unfold add_target.
  destruct (getitem df "NObeyesdad") as [label|] eqn:Hl; [|done]. simpl.
  apply has_height_drop_columns, has_height_setitem; [done|].
  rewrite length_values_apply. by eapply Hdf, getitem_Some_elem_of.
Qed.

Lemma has_height_add_indicators n (df df' : DataFrame) :
  has_height n df → add_indicators df = Some df' → has_height n df'.
Proof.
  intros Hdf. unfold add_indicators.
  destruct (getitem df "MTRANS") as [mtrans|] eqn:Hm; [|done]. cbn [mbind option_bind].
  rewrite getitem_setitem_ne by done.
  destruct (getitem df "CAEC") as [caec|] eqn:Hc; [|done]. cbn [mbind option_bind].
  rewrite !getitem_setitem_ne by done.
  destruct (getitem df "CALC") as [calc|] eqn:Hl; [|done]. cbn [mbind option_bind].
  apply has_height_drop_columns.
  repeat apply has_height_setitem; try done;
    rewrite length_values_apply; by eapply Hdf, getitem_Some_elem_of.
Qed.

Lemma length_to_float (s : Series) xs :
  to_float s = Some xs → length xs = length (values s).
Proof.
  destruct s as [ys|ys|ys]; simpl; [done| |].
  - intros [= <-]. by rewrite !length_fmap.
  - intros Hm%length_mapM. by rewrite length_fmap.
Qed.

Lemma has_height_foldl_setitem n (l : list (string * list R)) (df : DataFrame) :
  has_height n df → Forall (λ cx, length cx.2 = n) l →
  has_height n (foldl (λ df cx, setitem df cx.1 (Float64Series (Some <$> cx.2))) df l).
Proof.
  intros Hdf Hl; revert df Hdf; induction Hl as [|[c xs] l Hx Hl IH]; intros df Hdf; [done|].
  simpl. apply IH, has_height_setitem; [done|]. simpl. by rewrite !length_fmap.
Qed.

Lemma length_standardize (xs : list R) : length (standardize xs) = length xs.
Proof. unfold standardize. by rewrite length_fmap. Qed.

(** The scaler accepted the columns: there are rows, and the frame keeps
    its height. *)
Lemma has_height_scale_numeric n nums (df df' : DataFrame) :
  has_height n df → scale_numeric nums df = Some df' → n ≠ 0 ∧ has_height n df'.
Proof.
  intros Hdf (X & HX & Hfit & ->)%scale_numeric_Some.
  assert (Forall (λ xs, length xs = n) X) as Hlen.
  { clear Hfit. induction HX as [|c xs nums X Hc HX IH]; constructor; [|done].
    destruct (getitem df c) as [s|] eqn:Hs; [|done]. simpl in Hc.
    rewrite (length_to_float _ _ Hc). by eapply Hdf, getitem_Some_elem_of. }
  split.
  - unfold fit_transform in Hfit. destruct X as [|xs X]; [done|].
    case_decide as Hz; [done|]. apply Forall_cons in Hlen as [<- _]. done.
  - apply has_height_foldl_setitem; [done|].
    clear Hfit. revert Hlen. generalize (Forall2_length _ _ _ HX). clear HX.
    revert X; induction nums as [|c nums IH]; intros [|xs X] Hl HX; simpl;
      try constructor; simpl in *.
    + rewrite length_standardize. by apply Forall_cons in HX as [? _].
    + apply IH; [lia|]. by apply Forall_cons in HX as [_ ?].
Qed.

Lemma has_height_transform n (df out : DataFrame) :
  has_height n df → transform df = Some out → n ≠ 0 ∧ has_height n out.
Proof.
  intros Hdf (df1 & features & df2 & df3 & H1 & Hf & H2 & H3 & Hout)%transform_Some.
  eapply has_height_scale_numeric; [|done].
  eapply has_height_add_indicators; [|done].
  eapply has_height_for_each_binarize; [|done].
  by eapply has_height_add_target.
Qed.

Lemma has_height_clean_data (df : DataFrame) :
  has_height (length (rows (clean_data df))) (clean_data df).
Proof. intros c s. apply clean_data_rectangular. Qed.

(** X4: the table that [main] saves has, in every column, one value for
    each row of the cleaned table, and the cleaned table is not empty. *)
Theorem transform_keeps_rows (raw out : DataFrame) :
  transform (clean_data raw) = Some out →
  rows (clean_data raw) ≠ []
  ∧ ∀ c s, (c, s) ∈ out → length (values s) = length (rows (clean_data raw)).
Proof.
  intros Hout.
  destruct (has_height_transform _ _ _ (has_height_clean_data raw) Hout) as [Hn Hh].
  split; [|done]. intros Hnil. by rewrite Hnil in Hn.
Qed.

Lemma transform_keeps_rows_witness :
  rows (clean_data sample_raw) ≠ []
  ∧ ∀ c s, (c, s) ∈ sample_out → length (values s) = length (rows (clean_data sample_raw)).
Proof. exact (transform_keeps_rows sample_raw sample_out sample_transform). Defined.

(** X5: a table whose every row holds a missing value is refused: cleaning
    leaves no row and the scaler raises. *)
Theorem transform_refuses_empty (raw : DataFrame) :
  (∀ r, r ∈ rows raw → NaN ∈ r) → transform (clean_data raw) = None.
Proof.
  intros Hall. destruct (transform (clean_data raw)) as [out|] eqn:Hout; [|done].
  destruct (has_height_transform _ _ _ (has_height_clean_data raw) Hout) as [Hn _].
  exfalso. apply Hn. apply length_zero_iff_nil, elem_of_nil_inv. intros r Hr.
  unfold clean_data, drop_duplicates, duplicated in Hr. rewrite rows_frame_mask in Hr.
  apply duplicated_from_NoDup in Hr as [_ Hr].
  apply elem_of_rows_dropna in Hr as [Hr Hna]. by apply Hna, Hall.
Qed.

Lemma transform_refuses_empty_witness :
  transform (clean_data
    [("Gender", ObjectSeries [Some "Female"; None]);
     ("Age", Float64Series [None; Some 23%R]);
     ("CAEC", ObjectSeries [Some "Sometimes"; Some "no"]);
     ("CALC", ObjectSeries [Some "no"; Some "no"]);
     ("MTRANS", ObjectSeries [Some "Walking"; Some "Walking"]);
     ("NObeyesdad", ObjectSeries [Some "Normal_Weight"; Some "Obesity_Type_I"])]) = None.
Proof.
  apply transform_refuses_empty. cbn. intros r Hr.
  apply elem_of_cons in Hr as [->|Hr]; [by right; left|].
  apply list_elem_of_singleton in Hr as ->. by left.
Defined.

(** *** When [transform] raises *)

Lemma transform_needs_columns (df out : DataFrame) c :
  transform df = Some out → c ∈ ["NObeyesdad"; "MTRANS"; "CAEC"; "CALC"] → c ∈ columns df.
Proof.
  intros (df1 & features & df2 & df3 & H1 & Hf & H2 & H3 & Hout)%transform_Some Hc.
  destruct (add_target_getitem _ _ H1) as (label & Hlabel & Hdf1).
  destruct (add_indicators_getitem _ _ H3) as (mtrans & caec & calc & Hm & Hca & Hcl & _).
  apply for_each_binarize_columns in H2.
  assert (∀ k, k ∈ ["MTRANS"; "CAEC"; "CALC"] → is_Some (getitem df2 k) → k ∈ columns df)
    as Hback.
  { intros k Hk Hsome. apply getitem_is_Some in Hsome. rewrite H2 in Hsome.
    apply getitem_is_Some in Hsome. rewrite Hdf1 in Hsome.
    apply getitem_is_Some. repeat case_decide; try done; subst k;
      repeat (apply elem_of_cons in Hk as [Hk|Hk]; [done|]); by apply elem_of_nil in Hk. }
  repeat (apply elem_of_cons in Hc as [->|Hc]);
    [by apply getitem_is_Some; rewrite Hlabel | | | | by apply elem_of_nil in Hc].
  - apply Hback; [repeat constructor | by rewrite Hm].
  - apply Hback; [repeat constructor | by rewrite Hca].
  - apply Hback; [repeat constructor | by rewrite Hcl].
Qed.

(** The columns the scaler is given: the numeric feature columns of the
    table [transform] starts from. *)
Lemma elem_of_features (df df1 features : DataFrame) c s :
  add_target df = Some df1 → drop_columns ["Obesity_Binary"] df1 = Some features →
  (c, s) ∈ features ↔ (c, s) ∈ df ∧ c ∉ ["NObeyesdad"; "Obesity_Binary"].
Proof.
  intros H1 Hf. rewrite (elem_of_drop_columns _ _ _ _ _ Hf).
  unfold add_target in H1. destruct (getitem df "NObeyesdad") as [label|]; [|done].
  simpl in H1. rewrite (elem_of_drop_columns _ _ _ _ _ H1).
  rewrite !not_elem_of_cons. split.
  - intros [[[[Hin _]|[-> _]]%elem_of_setitem Hn] [Hob _]]; [|done].
    split; [done|]. split; [tauto|]. split; [done | apply not_elem_of_nil].
  - intros [Hin (Hn & Hob & _)].
    split; [split|]; [|split; [done | apply not_elem_of_nil]..].
    by apply elem_of_setitem_other.
Qed.

Lemma transform_scales_some_column (df out : DataFrame) :
  transform df = Some out →
  ∃ c s, (c, s) ∈ df ∧ is_object s = false ∧ c ∉ ["NObeyesdad"; "Obesity_Binary"].
Proof.
  intros (df1 & features & df2 & df3 & H1 & Hf & H2 & H3 & Hout)%transform_Some.
  apply scale_numeric_Some in Hout as (X & HX & Hfit & _).
  destruct X as [|xs X]; [done|]. apply Forall2_cons_inv_r in HX as (c & nums & _ & _ & Hnums).
  assert (c ∈ num_columns_of features) as Hc by (rewrite Hnums; by left).
  apply elem_of_num_columns in Hc as (s & Hin & Hnum).
  apply (elem_of_features _ _ _ _ _ H1 Hf) in Hin as [Hin Hne]. by exists c, s.
Qed.

Lemma transform_sources_object (df out : DataFrame) c s :
  transform df = Some out → c ∈ ["MTRANS"; "CAEC"; "CALC"] → (c, s) ∈ df →
  is_object s = true.
Proof.
  intros (df1 & features & df2 & df3 & H1 & Hf & H2 & H3 & Hout)%transform_Some Hc Hin.
  destruct (is_object s) eqn:Hobj; [done|]. exfalso.
  assert (c ∈ num_columns_of features) as Hnum.
  { apply elem_of_num_columns. exists s. split; [|done].
    apply (elem_of_features _ _ _ _ _ H1 Hf). split; [done|].
    repeat (apply elem_of_cons in Hc as [->|Hc]; [by repeat (apply not_elem_of_cons; split; [done|]); apply not_elem_of_nil|]).
    by apply elem_of_nil in Hc. }
  destruct (add_indicators_getitem _ _ H3) as (mtrans & caec & calc & _ & _ & _ & Hdf3).
  apply scale_numeric_Some in Hout as (X & HX & _).
  apply list_elem_of_lookup in Hnum as [i Hi].
  destruct (Forall2_lookup_l _ _ _ _ _ HX Hi) as (xs & _ & Hxs).
  rewrite Hdf3 in Hxs. rewrite decide_True in Hxs; [done|].
  repeat (apply elem_of_cons in Hc as [->|Hc]; [by repeat constructor|]).
  by apply elem_of_nil in Hc.
Qed.

(** X6: each of the columns [NObeyesdad], [MTRANS], [CAEC] and [CALC] is
    required: without one of them [transform] raises ([KeyError]). *)
Theorem transform_missing_column (df : DataFrame) c :
  c ∈ ["NObeyesdad"; "MTRANS"; "CAEC"; "CALC"] → c ∉ columns df → transform df = None.
Proof.
  intros Hc Hn. destruct (transform df) as [out|] eqn:Hout; [|done].
  destruct Hn. by eapply transform_needs_columns.
Qed.

Lemma transform_missing_column_witness :
  transform [("Age", Int64Series [21; 23]%Z);
             ("CAEC", ObjectSeries [Some "Sometimes"; Some "no"]);
             ("CALC", ObjectSeries [Some "no"; Some "Sometimes"]);
             ("NObeyesdad", ObjectSeries [Some "Normal_Weight"; Some "Obesity_Type_I"])]
  = None.
Proof.
  apply (transform_missing_column _ "MTRANS"); [by repeat constructor|].
  cbn. rewrite !not_elem_of_cons. repeat split; try done. apply not_elem_of_nil.
Defined.

(** X7: a table whose feature columns are all of dtype [object] is
    refused: the scaler is given no column and raises. *)
Theorem transform_no_numeric_column (df : DataFrame) :
  (∀ c s, (c, s) ∈ df → c ∉ ["NObeyesdad"; "Obesity_Binary"] → is_object s = true) →
  transform df = None.
Proof.
  intros Hall. destruct (transform df) as [out|] eqn:Hout; [|done].
  destruct (transform_scales_some_column _ _ Hout) as (c & s & Hin & Hnum & Hc).
  rewrite (Hall c s Hin Hc) in Hnum. done.
Qed.

Lemma transform_no_numeric_column_witness :
  transform [("Gender", ObjectSeries [Some "Female"; Some "Male"]);
             ("CAEC", ObjectSeries [Some "Sometimes"; Some "no"]);
             ("CALC", ObjectSeries [Some "no"; Some "Sometimes"]);
             ("MTRANS", ObjectSeries [Some "Walking"; Some "Automobile"]);
             ("NObeyesdad", ObjectSeries [Some "Normal_Weight"; Some "Obesity_Type_I"])]
  = None.
Proof.
  apply transform_no_numeric_column. intros c s Hin _.
  repeat (apply elem_of_cons in Hin as [[= -> ->]|Hin]; [done|]).
  by apply elem_of_nil in Hin.
Defined.

(** X8: a numeric [MTRANS], [CAEC] or [CALC] column is listed among the
    columns to scale before line 49 drops it, so the scaling of line 52
    raises ([KeyError]). *)
Theorem transform_numeric_source_column (df : DataFrame) c s :
  c ∈ ["MTRANS"; "CAEC"; "CALC"] → (c, s) ∈ df → is_object s = false →
  transform df = None.
Proof.
  intros Hc Hin Hnum. destruct (transform df) as [out|] eqn:Hout; [|done].
  rewrite (transform_sources_object _ _ _ _ Hout Hc Hin) in Hnum. done.
Qed.

Lemma transform_numeric_source_column_witness :
  transform [("Age", Int64Series [21; 23]%Z);
             ("CAEC", ObjectSeries [Some "Sometimes"; Some "no"]);
             ("CALC", Int64Series [0; 2]%Z);
             ("MTRANS", ObjectSeries [Some "Walking"; Some "Automobile"]);
             ("NObeyesdad", ObjectSeries [Some "Normal_Weight"; Some "Obesity_Type_I"])]
  = None.
Proof.
  apply (transform_numeric_source_column _ "CALC" (Int64Series [0; 2]%Z));
    [by repeat constructor | by repeat constructor | done].
Defined.

(** *** The header of the saved table *)

Lemma columns_filter_drop (cs : list string) (df : DataFrame) :
  columns (filter (λ kv, kv.1 ∉ cs) df) = filter (λ c, c ∉ cs) (columns df).
Proof.
  induction df as [|[c s] df IH]; [done|]. unfold columns in *.
  rewrite fmap_cons, !filter_cons. simpl.
  case_decide; [rewrite fmap_cons; simpl; by f_equal | done].
Qed.

Lemma columns_drop_columns cs (df df' : DataFrame) :
  drop_columns cs df = Some df' → columns df' = filter (λ c, c ∉ cs) (columns df).
Proof. intros [-> _]%drop_columns_Some. apply columns_filter_drop. Qed.

Lemma columns_setitem_old (df : DataFrame) c s :
  c ∈ columns df → columns (setitem df c s) = columns df.
Proof. intros Hc. by rewrite columns_setitem, decide_True. Qed.

Lemma columns_setitem_new (df : DataFrame) c s :
  c ∉ columns df → columns (setitem df c s) = (columns df ++ [c])%list.
Proof. intros Hc. by rewrite columns_setitem, decide_False. Qed.

Lemma columns_foldl_setitem {A : Type} (g : A → Series) (l : list (string * A))
    (df : DataFrame) :
  Forall (λ cx, cx.1 ∈ columns df) l →
  columns (foldl (λ df cx, setitem df cx.1 (g cx.2)) df l) = columns df.
Proof.
  revert df; induction l as [|[c x] l IH]; intros df Hl; [done|].
  apply Forall_cons in Hl as [Hc Hl]. simpl in *.
  rewrite IH; rewrite columns_setitem_old by done; done.
Qed.

(** The scaler writes back into the columns it read: the header stays. *)
Lemma columns_scale_numeric nums (df df' : DataFrame) :
  scale_numeric nums df = Some df' → columns df' = columns df.
Proof.
  intros (X & HX & _ & ->)%scale_numeric_Some.
  apply (columns_foldl_setitem (λ xs, Float64Series (Some <$> xs))).
  apply Forall_forall. intros [c xs] Hin. simpl.
  apply elem_of_zip_l in Hin. apply list_elem_of_lookup in Hin as [i Hi].
  destruct (Forall2_lookup_l _ _ _ _ _ HX Hi) as (ys & _ & Hys).
  apply getitem_is_Some. destruct (getitem df c); [done | done].
Qed.

Lemma columns_add_target (df df' : DataFrame) :
  add_target df = Some df' →
  columns df' = filter (λ c, c ∉ ["NObeyesdad"])
                  (if decide ("Obesity_Binary" ∈ columns df) then columns df
                   else (columns df ++ ["Obesity_Binary"])%list).
Proof.
  unfold add_target. destruct (getitem df "NObeyesdad") as [label|]; [|done]. simpl.
  intros Hdrop. by rewrite (columns_drop_columns _ _ _ Hdrop), columns_setitem.
Qed.

Lemma columns_add_indicators (df df' : DataFrame) :
  add_indicators df = Some df' →
  Forall (λ c, c ∉ columns df) ["MTRANS_Binary"; "CAEC_binary"; "CALC_binary"] →
  columns df' = (filter (λ c, c ∉ ["MTRANS"; "CALC"; "CAEC"]) (columns df)
                 ++ ["MTRANS_Binary"; "CAEC_binary"; "CALC_binary"])%list.
Proof.
  unfold add_indicators. intros Hadd Hnew.
  destruct (getitem df "MTRANS") as [mtrans|]; [|done]. cbn [mbind option_bind] in Hadd.
  rewrite getitem_setitem_ne in Hadd by done.
  destruct (getitem df "CAEC") as [caec|]; [|done]. cbn [mbind option_bind] in Hadd.
  rewrite !getitem_setitem_ne in Hadd by done.
  destruct (getitem df "CALC") as [calc|]; [|done]. cbn [mbind option_bind] in Hadd.
  rewrite (columns_drop_columns _ _ _ Hadd).
  apply Forall_cons in Hnew as [Hm Hnew]. apply Forall_cons in Hnew as [Hca Hnew].
  apply Forall_cons in Hnew as [Hcl _].
  rewrite (columns_setitem_new _ "CALC_binary"), (columns_setitem_new _ "CAEC_binary"),
    (columns_setitem_new _ "MTRANS_Binary"); [| done | |].
  - rewrite !filter_app. rewrite <- !(assoc_L (++)). done.
  - rewrite columns_setitem_new by done.
    intros [?|?%list_elem_of_singleton]%elem_of_app; done.
  - rewrite (columns_setitem_new _ "CAEC_binary"), (columns_setitem_new _ "MTRANS_Binary");
      [| done |].
    + intros [[?|?%list_elem_of_singleton]%elem_of_app|?%list_elem_of_singleton]%elem_of_app;
        done.
    + rewrite columns_setitem_new by done.
      intros [?|?%list_elem_of_singleton]%elem_of_app; done.
Qed.

Lemma filter_filter_not_in (cs ds : list string) (l : list string) :
  filter (λ c, c ∉ ds) (filter (λ c, c ∉ cs) l) = filter (λ c, c ∉ (cs ++ ds)%list) l.
Proof.
  induction l as [|x l IH]; [done|]. rewrite !filter_cons.
  destruct (decide (x ∉ cs)) as [Hc|Hc].
  - rewrite filter_cons. destruct (decide (x ∉ ds)) as [Hd|Hd].
    + rewrite decide_True by (rewrite elem_of_app; tauto). by f_equal.
    + rewrite decide_False by (rewrite elem_of_app; tauto). done.
  - rewrite decide_False by (rewrite elem_of_app; tauto). done.
Qed.

(** X9: the header of the saved table.  When the input has none of the
    four new names, the saved table has the input's columns in their order,
    less [NObeyesdad], [MTRANS], [CALC] and [CAEC], and then
    [Obesity_Binary], [MTRANS_Binary], [CAEC_binary] and [CALC_binary]. *)
Theorem transform_columns (df out : DataFrame) :
  transform df = Some out →
  Forall (λ c, c ∉ columns df)
    ["Obesity_Binary"; "MTRANS_Binary"; "CAEC_binary"; "CALC_binary"] →
  columns out
  = (filter (λ c, c ∉ ["NObeyesdad"; "MTRANS"; "CALC"; "CAEC"]) (columns df)
     ++ ["Obesity_Binary"; "MTRANS_Binary"; "CAEC_binary"; "CALC_binary"])%list.
Proof.
  intros (df1 & features & df2 & df3 & H1 & Hf & H2 & H3 & Hout)%transform_Some Hnew.
  apply Forall_cons in Hnew as [Hob Hnew].
  rewrite (columns_scale_numeric _ _ _ Hout).
  assert (columns df2 = (filter (λ c, c ∉ ["NObeyesdad"]) (columns df)
                         ++ ["Obesity_Binary"])%list) as Hdf2.
  { rewrite (for_each_binarize_columns _ _ _ H2), (columns_add_target _ _ H1).
    rewrite decide_False by done. by rewrite filter_app. }
  rewrite (columns_add_indicators _ _ H3).
  - rewrite Hdf2, filter_app, filter_filter_not_in. rewrite <- (assoc_L (++)). done.
  - rewrite Hdf2. apply Forall_forall. intros c Hc.
    rewrite Forall_forall in Hnew. specialize (Hnew c Hc). simpl in Hnew.
    intros [[_ Hin]%list_elem_of_filter|Hin%list_elem_of_singleton]%elem_of_app; [done|].
    subst c. repeat (apply elem_of_cons in Hc as [Hc|Hc]; [done|]). by apply elem_of_nil in Hc.
Qed.

Lemma transform_columns_witness :
  columns sample_out
  = (filter (λ c, c ∉ ["NObeyesdad"; "MTRANS"; "CALC"; "CAEC"]) (columns (clean_data sample_raw))
     ++ ["Obesity_Binary"; "MTRANS_Binary"; "CAEC_binary"; "CALC_binary"])%list.
Proof.
  apply (transform_columns _ _ sample_transform). rewrite columns_clean_data. cbn.
  repeat apply Forall_cons_2; [..|apply Forall_nil_2];
    rewrite !not_elem_of_cons; repeat split; try done; apply not_elem_of_nil.
Defined.

(** *** When [transform] succeeds *)

Lemma add_target_total (df : DataFrame) :
  "NObeyesdad" ∈ columns df → is_Some (add_target df).
Proof.
  intros Hc. unfold add_target. apply getitem_is_Some in Hc as [label Hl]. rewrite Hl. simpl.
  unfold drop_columns. rewrite decide_True; [done|].
  apply Forall_singleton, getitem_is_Some. by rewrite getitem_setitem_ne, Hl.
Qed.

(** The body of the loop of lines 41-43 never raises on a column of the
    table: a column with two distinct values has a first and a second. *)
Lemma binarize_column_total (df : DataFrame) col :
  col ∈ columns df → is_Some (binarize_column df col).
Proof.
  intros Hc. unfold binarize_column. apply getitem_is_Some in Hc as [s ->]. simpl.
  case_decide as Hn; [|done].
  assert (2 ≤ length (unique s)) as Hl.
  { unfold nunique in Hn. rewrite <- Hn. apply length_filter. }
  destruct (lookup_lt_is_Some_2 (unique s) 0) as [k0 ->]; [lia|].
  destruct (lookup_lt_is_Some_2 (unique s) 1) as [k1 ->]; [lia|]. done.
Qed.

Lemma for_each_binarize_total cats (df : DataFrame) :
  Forall (λ c, c ∈ columns df) cats → is_Some (for_each binarize_column cats df).
Proof.
  revert df; induction cats as [|col cats IH]; intros df Hc; [done|].
  apply Forall_cons in Hc as [Hcol Hc]. simpl.
  destruct (binarize_column_total df col Hcol) as [df1 Hb]. rewrite Hb. simpl.
  apply IH. by rewrite (binarize_column_columns _ _ _ Hb).
Qed.

Lemma add_indicators_total (df : DataFrame) :
  Forall (λ c, c ∈ columns df) ["MTRANS"; "CAEC"; "CALC"] → is_Some (add_indicators df).
Proof.
  intros Hc. apply Forall_cons in Hc as [Hm Hc]. apply Forall_cons in Hc as [Hca Hc].
  apply Forall_cons in Hc as [Hcl _].
  apply getitem_is_Some in Hm as [mtrans Hm], Hca as [caec Hca], Hcl as [calc Hcl].
  unfold add_indicators. rewrite Hm. cbn [mbind option_bind].
  rewrite getitem_setitem_ne, Hca by done. cbn [mbind option_bind].
  rewrite !getitem_setitem_ne, Hcl by done. cbn [mbind option_bind].
  unfold drop_columns. rewrite decide_True; [done|].
  repeat apply Forall_cons_2; [..|apply Forall_nil_2];
    apply getitem_is_Some; rewrite !getitem_setitem_ne by done; by eexists.
Qed.

Lemma to_float_total (s : Series) :
  is_object s = false → NaN ∉ values s → is_Some (to_float s).
Proof.
  destruct s as [xs|xs|xs]; simpl; [done|by eexists|]. intros _ Hna.
  apply mapM_is_Some, Forall_forall. intros [x|] Hx; [by eexists|].
  destruct Hna. apply (list_elem_of_fmap_2 float_cell) in Hx. done.
Qed.

Lemma elem_of_frame_unique (df : DataFrame) c s s' :
  NoDup (columns df) → (c, s) ∈ df → (c, s') ∈ df → s = s'.
Proof.
  intros Hnd H1%(elem_of_getitem _ _ _ Hnd) H2%(elem_of_getitem _ _ _ Hnd). congruence.
Qed.

Lemma transform_total n (df : DataFrame) :
  NoDup (columns df) → has_height n df → n ≠ 0 →
  (∀ c s, (c, s) ∈ df → NaN ∉ values s) →
  "NObeyesdad" ∈ columns df →
  (∀ c, c ∈ ["MTRANS"; "CAEC"; "CALC"] → ∃ s, (c, s) ∈ df ∧ is_object s = true) →
  (∃ c s, (c, s) ∈ df ∧ is_object s = false ∧ c ∉ ["NObeyesdad"; "Obesity_Binary"]) →
  is_Some (transform df).
Proof.
  intros Hnd Hh Hn Hna Hlabel Hsrc (c0 & s0 & Hin0 & Hnum0 & Hc0).
  destruct (add_target_total df Hlabel) as [df1 H1].
  destruct (add_target_getitem _ _ H1) as (label & Hl & Hdf1).
  assert (is_Some (drop_columns ["Obesity_Binary"] df1)) as [features Hf].
  { unfold drop_columns. rewrite decide_True; [done|].
    apply Forall_singleton, getitem_is_Some. by rewrite Hdf1. }
  pose proof (λ c s, elem_of_features df df1 features c s H1 Hf) as Hfeat.
  assert (∀ c s, (c, s) ∈ features → c ∈ columns df1) as Hfc.
  { intros c s Hin. apply (elem_of_drop_columns _ _ _ _ _ Hf) in Hin as [Hin _].
    apply elem_of_columns. by exists s. }
  assert (is_Some (for_each binarize_column (cat_columns_of features) df1)) as [df2 H2].
  { apply for_each_binarize_total, Forall_forall.
    intros c (s & Hin & _)%elem_of_cat_columns. by eapply Hfc. }
  assert (∀ c, c ∈ ["MTRANS"; "CAEC"; "CALC"] → c ∉ ["NObeyesdad"; "Obesity_Binary"])
    as Hsrc_ne.
  { intros c Hc. repeat (apply elem_of_cons in Hc as [->|Hc];
      [by repeat (apply not_elem_of_cons; split; [done|]); apply not_elem_of_nil|]).
    by apply elem_of_nil in Hc. }
  assert (is_Some (add_indicators df2)) as [df3 H3].
  { apply add_indicators_total, Forall_forall. intros c Hc.
    rewrite (for_each_binarize_columns _ _ _ H2).
    destruct (Hsrc c Hc) as (s & Hin & _). apply (Hfc c s), Hfeat. auto. }
  destruct (add_indicators_getitem _ _ H3) as (mtrans & caec & calc & _ & _ & _ & Hdf3).
  assert (has_height n df3) as Hh3.
  { eapply has_height_add_indicators; [|done].
    eapply has_height_for_each_binarize; [|done]. by eapply has_height_add_target. }
  assert (transform df = scale_numeric (num_columns_of features) df3) as ->.
  { unfold transform, binarize_categoricals. rewrite H1. cbn [mbind option_bind].
    rewrite Hf. cbn [mbind option_bind]. rewrite H2. cbn [mbind option_bind].
    by rewrite H3. }
  assert (is_Some (mapM (λ c, getitem df3 c ≫= to_float) (num_columns_of features)))
    as [X HX].
  { apply mapM_is_Some, Forall_forall.
    intros c (s & Hin & Hnum)%elem_of_num_columns. simpl.
    pose proof Hin as [Hdf Hc]%Hfeat.
    rewrite Hdf3. rewrite decide_False.
    2:{ intros Hsrc_c.
        assert (c ∈ ["MTRANS"; "CAEC"; "CALC"]) as Hc'.
        { repeat (apply elem_of_cons in Hsrc_c as [->|Hsrc_c]; [by repeat constructor|]).
          by apply elem_of_nil in Hsrc_c. }
        destruct (Hsrc c Hc') as (s' & Hin' & Hobj).
        rewrite (elem_of_frame_unique _ _ _ _ Hnd Hdf Hin') in Hnum. congruence. }
    repeat (case_decide; [done|]).
    assert (c ∉ cat_columns_of features) as Hcat.
    { intros (s' & Hin' & Hobj)%elem_of_cat_columns. apply Hfeat in Hin' as [Hin' _].
      rewrite (elem_of_frame_unique _ _ _ _ Hnd Hdf Hin') in Hnum. congruence. }
    rewrite (for_each_binarize_other _ _ _ c Hcat H2).
    rewrite Hdf1. apply not_elem_of_cons in Hc as [Hc1 [Hc2 _]%not_elem_of_cons].
    rewrite !decide_False by done. rewrite (elem_of_getitem _ _ _ Hnd Hdf). simpl.
    apply to_float_total; [done | by eapply Hna]. }
  unfold scale_numeric. rewrite HX. cbn [mbind option_bind].
  assert (c0 ∈ num_columns_of features) as Hc0num.
  { apply elem_of_num_columns. exists s0. split; [|done]. by apply Hfeat. }
  apply mapM_Some in HX.
  destruct (num_columns_of features) as [|c nums]; [by apply elem_of_nil in Hc0num|].
  apply Forall2_cons_inv_l in HX as (xs & X' & Hxs & _ & ->).
  unfold fit_transform. rewrite decide_False; [done|].
  destruct (getitem df3 c) as [s|] eqn:Hs; [|done]. simpl in Hxs.
  rewrite (length_to_float _ _ Hxs), (Hh3 c s); [done|]. by apply getitem_Some_elem_of.
Qed.

Lemma getitem_clean_data (raw : DataFrame) c s :
  getitem raw c = Some s →
  ∃ s', getitem (clean_data raw) c = Some s' ∧ is_object s' = is_object s.
Proof.
  intros Hs. unfold clean_data, drop_duplicates, dropna.
  rewrite !getitem_frame_mask, Hs. simpl. eexists. split; [done|]. by destruct s.
Qed.



(** *** The indicator columns of lines 45-47 *)

Lemma cell_in_spec (labels : list string) (x : cell) :
  cell_in labels x = bool_decide (x ∈ Str <$> labels).
Proof.
  destruct x as [|s|z|r]; simpl.
  - symmetry. apply bool_decide_eq_false_2. by intros (l & ? & _)%list_elem_of_fmap.
  - apply bool_decide_ext. split.
    + intros Hs. by apply list_elem_of_fmap_2.
    + intros (l & [= ->] & Hl)%list_elem_of_fmap. done.
  - symmetry. apply bool_decide_eq_false_2. by intros (l & ? & _)%list_elem_of_fmap.
  - symmetry. apply bool_decide_eq_false_2. by intros (l & ? & _)%list_elem_of_fmap.
Qed.

(** A column that the input does not have, other than the target, is not
    among the columns handed to the scaler. *)
Lemma new_column_not_scaled (raw df2 : DataFrame) nums name :
  NoDup (columns raw) →
  binarize_categoricals (clean_data raw) = Some (df2, nums) →
  name ∉ columns raw → name ∉ nums.
Proof.
  intros Hnd Hb Hraw.
  destruct (binarize_categoricals_inv _ _ _ Hnd Hb)
    as (df1 & features & label & _ & Hg1 & _ & _ & Hf & -> & _ & _).
  intros (s' & [Hs' Hne]%Hf & _)%elem_of_num_columns.
  rewrite Hg1 in Hs'. apply Hraw. rewrite <- columns_clean_data.
  apply getitem_is_Some. exists s'. case_decide; [done|]. by rewrite decide_False in Hs'.
Qed.

(** A column the loop of lines 41-43 leaves as it was: one that does not
    hold exactly two distinct values. *)
Lemma loop_keeps_other_columns (raw df2 : DataFrame) nums col s :
  NoDup (columns raw) →
  binarize_categoricals (clean_data raw) = Some (df2, nums) →
  getitem (clean_data raw) col = Some s →
  col ∉ ["NObeyesdad"; "Obesity_Binary"] →
  nunique s ≠ 2 →
  getitem df2 col = Some s.
Proof.
  intros Hnd Hb Hs Hcol Hn.
  destruct (binarize_categoricals_inv _ _ _ Hnd Hb)
    as (df1 & features & label & _ & Hg1 & _ & _ & _ & _ & _ & Hg2).
  apply not_elem_of_cons in Hcol as [Hc1 Hcol]. apply not_elem_of_cons in Hcol as [Hc2 _].
  rewrite Hg2, Hg1.
  rewrite (decide_False (P:=col = "NObeyesdad")), (decide_False (P:=col = "Obesity_Binary")),
    Hs by done.
  case_decide; [|done]. simpl. unfold binarized. by rewrite decide_False.
Qed.

(** X11: when the source column of an indicator does not hold exactly two
    distinct values, the indicator in the saved table is 1 in the rows where
    the source holds one of the indicator's labels and 0 in the others. *)
Theorem indicators_of_unrecoded_sources (raw out : DataFrame) col name labels s :
  NoDup (columns raw) →
  transform (clean_data raw) = Some out →
  (col, name, labels) ∈
    [("MTRANS", "MTRANS_Binary", ["Public_Transportation"]);
     ("CAEC", "CAEC_binary", ["Frequently"; "Always"]);
     ("CALC", "CALC_binary", ["Frequently"; "Always"])] →
  getitem (clean_data raw) col = Some s →
  nunique s ≠ 2 →
  name ∉ columns raw →
  getitem out name
  = Some (Int64Series
            ((λ v, if bool_decide (v ∈ Str <$> labels) then 1%Z else 0%Z) <$> values s)).
Proof.
  intros Hnd (df2 & nums & df3 & Hb & H3 & Hout)%transform_stages Hcol Hs Hn Hraw.
  rewrite (scale_numeric_other nums df3 out name); [|by eapply new_column_not_scaled|done].
  destruct (add_indicators_getitem _ _ H3) as (mtrans & caec & calc & Hm & Hca & Hcl & Hg3).
  rewrite Hg3.
  assert (col ∉ ["NObeyesdad"; "Obesity_Binary"]) as Hcol'.
  { repeat (apply elem_of_cons in Hcol as [[= -> _ _]|Hcol];
      [by repeat (apply not_elem_of_cons; split; [done|]); apply not_elem_of_nil|]).
    by apply elem_of_nil in Hcol. }
  pose proof (loop_keeps_other_columns _ _ _ _ _ Hnd Hb Hs Hcol' Hn) as Hs2.
  repeat (apply elem_of_cons in Hcol as [[= -> -> ->]|Hcol]);
    [| | |by apply elem_of_nil in Hcol]; simpl.
  - rewrite Hm in Hs2. injection Hs2 as ->. unfold apply. do 2 f_equal.
    apply list_fmap_ext. intros _ v _. unfold mtrans_lambda. by rewrite cell_in_spec.
  - rewrite Hca in Hs2. injection Hs2 as ->. unfold apply. do 2 f_equal.
    apply list_fmap_ext. intros _ v _. unfold frequency_lambda. by rewrite cell_in_spec.
  - rewrite Hcl in Hs2. injection Hs2 as ->. unfold apply. do 2 f_equal.
    apply list_fmap_ext. intros _ v _. unfold frequency_lambda. by rewrite cell_in_spec.
Qed.

Lemma mtrans_lambda_Int (zs : list Z) :
  mtrans_lambda <$> (Int <$> zs) = replicate (length zs) 0%Z.
Proof. induction zs as [|z zs IH]; [done|]. simpl. by rewrite <- IH. Qed.

(** X12: when the [MTRANS] column of the cleaned table holds exactly two
    distinct values, the loop of lines 41-43 has recoded it before line 45
    reads it, and [MTRANS_Binary] is 0 in every row of the saved table,
    public transport or not. *)
Theorem two_valued_mtrans_all_zero (raw out : DataFrame) s :
  NoDup (columns raw) →
  transform (clean_data raw) = Some out →
  getitem (clean_data raw) "MTRANS" = Some s →
  nunique s = 2 →
  "MTRANS_Binary" ∉ columns raw →
  getitem out "MTRANS_Binary" = Some (Int64Series (replicate (length (values s)) 0%Z)).
Proof.
  intros Hnd Hout Hs Hn Hraw.
  assert (is_object s = true) as Hobj.
  { eapply (transform_sources_object _ _ "MTRANS"); [done | by repeat constructor|].
    by apply getitem_Some_elem_of. }
  destruct (transform_stages _ _ Hout) as (df2 & nums & df3 & Hb & H3 & Hsc).
  rewrite (scale_numeric_other nums df3 out "MTRANS_Binary");
    [|by eapply new_column_not_scaled|done].
  destruct (loop_recodes_two_valued _ _ _ _ _ Hnd Hb Hs) as (_ & a & b & _ & _ & _ & _ & Hg);
    [by repeat (apply not_elem_of_cons; split; [done|]); apply not_elem_of_nil|done|done|].
  destruct (add_indicators_getitem _ _ H3) as (mtrans & caec & calc & Hm & _ & _ & Hg3).
  rewrite Hg3. simpl. rewrite Hg in Hm. injection Hm as <-.
  unfold apply. simpl. by rewrite mtrans_lambda_Int, length_fmap.
Qed.

Lemma commuters_transform : transform (clean_data commuters_raw) = Some commuters_out.
Proof.
  unfold transform. do 2 eval_stage. unfold scale_numeric. simpl.
  rewrite mean_21_23, scale_21_23.
  replace ((21 - 22) / 1)%R with (-1)%R by lra.
  replace ((23 - 22) / 1)%R with 1%R by lra.
  reflexivity.
Qed.

Lemma commuters_NoDup : NoDup (columns commuters_raw).
Proof. cbn. repeat (constructor; [rewrite ?not_elem_of_cons; repeat split; try done; apply not_elem_of_nil|]). constructor. Qed.

Lemma indicators_of_unrecoded_sources_witness :
  getitem commuters_out "MTRANS_Binary"
  = Some (Int64Series
            ((λ v, if bool_decide (v ∈ Str <$> ["Public_Transportation"]) then 1%Z else 0%Z)
               <$> values (ObjectSeries [Some "Public_Transportation";
                                         Some "Public_Transportation"]))).
Proof.
  apply (indicators_of_unrecoded_sources commuters_raw commuters_out "MTRANS").
  - exact commuters_NoDup.
  - exact commuters_transform.
  - by left.
  - by vm_compute.
  - by vm_compute.
  - cbn. rewrite !not_elem_of_cons. repeat split; try done. apply not_elem_of_nil.
Defined.

Lemma two_valued_mtrans_all_zero_witness :
  getitem sample_out "MTRANS_Binary"
  = Some (Int64Series
            (replicate (length (values (ObjectSeries [Some "Walking";
                                                      Some "Public_Transportation"]))) 0%Z)).
Proof.
  apply (two_valued_mtrans_all_zero sample_raw).
  - exact sample_NoDup.
  - exact sample_transform.
  - by vm_compute.
  - by vm_compute.
  - cbn. rewrite !not_elem_of_cons. repeat split; try done. apply not_elem_of_nil.
Defined.

(** *** Calling [main] again *)

Lemma transform_drops_label (df out : DataFrame) :
  transform df = Some out → "NObeyesdad" ∉ columns out.
Proof.
  intros (df1 & features & df2 & df3 & H1 & Hf & H2 & H3 & Hout)%transform_Some.
  rewrite (columns_scale_numeric _ _ _ Hout). intros Hin%getitem_is_Some.
  destruct (add_target_getitem _ _ H1) as (label & _ & Hdf1).
  destruct (add_indicators_getitem _ _ H3) as (mtrans & caec & calc & _ & _ & _ & Hdf3).
  rewrite Hdf3 in Hin. rewrite decide_False in Hin.
  2:{ rewrite !not_elem_of_cons. repeat split; try done. apply not_elem_of_nil. }
  rewrite !decide_False in Hin by done.
  apply getitem_is_Some in Hin. rewrite (for_each_binarize_columns _ _ _ H2) in Hin.
  apply getitem_is_Some in Hin. rewrite Hdf1 in Hin. by destruct Hin.
Qed.

(** X13: calling [main] from an importing module a second time with the
    same paths.  With the output written to another path than the input,
    the second call succeeds and leaves the files as the first left them;
    with the output written over the input, the second call raises, the
    saved table having no [NObeyesdad] column. *)
Theorem main_called_again depth depth' name__ input_path output_path
    (fs fs' : gmap string DataFrame) :
  name__ ≠ "__main__" →
  main (S depth) name__ input_path output_path fs = Some fs' →
  main (S depth') name__ input_path output_path fs'
  = if decide (input_path = output_path) then None else Some fs'.
Proof.
  intros Hname. rewrite !main_imported by done. unfold load_data, save_data.
  destruct (fs !! input_path) as [df|] eqn:Hdf; [|done]. cbn [mbind option_bind].
  destruct (transform (clean_data df)) as [out|] eqn:Hout; [|done]. cbn [mbind option_bind].
  intros [= <-]. case_decide as Hp.
  - subst. rewrite lookup_insert_eq. cbn [mbind option_bind].
    destruct (transform (clean_data out)) as [out'|] eqn:Hout'; [|done].
    apply (transform_needs_columns _ _ "NObeyesdad") in Hout'; [|by left].
    rewrite columns_clean_data in Hout'. by apply transform_drops_label in Hout.
  - rewrite lookup_insert_ne, Hdf by done. cbn [mbind option_bind].
    rewrite Hout. cbn [mbind option_bind]. by rewrite insert_insert_eq.
Qed.

Lemma main_called_again_witness :
  main 1 "pipe" "./data/ObesityDataSet.csv" "./data/clean_data.csv"
    (<[ "./data/clean_data.csv" := sample_out ]>
       {[ "./data/ObesityDataSet.csv" := sample_raw ]})
  = if decide ("./data/ObesityDataSet.csv" = "./data/clean_data.csv") then None
    else Some (<[ "./data/clean_data.csv" := sample_out ]>
                 {[ "./data/ObesityDataSet.csv" := sample_raw ]}).
Proof.
  apply (main_called_again 0 0 "pipe" _ _ {[ "./data/ObesityDataSet.csv" := sample_raw ]});
    [done|].
  rewrite main_imported by done. unfold load_data. rewrite lookup_singleton_eq.
  cbn [mbind option_bind]. by rewrite sample_transform.
Defined.

(** ** More about [experiments.py]: small functions *)

(** *** File names *)

Lemma file_char_spec (c : ascii) :
  let c' := if decide (lower_char c = " "%char) then "_"%char else lower_char c in
  c' ≠ " "%char
  ∧ ¬ (65 ≤ nat_of_ascii c' ∧ nat_of_ascii c' ≤ 90)
  ∧ (if decide (lower_char c' = " "%char) then "_"%char else lower_char c') = c'.
Proof.
  destruct c as [[] [] [] [] [] [] [] []]; vm_compute;
    (split; [discriminate | split; [lia | reflexivity]]).
Qed.

Lemma file_stem_cons (c : ascii) (s : string) :
  file_stem (String c s)
  = String (if decide (lower_char c = " "%char) then "_"%char else lower_char c)
      (file_stem s).
Proof. reflexivity. Qed.

(** X20: the stem of a file name, made from a model name, has as many
    characters as the name, none of them a space or an upper-case ASCII
    letter; a stem is its own stem. *)
Theorem file_stem_spec (model_name : string) :
  String.length (file_stem model_name) = String.length model_name
  ∧ (∀ n c, String.get n (file_stem model_name) = Some c →
       c ≠ " "%char ∧ ¬ (65 ≤ nat_of_ascii c ∧ nat_of_ascii c ≤ 90))
  ∧ file_stem (file_stem model_name) = file_stem model_name.
Proof.
  induction model_name as [|c s (IHlen & IHget & IHidem)]; [by split; [|split]|].
  rewrite !file_stem_cons. destruct (file_char_spec c) as (Hsp & Hup & Hid).
  cbv zeta in Hsp, Hup, Hid. split; [|split].
  - cbn [String.length]. by rewrite IHlen.
  - intros [|n] c'; cbn [String.get].
    + by intros [= <-].
    + apply IHget.
  - by rewrite Hid, IHidem.
Qed.

(** *** Rounding to four decimals *)

Lemma round_half_even_bounds (x : Q) :
  (inject_Z (round_half_even x) - (1 # 2) <= x)%Q
  ∧ (x <= inject_Z (round_half_even x) + (1 # 2))%Q.
Proof.
  unfold round_half_even.
  pose proof (Qfloor_le x) as Hlo. pose proof (Qlt_floor x) as Hhi.
  rewrite inject_Z_plus in Hhi. change (inject_Z 1) with 1%Q in Hhi.
  destruct (Qcompare (x - inject_Z (Qfloor x)) (1 # 2)) eqn:Hc.
  - apply Qeq_alt in Hc. destruct (Z.even (Qfloor x)).
    + split; Lqa.lra.
    + rewrite inject_Z_plus. change (inject_Z 1) with 1%Q. split; Lqa.lra.
  - apply Qlt_alt in Hc. split; Lqa.lra.
  - apply Qgt_alt in Hc. rewrite inject_Z_plus. change (inject_Z 1) with 1%Q.
    split; Lqa.lra.
Qed.

Lemma round4_round4 (x : Q) : round4 (round4 x) = round4 x.
Proof.
  unfold round4 at 1 3. f_equal. unfold round_half_even.
  set (z := round_half_even (x * 10000)).
  assert (Qfloor ((z # 10000) * 10000) = z) as Hf.
  { unfold Qfloor, Qmult. cbn [Qnum Qden]. rewrite Pos.mul_1_r.
    change (Z.pos 10000) with 10000%Z. apply Z.div_mul. done. }
  unfold round4. fold z. rewrite Hf.
  assert (Qcompare ((z # 10000) * 10000 - inject_Z z) (1 # 2) = Lt) as ->; [|done].
  apply (proj1 (Qlt_alt _ _)). rewrite (Qmake_Qdiv z 10000).
  setoid_replace (inject_Z z / inject_Z (Z.pos 10000) * 10000 - inject_Z z)%Q with 0%Q
    using relation Qeq; [done|]. field.
Qed.

(** X21: rounding to four decimals moves a value by at most 0.00005,
    yields a multiple of 0.0001, and leaves a rounded value as it is. *)
Theorem round4_spec (x : Q) :
  (x - (1 # 20000) <= round4 x)%Q ∧ (round4 x <= x + (1 # 20000))%Q
  ∧ (∃ z : Z, round4 x = (z # 10000)%Q)
  ∧ round4 (round4 x) = round4 x.
Proof.
  destruct (round_half_even_bounds (x * 10000)) as [Hlo Hhi].
  split; [|split; [|split]].
  - unfold round4. rewrite (Qmake_Qdiv _ 10000).
    apply Qle_shift_div_l; [done|]. change (inject_Z (Z.pos 10000)) with 10000%Q.
    Lqa.lra.
  - unfold round4. rewrite (Qmake_Qdiv _ 10000).
    apply Qle_shift_div_r; [done|]. change (inject_Z (Z.pos 10000)) with 10000%Q.
    Lqa.lra.
  - by eexists.
  - apply round4_round4.
Qed.

(** ** More about [experiments.py]: one tracked run *)

Section tracked_run.
Context `{Libraries}.

Lemma fresh_run_id (w : World) : mlruns w !! fresh (dom (mlruns w)) = None.
Proof. apply not_elem_of_dom, is_fresh. Qed.

(** X14: a model that cannot be fitted leaves a run marked [FAILED] with
    nothing logged in it, writes no file, and its exception goes on to the
    caller. *)
Theorem log_model_with_metrics_failure model name e (w : World) :
  fit_predict model = inl e →
  ∃ id run w',
    log_model_with_metrics model name w = (inl e, w')
    ∧ mlruns w !! id = None
    ∧ mlruns w' = <[id := run]> (mlruns w)
    ∧ status run = "FAILED" ∧ end_time run = Some (clock w)
    ∧ params run = ∅ ∧ metrics run = ∅ ∧ artifacts run = [] ∧ logged_models run = []
    ∧ files w' = files w ∧ active_run w' = None ∧ frames w' = frames w.
Proof.
  intros Hfit. eexists (fresh (dom (mlruns w))), _, _.
  split.
  { unfold log_model_with_metrics. rewrite bind_run. cbn [get_world].
    unfold with_start_run. rewrite bind_run. rewrite Hfit. cbn. reflexivity. }
  split; [apply fresh_run_id|]. cbn.
  rewrite alter_insert_eq. repeat split; reflexivity.
Qed.

Lemma log_params_run (l : list (string * string)) fs m0 id run fr t :
  ∃ run1,
    for_each_M (λ _ kv, mlflow_log_param kv.1 kv.2) l tt
      {| files := fs; mlruns := <[id := run]> m0; active_run := Some id;
         frames := fr; clock := t |}
    = (inr tt, {| files := fs; mlruns := <[id := run1]> m0; active_run := Some id;
                  frames := fr; clock := t |})
    ∧ run_name run1 = run_name run
    ∧ params run1 = foldl (λ p kv, <[kv.1 := kv.2]> p) (params run) l
    ∧ metrics run1 = metrics run ∧ artifacts run1 = artifacts run
    ∧ logged_models run1 = logged_models run ∧ start_time run1 = start_time run
    ∧ end_time run1 = end_time run ∧ status run1 = status run.
Proof.
  revert run; induction l as [|[k v] l IH]; intros run.
  - exists run. by repeat split.
  - cbn [for_each_M]. rewrite bind_run.
    unfold mlflow_log_param at 1, update_active_run. rewrite bind_run. cbn.
    unfold set_mlruns. cbn. rewrite alter_insert_eq.
    destruct (IH {| run_name := run_name run; params := <[k := v]> (params run);
                    metrics := metrics run; artifacts := artifacts run;
                    logged_models := logged_models run; start_time := start_time run;
                    end_time := end_time run; status := status run |})
      as (run1 & Hrun & Hfields).
    exists run1. split; [exact Hrun | exact Hfields].
Qed.

Ltac run_reduce :=
  cbv beta iota;
  cbn [mret M_ret run_name params metrics artifacts logged_models start_time end_time status].

Lemma with_start_run_inr {A : Type} name (body : nat → M A) (w w1 : World) a :
  body (fresh (dom (mlruns w)))
    {| files := files w;
       mlruns := <[fresh (dom (mlruns w)) :=
                     {| run_name := name; params := ∅; metrics := ∅; artifacts := [];
                        logged_models := []; start_time := clock w; end_time := None;
                        status := "RUNNING" |}]> (mlruns w);
       active_run := Some (fresh (dom (mlruns w)));
       frames := frames w; clock := clock w |}
  = (inr a, w1) →
  with_start_run name body w
  = (inr a, {| files := files w1;
               mlruns := alter (end_run "FINISHED" (clock w1)) (fresh (dom (mlruns w)))
                           (mlruns w1);
               active_run := None; frames := frames w1; clock := clock w1 |}).
Proof.
  intros Hbody. unfold with_start_run, set_active_run, set_mlruns.
  cbn [files mlruns active_run frames clock]. by rewrite Hbody.
Qed.

Lemma update_active_run_run f fs m0 id run fr t :
  update_active_run f
    {| files := fs; mlruns := <[id := run]> m0; active_run := Some id;
       frames := fr; clock := t |}
  = (inr tt, {| files := fs; mlruns := <[id := f run]> m0; active_run := Some id;
                frames := fr; clock := t |}).
Proof.
  unfold update_active_run. rewrite bind_run. cbn. unfold modify_world, set_mlruns. cbn.
  by rewrite alter_insert_eq.
Qed.

Lemma write_file_run path text fs m id fr t :
  write_file path text
    {| files := fs; mlruns := m; active_run := id; frames := fr; clock := t |}
  = (inr tt, {| files := <[path := text]> fs; mlruns := m; active_run := id;
                frames := fr; clock := t |}).
Proof. reflexivity. Qed.

Lemma log_model_with_metrics_success_aux model name y_pred (w : World) :
  fit_predict model = inr y_pred →
  let cm := "confusion_matrix_" ++ file_stem name ++ ".png" in
  let report := "classification_report_" ++ file_stem name ++ ".txt" in
  ∃ id run w',
    log_model_with_metrics model name w
    = (inr {| run_id := id; r_confusion_matrix_path := cm;
              r_classification_report_path := report |}, w')
    ∧ mlruns w !! id = None
    ∧ mlruns w' = <[id := run]> (mlruns w)
    ∧ status run = "FINISHED"
    ∧ start_time run = clock w ∧ end_time run = Some (clock w)
    ∧ metrics run
      = <["f1_score" := weighted_f1_score y_test y_pred]>
          (<["recall" := recall_score y_test y_pred]>
             (<["precision" := precision_score y_test y_pred]>
                (<["accuracy" := accuracy_score y_test y_pred]> ∅)))
    ∧ params run
      = foldl (λ p kv, <[kv.1 := kv.2]> p) (<["model" := name]> ∅) (get_params model)
    ∧ artifacts run = [os_path_join output_dir cm; os_path_join output_dir report]
    ∧ logged_models run = [model]
    ∧ files w'
      = <[os_path_join output_dir report := classification_report y_test y_pred]>
          (<[os_path_join output_dir cm
               := heatmap_png y_test y_pred ("Confusion Matrix - " ++ name)]> (files w))
    ∧ active_run w' = None ∧ frames w' = frames w ∧ clock w' = clock w.
Proof.
  intros Hfit cm report.
  destruct (log_params_run (get_params model) (files w) (mlruns w) (fresh (dom (mlruns w)))
              {| run_name := name ++ "_" ++ strftime "%Y%m%d_%H%M%S" (clock w);
                 params := <["model" := name]> ∅; metrics := ∅; artifacts := [];
                 logged_models := []; start_time := clock w; end_time := None;
                 status := "RUNNING" |} (frames w) (clock w))
    as (run1 & Hloop & Hname & Hparams & Hmetrics & Harts & Hmodels
        & Hstart & Hend & Hstatus).
  cbn [run_name params metrics artifacts logged_models start_time end_time status] in *.
  unfold log_model_with_metrics. rewrite bind_run. cbn [get_world].
  eexists (fresh (dom (mlruns w))), _, _. split.
  { erewrite with_start_run_inr; [reflexivity|].
    rewrite bind_run, Hfit. cbn [lift_result mret M_ret].
    set (loop := for_each_M _ (get_params model) tt).
    unfold mlflow_log_param, mlflow_log_metric, mlflow_log_artifact,
      mlflow_sklearn_log_model, save_confusion_matrix.
    rewrite bind_run, update_active_run_run. run_reduce.
    rewrite bind_run. subst loop. rewrite Hloop. run_reduce.
    do 4 (rewrite bind_run, update_active_run_run; run_reduce).
    rewrite bind_run, bind_run, write_file_run. run_reduce.
    rewrite bind_run, update_active_run_run. run_reduce.
    rewrite bind_run, write_file_run. run_reduce.
    do 2 (rewrite bind_run, update_active_run_run; run_reduce).
    reflexivity. }
  split; [apply fresh_run_id|].
  cbn [files mlruns active_run frames clock]. rewrite alter_insert_eq.
  split; [reflexivity|].
  cbn [end_run run_name params metrics artifacts logged_models start_time end_time status].
  rewrite Hmetrics, Harts, Hmodels, Hstart, Hparams. subst cm report.
  do 10 (split; [reflexivity|]). reflexivity.
Qed.

(** X15: a model that is fitted gets a run of its own, marked [FINISHED]
    when the function returns, that holds the four scores of the
    predictions under the keys [accuracy], [precision], [recall] and
    [f1_score], the two artifacts and the model; the confusion matrix and
    the classification report are written under [mlflow_output], named
    after the model. *)
Theorem log_model_with_metrics_success model name y_pred (w : World) :
  fit_predict model = inr y_pred →
  let cm := "confusion_matrix_" ++ file_stem name ++ ".png" in
  let report := "classification_report_" ++ file_stem name ++ ".txt" in
  ∃ id run w',
    log_model_with_metrics model name w
    = (inr {| run_id := id; r_confusion_matrix_path := cm;
              r_classification_report_path := report |}, w')
    ∧ mlruns w !! id = None
    ∧ mlruns w' = <[id := run]> (mlruns w)
    ∧ status run = "FINISHED"
    ∧ start_time run = clock w ∧ end_time run = Some (clock w)
    ∧ metrics run
      = <["f1_score" := weighted_f1_score y_test y_pred]>
          (<["recall" := recall_score y_test y_pred]>
             (<["precision" := precision_score y_test y_pred]>
                (<["accuracy" := accuracy_score y_test y_pred]> ∅)))
    ∧ params run
      = foldl (λ p kv, <[kv.1 := kv.2]> p) (<["model" := name]> ∅) (get_params model)
    ∧ artifacts run = [os_path_join output_dir cm; os_path_join output_dir report]
    ∧ logged_models run = [model]
    ∧ files w'
      = <[os_path_join output_dir report := classification_report y_test y_pred]>
          (<[os_path_join output_dir cm
               := heatmap_png y_test y_pred ("Confusion Matrix - " ++ name)]> (files w))
    ∧ active_run w' = None ∧ frames w' = frames w ∧ clock w' = clock w.
Proof. apply log_model_with_metrics_success_aux. Qed.

Lemma get_run_metric_run id key run v (w : World) :
  mlruns w !! id = Some run → metrics run !! key = Some v →
  get_run_metric id key w = (inr v, w).
Proof.
  intros Hrun Hv. unfold get_run_metric, mlflow_get_run. rewrite !bind_run. cbn [get_world].
  rewrite Hrun. cbn [mret M_ret]. by rewrite Hv.
Qed.

(** One pass through the loop of [run_experiments] when the model is
    fitted and [task.connect] accepts the dict: the scores read back from
    the run are the ones logged. *)
Lemma run_one_experiment_success results model name y_pred (w : World) :
  fit_predict model = inr y_pred →
  (∀ c, task_connect c = None) →
  ∃ id run w',
    run_one_experiment results (model, name) w
    = (inr (results ++
            [{| RunID := id; Model := name;
                accuracy := accuracy_score y_test y_pred;
                precision := precision_score y_test y_pred;
                recall := recall_score y_test y_pred;
                f1_score := weighted_f1_score y_test y_pred;
                confusion_matrix_path := "confusion_matrix_" ++ file_stem name ++ ".png";
                classification_report_path :=
                  "classification_report_" ++ file_stem name ++ ".txt" |}])%list, w')
    ∧ mlruns w !! id = None
    ∧ mlruns w' = <[id := run]> (mlruns w)
    ∧ status run = "FINISHED" ∧ end_time run = Some (clock w)
    ∧ files w'
      = <[os_path_join output_dir ("classification_report_" ++ file_stem name ++ ".txt")
            := classification_report y_test y_pred]>
          (<[os_path_join output_dir ("confusion_matrix_" ++ file_stem name ++ ".png")
               := heatmap_png y_test y_pred ("Confusion Matrix - " ++ name)]> (files w))
    ∧ active_run w' = None ∧ frames w' = frames w ∧ clock w' = clock w.
Proof.
  intros Hfit Hconnect.
  destruct (log_model_with_metrics_success_aux model name y_pred w Hfit)
    as (id & run & w' & Hlog & Hfresh & Hruns & Hstatus & _ & Hend & Hmetrics & _ & _ & _
        & Hfiles & Hactive & Hframes & Hclock).
  exists id, run, w'. split; [|by do 7 (split; [assumption|])].
  assert (mlruns w' !! id = Some run) as Hrun by (by rewrite Hruns, lookup_insert_eq).
  assert (metrics run !! "accuracy" = Some (accuracy_score y_test y_pred)
          ∧ metrics run !! "precision" = Some (precision_score y_test y_pred)
          ∧ metrics run !! "recall" = Some (recall_score y_test y_pred)
          ∧ metrics run !! "f1_score" = Some (weighted_f1_score y_test y_pred))
    as (Ha & Hp & Hr & Hf).
  { rewrite Hmetrics. split; [|split; [|split]].
    - rewrite !lookup_insert_ne by discriminate. apply lookup_insert_eq.
    - rewrite !lookup_insert_ne by discriminate. apply lookup_insert_eq.
    - rewrite !lookup_insert_ne by discriminate. apply lookup_insert_eq.
    - apply lookup_insert_eq. }
  unfold run_one_experiment. cbn [fst snd]. rewrite bind_run, Hlog. cbv beta iota.
  cbn [run_id r_confusion_matrix_path r_classification_report_path].
  do 2 (rewrite bind_run, (get_run_metric_run id "accuracy" run _ w' Hrun Ha); cbv beta iota;
        rewrite bind_run, (get_run_metric_run id "precision" run _ w' Hrun Hp); cbv beta iota;
        rewrite bind_run, (get_run_metric_run id "recall" run _ w' Hrun Hr); cbv beta iota;
        rewrite bind_run, (get_run_metric_run id "f1_score" run _ w' Hrun Hf); cbv beta iota).
  by rewrite Hconnect.
Qed.

(** The loop of [run_experiments] over any list of experiments, when every
    model is fitted and [task.connect] accepts every dict. *)
Lemma run_all_success exps results (w : World) :
  (∀ exp, exp ∈ exps → ∃ y_pred, fit_predict exp.1 = inr y_pred) →
  (∀ c, task_connect c = None) →
  ∃ records w',
    for_each_M run_one_experiment exps results w = (inr (results ++ records)%list, w')
    ∧ frames w' = frames w ∧ clock w' = clock w
    ∧ mlruns w ⊆ mlruns w'
    ∧ (∀ p, is_Some (files w !! p) → is_Some (files w' !! p))
    ∧ (∀ p, (∀ f, p ≠ os_path_join output_dir f) → files w' !! p = files w !! p)
    ∧ NoDup (RunID <$> records)
    ∧ Forall2 (λ exp r,
        Model r = exp.2
        ∧ confusion_matrix_path r = "confusion_matrix_" ++ file_stem exp.2 ++ ".png"
        ∧ classification_report_path r
          = "classification_report_" ++ file_stem exp.2 ++ ".txt"
        ∧ mlruns w !! RunID r = None
        ∧ is_Some (files w' !! os_path_join output_dir (classification_report_path r))
        ∧ ∃ y_pred run,
            fit_predict exp.1 = inr y_pred
            ∧ accuracy r = accuracy_score y_test y_pred
            ∧ precision r = precision_score y_test y_pred
            ∧ recall r = recall_score y_test y_pred
            ∧ f1_score r = weighted_f1_score y_test y_pred
            ∧ mlruns w' !! RunID r = Some run
            ∧ status run = "FINISHED" ∧ end_time run = Some (clock w)) exps records.
Proof.
  intros Hfit Hconnect. revert results w.
  induction exps as [|[model name] exps IH]; intros results w.
  { exists [], w. rewrite app_nil_r. cbn [for_each_M mret M_ret].
    do 6 (split; [done|]). split; [constructor | constructor]. }
  destruct (Hfit (model, name)) as [y_pred Hy]; [by left|]. cbn [fst] in Hy.
  destruct (run_one_experiment_success results model name y_pred w Hy Hconnect)
    as (id & run & w1 & Hrun1 & Hfresh & Hruns & Hstatus & Hend & Hfiles & _ & Hframes
        & Hclock).
  assert (∀ exp, exp ∈ exps → ∃ y_pred, fit_predict exp.1 = inr y_pred) as Hfit'.
  { intros exp Hin. apply Hfit. by right. }
  destruct (IH Hfit'
              (results ++
               [{| RunID := id; Model := name;
                   accuracy := accuracy_score y_test y_pred;
                   precision := precision_score y_test y_pred;
                   recall := recall_score y_test y_pred;
                   f1_score := weighted_f1_score y_test y_pred;
                   confusion_matrix_path := "confusion_matrix_" ++ file_stem name ++ ".png";
                   classification_report_path :=
                     "classification_report_" ++ file_stem name ++ ".txt" |}])%list w1)
    as (records & w' & Hrest & Hframes' & Hclock' & Hsub & Hmono & Hout & Hnd & Hall).
  eexists (_ :: records), w'. split.
  { cbn [for_each_M]. rewrite bind_run, Hrun1. cbv beta iota. rewrite Hrest.
    by rewrite <- (assoc_L (++)). }
  assert (mlruns w ⊆ mlruns w1) as Hsub1.
  { rewrite Hruns. by apply insert_subseteq. }
  assert (mlruns w1 !! id = Some run) as Hid by (by rewrite Hruns, lookup_insert_eq).
  split; [congruence|]. split; [congruence|]. split; [by etrans|].
  assert (∀ p, is_Some (files w !! p) → is_Some (files w1 !! p)) as Hmono1.
  { intros p Hp. rewrite Hfiles. rewrite !lookup_insert_is_Some'. auto. }
  split; [by auto|]. split.
  { intros p Hp. rewrite (Hout p Hp), Hfiles. by rewrite !lookup_insert_ne. }
  split.
  { cbn [fmap list_fmap RunID]. apply NoDup_cons. split; [|done].
    intros (r & Hr & Hin)%list_elem_of_fmap.
    apply list_elem_of_lookup in Hin as [i Hi].
    destruct (Forall2_lookup_r _ _ _ _ _ Hall Hi) as (exp & _ & _ & _ & _ & Hnone & _).
    rewrite <- Hr in Hnone. by rewrite Hid in Hnone. }
  constructor.
  - cbn [fst snd Model confusion_matrix_path classification_report_path RunID accuracy
         precision recall f1_score].
    do 4 (split; [done|]). split.
    { apply Hmono. rewrite Hfiles. rewrite lookup_insert_eq. by eexists. }
    exists y_pred, run. do 5 (split; [done|]).
    split; [by eapply lookup_weaken|done].
  - eapply Forall2_impl; [exact Hall|]. cbv beta.
    intros exp r (Hm & Hcm & Hcr & Hnone & Hfile & y & run' & Hy' & Ha & Hp & Hr & Hf
                  & Hrun' & Hst & Hen).
    do 3 (split; [done|]). split; [by eapply lookup_weaken_None|]. split; [done|].
    exists y, run'. do 7 (split; [done|]). congruence.
Qed.

(** X16: when each of the five models is fitted and [task.connect]
    accepts what it is given, [run_experiments] returns a new frame of five
    records, in the order of the experiments: each holds the name of its
    experiment, the scores of that model's predictions as read back from
    its run, and the names of its two files; its run is new, distinct from
    the others' and [FINISHED], and its classification report is on disk. *)
Theorem run_experiments_succeeds (w : World) :
  (∀ exp, exp ∈ experiments → ∃ y_pred, fit_predict exp.1 = inr y_pred) →
  (∀ c, task_connect c = None) →
  ∃ ref records w',
    run_experiments w = (inr ref, w')
    ∧ frames w !! ref = None
    ∧ frames w' = <[ref := records]> (frames w)
    ∧ NoDup (RunID <$> records)
    ∧ Forall2 (λ exp r,
        Model r = exp.2
        ∧ confusion_matrix_path r = "confusion_matrix_" ++ file_stem exp.2 ++ ".png"
        ∧ classification_report_path r
          = "classification_report_" ++ file_stem exp.2 ++ ".txt"
        ∧ mlruns w !! RunID r = None
        ∧ is_Some (files w' !! os_path_join output_dir (classification_report_path r))
        ∧ ∃ y_pred run,
            fit_predict exp.1 = inr y_pred
            ∧ accuracy r = accuracy_score y_test y_pred
            ∧ precision r = precision_score y_test y_pred
            ∧ recall r = recall_score y_test y_pred
            ∧ f1_score r = weighted_f1_score y_test y_pred
            ∧ mlruns w' !! RunID r = Some run
            ∧ status run = "FINISHED" ∧ end_time run = Some (clock w)) experiments records.
Proof.
  intros Hfit Hconnect.
  destruct (run_all_success experiments [] w Hfit Hconnect)
    as (records & w1 & Hloop & Hframes & Hclock & Hsub & Hmono & _ & Hnd & Hall).
  exists (fresh (dom (frames w1))), records,
    (set_frames <[fresh (dom (frames w1)) := records]> w1).
  split.
  { unfold run_experiments. rewrite bind_run, Hloop. reflexivity. }
  split; [rewrite <- Hframes; apply not_elem_of_dom, is_fresh|].
  split; [cbn [set_frames frames]; by rewrite Hframes|].
  split; [done|]. exact Hall.
Qed.

(** ** More about [experiments.py]: the report *)

Lemma read_frame_run ref (w : World) records :
  frames w !! ref = Some records → read_frame ref w = (inr records, w).
Proof. intros Hr. unfold read_frame. rewrite bind_run. cbn [get_world]. by rewrite Hr. Qed.

Lemma read_file_run path (w : World) text :
  files w !! path = Some text → read_file path w = (inr text, w).
Proof. intros Hp. unfold read_file. rewrite bind_run. cbn [get_world]. by rewrite Hp. Qed.

Lemma read_file_inr path (w w' : World) text :
  read_file path w = (inr text, w') → w' = w ∧ files w !! path = Some text.
Proof.
  unfold read_file. rewrite bind_run. cbn [get_world].
  destruct (files w !! path); [|done]. by intros [= <- <-].
Qed.

Lemma loc_idxmax_run ref m (w : World) records :
  frames w !! ref = Some records → records ≠ [] →
  ∃ i row, loc_idxmax ref m w = (inr row, w)
    ∧ idxmax (get_column m <$> records) = Some i ∧ records !! i = Some row.
Proof.
  intros Hr Hne. unfold loc_idxmax. rewrite bind_run, (read_frame_run _ _ _ Hr).
  destruct records as [|r rs]; [done|].
  destruct (idxmax (get_column m <$> r :: rs)) as [i|] eqn:Hi; [|done].
  destruct (idxmax_spec _ _ Hi) as (v & Hv & _).
  rewrite list_lookup_fmap in Hv.
  destruct ((r :: rs) !! i) as [row|] eqn:Hrow; [|done].
  by exists i, row.
Qed.

(** The loop of lines 257-261 reads one file per row and leaves the world
    as it is. *)
Lemma read_reports_run (rows : list RunRecord) (acc : list (string * string)) (w : World) :
  (∀ r, r ∈ rows →
     is_Some (files w !! os_path_join output_dir (classification_report_path r))) →
  ∃ reports,
    for_each_M (λ model_reports row,
        text ← read_file (os_path_join output_dir (classification_report_path row));
        mret (dict_set (Model row) text model_reports)) rows acc w
    = (inr reports, w).
Proof.
  revert acc; induction rows as [|r rows IH]; intros acc Hall; [by exists acc|].
  destruct (Hall r) as [text Ht]; [by left|].
  destruct (IH (dict_set (Model r) text acc)) as [reports Hrest].
  { intros r' Hr'. apply Hall. by right. }
  exists reports. cbn [for_each_M]. rewrite !bind_run, (read_file_run _ _ _ Ht).
  cbn [mret M_ret]. exact Hrest.
Qed.

Lemma read_reports_inr (rows : list RunRecord) (acc reports : list (string * string))
    (w w' : World) :
  for_each_M (λ model_reports row,
      text ← read_file (os_path_join output_dir (classification_report_path row));
      mret (dict_set (Model row) text model_reports)) rows acc w
  = (inr reports, w') →
  w' = w ∧ ∀ r, r ∈ rows →
    is_Some (files w !! os_path_join output_dir (classification_report_path r)).
Proof.
  revert acc; induction rows as [|r rows IH]; intros acc.
  { intros [= <- <-]. split; [done|]. by intros r ?%elem_of_nil. }
  cbn [for_each_M]. intros (acc1 & w1 & Hbody & Hrest)%bind_inr.
  apply bind_inr in Hbody as (text & w2 & [-> Ht]%read_file_inr & [= <- <-]).
  apply IH in Hrest as [-> Hall]. split; [done|].
  intros r' [->|Hr']%elem_of_cons; [by eexists | by apply Hall].
Qed.

(** [get_mlflow_model_performance] on runs that are known and ended. *)
Lemma performance_loop_run (ids : list nat) (acc : list (nat * Performance)) (w : World) :
  (∀ id, id ∈ ids → ∃ run t, mlruns w !! id = Some run ∧ end_time run = Some t) →
  ∃ perf,
    for_each_M (λ performance_data id,
      run ← mlflow_get_run id;
      let model_name := default "Unknown Model" (params run !! "model") in
      match end_time run with
      | None => raise (TypeError "unsupported operand type(s) for -: NoneType and int")
      | Some finished =>
          mret (dict_set id
                  {| model_name := model_name;
                     perf_metrics := metrics run;
                     parameters := params run;
                     perf_start_time := start_time run;
                     perf_end_time := finished;
                     duration := (inject_Z (finished - start_time run) / 1000)%Q;
                     perf_status := status run |}
                  performance_data)
      end) ids acc w
    = (inr perf, w).
Proof.
  revert acc; induction ids as [|id ids IH]; intros acc Hall; [by exists acc|].
  destruct (Hall id) as (run & t & Hrun & Hend); [by left|].
  destruct (IH (dict_set id
                  {| model_name := default "Unknown Model" (params run !! "model");
                     perf_metrics := metrics run;
                     parameters := params run;
                     perf_start_time := start_time run;
                     perf_end_time := t;
                     duration := (inject_Z (t - start_time run) / 1000)%Q;
                     perf_status := status run |} acc)) as [perf Hrest].
  { intros id' Hid'. apply Hall. by right. }
  exists perf. cbn [for_each_M]. rewrite !bind_run. unfold mlflow_get_run at 1.
  rewrite bind_run. cbn [get_world]. rewrite Hrun. cbn [mret M_ret]. rewrite Hend.
  cbn [mret M_ret]. exact Hrest.
Qed.

Lemma performance_loop_inr (ids : list nat) (acc perf : list (nat * Performance))
    (w w' : World) :
  for_each_M (λ performance_data id,
    run ← mlflow_get_run id;
    let model_name := default "Unknown Model" (params run !! "model") in
    match end_time run with
    | None => raise (TypeError "unsupported operand type(s) for -: NoneType and int")
    | Some finished =>
        mret (dict_set id
                {| model_name := model_name;
                   perf_metrics := metrics run;
                   parameters := params run;
                   perf_start_time := start_time run;
                   perf_end_time := finished;
                   duration := (inject_Z (finished - start_time run) / 1000)%Q;
                   perf_status := status run |}
                performance_data)
    end) ids acc w
  = (inr perf, w') →
  w' = w ∧ ∀ id, id ∈ ids → ∃ run t, mlruns w !! id = Some run ∧ end_time run = Some t.
Proof.
  revert acc; induction ids as [|id ids IH]; intros acc.
  { intros [= <- <-]. split; [done|]. by intros id ?%elem_of_nil. }
  cbn [for_each_M]. intros (acc1 & w1 & Hbody & Hrest)%bind_inr.
  apply bind_inr in Hbody as (run & w2 & Hget & Hbody).
  unfold mlflow_get_run in Hget. rewrite bind_run in Hget. cbn [get_world] in Hget.
  destruct (mlruns w !! id) as [run'|] eqn:Hrun; [|done]. injection Hget as <- <-.
  destruct (end_time run') as [t|] eqn:Hend; [|done]. injection Hbody as <- <-.
  apply IH in Hrest as [-> Hall]. split; [done|].
  intros id' [->|Hid']%elem_of_cons; [by exists run', t | by apply Hall].
Qed.

(** The loop of lines 196-198 on a frame that exists: the frame holds the
    rounded records afterwards and nothing else has changed. *)
Lemma round_columns_world ref (w : World) records :
  frames w !! ref = Some records →
  for_each_M (λ _ metric, round_column ref metric)
    [col_accuracy; col_precision; col_recall; col_f1_score] tt w
  = (inr tt, {| files := files w; mlruns := mlruns w; active_run := active_run w;
                frames := <[ref := round_metrics <$> records]> (frames w);
                clock := clock w |}).
Proof.
  intros Hr. cbn [for_each_M]. rewrite bind_run.
  rewrite (round_column_run _ _ _ _ Hr). rewrite bind_run.
  erewrite round_column_run by (simpl; apply lookup_insert_eq). rewrite bind_run.
  erewrite round_column_run by (simpl; apply lookup_insert_eq). rewrite bind_run.
  erewrite round_column_run by (simpl; apply lookup_insert_eq).
  cbn [mret M_ret]. unfold set_frames. cbn [files mlruns active_run frames clock].
  rewrite !insert_insert_eq. do 3 f_equal.
  rewrite <- !list_fmap_compose. apply list_fmap_ext.
  intros i r _. apply round_all_columns.
Qed.

Lemma generate_report_run ref (w : World) records template :
  frames w !! ref = Some records →
  records ≠ [] →
  (∀ r, r ∈ records →
     is_Some (files w !! os_path_join output_dir (classification_report_path r))) →
  files w !! "report_template.html" = Some template →
  (∀ r, r ∈ records → ∃ run t, mlruns w !! RunID r = Some run ∧ end_time run = Some t) →
  ∃ ctx durations w',
    generate_report ref w = (inr tt, w')
    ∧ files w'
      = <["mlflow_output/index.html" := render template ctx]>
          (<["mlflow_output/model_durations.png" := durations]>
             (<["mlflow_output/performance_comparison.png"
                  := metrics_bar_png (display_row <$> (round_metrics <$> records))]>
                (files w)))
    ∧ frames w' = <[ref := round_metrics <$> records]> (frames w)
    ∧ mlruns w' = mlruns w ∧ active_run w' = active_run w
    ∧ ctx_full_runs ctx = round_metrics <$> records
    ∧ ctx_runs ctx = display_row <$> (round_metrics <$> records).
Proof.
  intros Hr Hne Hreports Htemplate Hruns.
  set (rounded := round_metrics <$> records).
  set (w2 := {| files := <[os_path_join output_dir "performance_comparison.png"
                             := metrics_bar_png (display_row <$> rounded)]> (files w);
                mlruns := mlruns w; active_run := active_run w;
                frames := <[ref := rounded]> (frames w); clock := clock w |}).
  assert (frames w2 !! ref = Some rounded) as Hr2 by apply lookup_insert_eq.
  assert (rounded ≠ []) as Hne2 by (subst rounded; by destruct records).
  destruct (loc_idxmax_run ref col_f1_score w2 rounded Hr2 Hne2) as (i & by_f1 & Hf1 & _).
  destruct (loc_idxmax_run ref col_accuracy w2 rounded Hr2 Hne2) as (j & by_acc & Hacc & _).
  destruct (read_reports_run rounded [] w2) as [reports Hrep].
  { intros r' (r & -> & Hin)%list_elem_of_fmap. cbn [classification_report_path round_metrics].
    cbn [w2 files]. apply lookup_insert_is_Some'. right. by apply Hreports. }
  destruct (performance_loop_run (RunID <$> rounded) [] w2) as [perf Hperf].
  { intros id (r' & -> & (r & -> & Hin)%list_elem_of_fmap)%list_elem_of_fmap.
    cbn [RunID round_metrics w2 mlruns]. by apply Hruns. }
  assert (files w2 !! "report_template.html" = Some template) as Htemplate2.
  { cbn [w2 files]. by rewrite lookup_insert_ne. }
  eexists _, _, _. split.
  { subst w2 rounded. unfold generate_report, template_context.
    rewrite !bind_run, (round_columns_world _ _ _ Hr). cbv beta iota zeta.
    rewrite bind_run, (read_frame_run ref _ (round_metrics <$> records))
      by apply lookup_insert_eq.
    cbv beta iota zeta.
    rewrite bind_run, write_file_run. cbv beta iota zeta.
    rewrite bind_run, Hf1. cbv beta iota zeta.
    rewrite bind_run. cbn [get_world]. cbv beta iota zeta.
    rewrite bind_run, Hacc. cbv beta iota zeta.
    rewrite bind_run, (read_frame_run ref _ _ Hr2). cbv beta iota zeta.
    rewrite bind_run, Hrep. cbv beta iota zeta.
    rewrite bind_run, (read_file_run _ _ _ Htemplate2). cbv beta iota zeta.
    unfold enhance_report_generation, get_mlflow_model_performance,
      generate_mlflow_performance_plot.
    rewrite !bind_run, (read_frame_run ref _ _ Hr2). cbv beta iota zeta.
    cbv beta iota zeta in Hperf. rewrite bind_run, Hperf. cbv beta iota zeta.
    rewrite !bind_run, write_file_run. cbv beta iota zeta.
    cbn [mret M_ret clock].
    rewrite bind_run, (read_frame_run ref _ (round_metrics <$> records))
      by apply lookup_insert_eq.
    cbv beta iota zeta. cbn [mret M_ret]. cbv beta iota zeta. cbn [fst snd].
    rewrite write_file_run. reflexivity. }
  cbn [files frames mlruns active_run ctx_full_runs ctx_runs]. done.
Qed.


(** X18: what a successful [generate_report] needed: a frame with at
    least one record, the template on disk, the classification report of
    every record on disk (or at the path of the comparison chart, which is
    written first), and for every record a run of the tracking store that
    has ended. *)
Theorem generate_report_requires ref (w w' : World) :
  generate_report ref w = (inr tt, w') →
  ∃ records,
    frames w !! ref = Some records
    ∧ records ≠ []
    ∧ is_Some (files w !! "report_template.html")
    ∧ (∀ r, r ∈ records →
         is_Some (files w !! os_path_join output_dir (classification_report_path r))
         ∨ os_path_join output_dir (classification_report_path r)
           = "mlflow_output/performance_comparison.png")
    ∧ (∀ r, r ∈ records →
         ∃ run t, mlruns w !! RunID r = Some run ∧ end_time run = Some t).
Proof.
  unfold generate_report. intros ([template ctx] & w0 & Hrun & _)%bind_inr.
  unfold template_context in Hrun.
  destruct (frames w !! ref) as [records|] eqn:Hr.
  2:{ cbn [for_each_M] in Hrun. rewrite bind_run in Hrun.
      unfold round_column, read_frame in Hrun. rewrite !bind_run in Hrun.
      simpl in Hrun. by rewrite Hr in Hrun. }
  exists records. split; [done|].
  rewrite bind_run, (round_columns_world _ _ _ Hr) in Hrun.
  apply bind_inr in Hrun as (rounded & ? & [-> Hrounded]%read_frame_inr & Hrun).
  cbn [frames] in Hrounded. rewrite lookup_insert_eq in Hrounded. injection Hrounded as <-.
  apply bind_inr in Hrun as ([] & w2 & Hw & Hrun).
  rewrite write_file_run in Hw. injection Hw as <-.
  apply bind_inr in Hrun as (by_f1 & ? & [-> (rs & i & Hrs & Hi & _)]%loc_idxmax_inr & Hrun).
  cbn [frames] in Hrs. rewrite lookup_insert_eq in Hrs. injection Hrs as <-.
  apply bind_inr in Hrun as (? & ? & [= <- <-] & Hrun).
  apply bind_inr in Hrun as (by_acc & ? & [-> _]%loc_idxmax_inr & Hrun).
  apply bind_inr in Hrun as (rows & ? & [-> Hrows]%read_frame_inr & Hrun).
  cbn [frames] in Hrows. rewrite lookup_insert_eq in Hrows. injection Hrows as <-.
  apply bind_inr in Hrun as (reports & ? & [-> Hfiles]%read_reports_inr & Hrun).
  apply bind_inr in Hrun as (tpl & ? & [-> Htpl]%read_file_inr & Hrun).
  apply bind_inr in Hrun as (mlflow_context & w5 & Hctx & _).
  unfold enhance_report_generation in Hctx.
  apply bind_inr in Hctx as (rows & ? & [-> Hrows]%read_frame_inr & Hctx).
  cbn [frames] in Hrows. rewrite lookup_insert_eq in Hrows. injection Hrows as <-.
  apply bind_inr in Hctx as (perf & ? & [-> Hperf]%performance_loop_inr & _).
  cbn [files mlruns] in *.
  split; [|split; [|split]].
  - intros ->. done.
  - rewrite lookup_insert_ne in Htpl by done. by eexists.
  - intros r Hin.
    destruct (Hfiles (round_metrics r)) as [text Ht]; [by apply list_elem_of_fmap_2|].
    cbn [classification_report_path round_metrics] in Ht.
    apply lookup_insert_Some in Ht as [[Heq _]|[_ Ht]]; [by right | left; by eexists].
  - intros r Hin. apply (Hperf (RunID r)).
    apply list_elem_of_fmap. exists (round_metrics r). split; [done|].
    by apply list_elem_of_fmap_2.
Qed.

(** ** More about [experiments.py]: the [__main__] block *)

(** The [__main__] block succeeds when each of the five models is fitted,
    [task.connect] accepts what it is given and the template is on disk:
    it writes [index.html], rendered from that template with the five
    records, rounded, in the order of the experiments. *)
Lemma experiments_py_main_run (w : World) template :
  (∀ exp, exp ∈ experiments → ∃ y_pred, fit_predict exp.1 = inr y_pred) →
  (∀ c, task_connect c = None) →
  files w !! "report_template.html" = Some template →
  ∃ ctx w',
    experiments_py_main w = (inr tt, w')
    ∧ files w' !! "mlflow_output/index.html" = Some (render template ctx)
    ∧ Model <$> ctx_full_runs ctx
      = ["Logistic Regression (C=1.0)"; "Logistic Regression (C=0.5)";
         "SVM (Linear Kernel)"; "Decision Tree (max_depth=10)";
         "Decision Tree (max_depth=15)"]
    ∧ files w' !! "report_template.html" = Some template.
Proof.
  intros Hfit Hconnect Htemplate.
  destruct (run_all_success experiments [] w Hfit Hconnect)
    as (records & w1 & Hloop & Hframes & Hclock & Hsub & Hmono & Hout & Hnd & Hall).
  set (ref := fresh (dom (frames w1))).
  set (w2 := set_frames <[ref := records]> w1).
  assert (run_experiments w = (inr ref, w2)) as Hrun.
  { unfold run_experiments. rewrite bind_run, Hloop. reflexivity. }
  assert (∀ r, r ∈ records → ∃ exp, exp ∈ experiments ∧ Model r = exp.2
            ∧ is_Some (files w2 !! os_path_join output_dir (classification_report_path r))
            ∧ ∃ run, mlruns w2 !! RunID r = Some run ∧ end_time run = Some (clock w))
    as Hrec.
  { intros r [i Hi]%list_elem_of_lookup.
    destruct (Forall2_lookup_r _ _ _ _ _ Hall Hi)
      as (exp & Hexp & Hm & _ & _ & _ & Hfile & y & run & _ & _ & _ & _ & _ & Hr & _ & He).
    exists exp. split; [by eapply list_elem_of_lookup_2|]. split; [done|].
    split; [done|]. by exists run. }
  destruct (generate_report_run ref w2 records template)
    as (ctx & durations & w' & Hreport & Hfiles & _ & _ & _ & Hfull & _).
  - apply lookup_insert_eq.
  - apply Forall2_length in Hall. by destruct records.
  - intros r Hr. by destruct (Hrec r Hr) as (_ & _ & _ & ? & _).
  - cbn [w2 set_frames files]. rewrite Hout; [done|]. intros f. done.
  - intros r Hr. destruct (Hrec r Hr) as (_ & _ & _ & _ & run & ? & ?). by exists run, (clock w).
  - exists ctx, w'. split.
    { unfold experiments_py_main. by rewrite bind_run, Hrun. }
    rewrite Hfiles. split; [apply lookup_insert_eq|]. split.
    + rewrite Hfull, <- list_fmap_compose.
      transitivity (snd <$> experiments); [|reflexivity].
      clear -Hall. induction Hall as [|exp r exps rs (Hm & _) _ IH]; [done|].
      cbn [fmap list_fmap]. cbn [fmap list_fmap] in IH. by rewrite <- IH, <- Hm.
    + rewrite !lookup_insert_ne by done. cbn [w2 set_frames files].
      rewrite Hout; [done|]. intros f. done.
Qed.

(** *** The caller's frame after [generate_report] *)

Lemma round_metrics_idemp (r : RunRecord) : round_metrics (round_metrics r) = round_metrics r.
Proof. unfold round_metrics. cbn [accuracy precision recall f1_score]. by rewrite !round4_round4. Qed.

Lemma generate_report_frames ref (w : World) records :
  frames w !! ref = Some records →
  frames (generate_report ref w).2 = <[ref := round_metrics <$> records]> (frames w).
Proof.
  intros Hr. unfold generate_report, template_context.
  rewrite !bind_run, (round_columns_world _ _ _ Hr). cbv beta iota.
  match goal with
  | |- context [match ?m ?w1 with _ => _ end] =>
      assert (keeps_frames m) as Hkeep; [|destruct (m w1) as [[e|tc] w2] eqn:Hrest]
  end.
  { pose proof keeps_frames_enhance_report_generation. keeps_frames_steps. }
  - apply keeps_frames_run in Hrest; [|done]. cbn [snd]. by rewrite Hrest.
  - apply keeps_frames_run in Hrest; [|done].
    etrans; [apply keeps_frames_write_file|]. by rewrite Hrest.
Qed.

(** X22: whether [generate_report] returns or raises, the caller's frame
    holds the rounded records afterwards; a second call leaves the frame as
    the first left it. *)
Theorem generate_report_frame_whatever_happens ref (w : World) records :
  frames w !! ref = Some records →
  frames (generate_report ref w).2 = <[ref := round_metrics <$> records]> (frames w)
  ∧ frames (generate_report ref (generate_report ref w).2).2
    = frames (generate_report ref w).2.
Proof.
  intros Hr. pose proof (generate_report_frames ref w records Hr) as H1.
  split; [done|].
  rewrite (generate_report_frames ref _ (round_metrics <$> records))
    by (rewrite H1; apply lookup_insert_eq).
  rewrite H1, insert_insert_eq. f_equal.
  rewrite <- list_fmap_compose. apply list_fmap_ext. intros i r _. apply round_metrics_idemp.
Qed.

End tracked_run.

(** *** The performance data of the runs *)

Lemma dict_set_keys {K V : Type} `{EqDecision K} (k : K) (v : V) (d : list (K * V)) :
  (dict_set k v d).*1 = if decide (k ∈ d.*1) then d.*1 else (d.*1 ++ [k])%list.
Proof.
  unfold dict_set. case_decide as Hk; [|by rewrite fmap_app].
  clear Hk. induction d as [|[k' v'] d IH]; [done|]. rewrite !fmap_cons. cbn [fst].
  case_decide; cbn [fst]; by rewrite IH; subst.
Qed.

Lemma elem_of_dict_set {K V : Type} `{EqDecision K} (k : K) (v : V) (d : list (K * V)) kv :
  kv ∈ dict_set k v d → kv = (k, v) ∨ kv ∈ d.
Proof.
  unfold dict_set. case_decide.
  - intros (kv' & -> & Hin)%list_elem_of_fmap. case_decide; [by left | by right].
  - intros [?|Hkv%list_elem_of_singleton]%elem_of_app; [by right | by left].
Qed.

Lemma NoDup_dict_set {K V : Type} `{EqDecision K} (k : K) (v : V) (d : list (K * V)) :
  NoDup d.*1 → NoDup (dict_set k v d).*1.
Proof.
  intros Hnd. rewrite dict_set_keys. case_decide; [done|].
  apply NoDup_app. split; [done|]. split; [|apply NoDup_singleton].
  intros k' Hk' Heq%list_elem_of_singleton. by subst.
Qed.

Lemma mlflow_get_run_Some id (w : World) run :
  mlruns w !! id = Some run → mlflow_get_run id w = (inr run, w).
Proof. intros Hr. unfold mlflow_get_run. rewrite bind_run. cbn [get_world]. by rewrite Hr. Qed.

Lemma mlflow_get_run_None id (w : World) :
  mlruns w !! id = None →
  mlflow_get_run id w = (inl (MlflowException "run not found"), w).
Proof. intros Hr. unfold mlflow_get_run. rewrite bind_run. cbn [get_world]. by rewrite Hr. Qed.

Section performance_facts.
Variable w : World.

(** What an entry of the performance data says of its run. *)
Let entry_of (id : nat) (p : Performance) : Prop :=
  ∃ run t,
    mlruns w !! id = Some run ∧ end_time run = Some t
    ∧ model_name p = default "Unknown Model" (params run !! "model")
    ∧ perf_metrics p = metrics run ∧ parameters p = params run
    ∧ perf_start_time p = start_time run ∧ perf_end_time p = t
    ∧ duration p = (inject_Z (t - start_time run) / 1000)%Q
    ∧ perf_status p = status run.

Lemma performance_loop_entries (ids : list nat) (acc perf : list (nat * Performance))
    (w' : World) :
  for_each_M (λ performance_data id,
    run ← mlflow_get_run id;
    let model_name := default "Unknown Model" (params run !! "model") in
    match end_time run with
    | None => raise (TypeError "unsupported operand type(s) for -: NoneType and int")
    | Some finished =>
        mret (dict_set id
                {| model_name := model_name;
                   perf_metrics := metrics run;
                   parameters := params run;
                   perf_start_time := start_time run;
                   perf_end_time := finished;
                   duration := (inject_Z (finished - start_time run) / 1000)%Q;
                   perf_status := status run |}
                performance_data)
    end) ids acc w
  = (inr perf, w') →
  NoDup acc.*1 → (∀ id p, (id, p) ∈ acc → entry_of id p) →
  NoDup perf.*1
  ∧ (∀ id, id ∈ perf.*1 ↔ id ∈ acc.*1 ∨ id ∈ ids)
  ∧ (∀ id p, (id, p) ∈ perf → entry_of id p).
Proof.
  revert acc; induction ids as [|id ids IH]; intros acc.
  { intros [= <- <-] Hnd Hacc. split; [done|]. split; [|done].
    intros id. rewrite elem_of_nil. tauto. }
  cbn [for_each_M]. intros (acc1 & w1 & Hbody & Hrest)%bind_inr Hnd Hacc.
  apply bind_inr in Hbody as (run & w2 & Hget & Hbody).
  unfold mlflow_get_run in Hget. rewrite bind_run in Hget. cbn [get_world] in Hget.
  destruct (mlruns w !! id) as [run'|] eqn:Hrun; [|done]. injection Hget as <- <-.
  cbv zeta in Hbody. destruct (end_time run') as [t|] eqn:Hend; [|done].
  injection Hbody as <- <-.
  apply IH in Hrest as (Hnd' & Hkeys & Hall).
  - split; [done|]. split; [|done]. intros id'. rewrite Hkeys, dict_set_keys, elem_of_cons.
    case_decide as Hin.
    + split; [tauto|]. intros [?|[->|?]]; tauto.
    + rewrite elem_of_app, list_elem_of_singleton. tauto.
  - by apply NoDup_dict_set.
  - intros id' p [[= -> ->]|Hin]%elem_of_dict_set; [|by apply Hacc].
    exists run', t. by repeat split.
Qed.

(** X23: the performance data that [get_mlflow_model_performance]
    returns has one entry for each distinct run identifier it was given;
    an entry holds the metrics, parameters, times and status of its run,
    the duration in seconds, and as model name the parameter [model] of the
    run, or [Unknown Model] when the run has none.  The tracking store is
    left as it is. *)
Theorem get_mlflow_model_performance_entries (ids : list nat)
    (perf : list (nat * Performance)) (w' : World) :
  get_mlflow_model_performance ids w = (inr perf, w') →
  w' = w
  ∧ NoDup perf.*1
  ∧ (∀ id, id ∈ perf.*1 ↔ id ∈ ids)
  ∧ ∀ id p, (id, p) ∈ perf →
      ∃ run t,
        mlruns w !! id = Some run ∧ end_time run = Some t
        ∧ model_name p = default "Unknown Model" (params run !! "model")
        ∧ perf_metrics p = metrics run ∧ parameters p = params run
        ∧ perf_start_time p = start_time run ∧ perf_end_time p = t
        ∧ duration p = (inject_Z (t - start_time run) / 1000)%Q
        ∧ perf_status p = status run.
Proof.
  unfold get_mlflow_model_performance. intros Hrun.
  pose proof (performance_loop_inr _ _ _ _ _ Hrun) as [-> _]. split; [done|].
  apply performance_loop_entries in Hrun as (Hnd & Hkeys & Hall).
  - split; [done|]. split; [|done]. intros id. rewrite Hkeys, elem_of_nil. tauto.
  - constructor.
  - by intros id p ?%elem_of_nil.
Qed.

(** X24: [get_mlflow_model_performance] raises at the first run
    identifier that the tracking store does not know ([MlflowException]) or
    whose run has not ended ([TypeError] on the subtraction of the times),
    and leaves the tracking store as it is. *)
Theorem get_mlflow_model_performance_raises (before after : list nat) (id : nat) :
  (∀ i, i ∈ before → ∃ run t, mlruns w !! i = Some run ∧ end_time run = Some t) →
  (mlruns w !! id = None →
   get_mlflow_model_performance (before ++ id :: after) w
   = (inl (MlflowException "run not found"), w))
  ∧ (∀ run, mlruns w !! id = Some run → end_time run = None →
     get_mlflow_model_performance (before ++ id :: after) w
     = (inl (TypeError "unsupported operand type(s) for -: NoneType and int"), w)).
Proof.
  intros Hbefore. unfold get_mlflow_model_performance.
  destruct (performance_loop_run before [] w Hbefore) as [perf Hperf].
  rewrite for_each_M_app. cbv beta iota zeta in Hperf |- *. rewrite Hperf.
  cbn [for_each_M]. rewrite !bind_run.
  split.
  - intros Hnone. by rewrite (mlflow_get_run_None _ _ Hnone).
  - intros run Hrun Hend. rewrite (mlflow_get_run_Some _ _ _ Hrun). by rewrite Hend.
Qed.

End performance_facts.

(** ** The program [experiments.py] *)

Section module_level_facts.
Context `{ModuleLibraries}.

(** The module level of [experiments.py] returns, leaving the world as it
    was, when each of its statements does. *)
Lemma experiments_py_run name__ (w : World) csv data X y split :
  task_init = None →
  files w !! "data/clean_data.csv" = Some csv →
  read_csv csv = inr data →
  drop_columns ["Obesity_Binary"] data = Some X →
  getitem data "Obesity_Binary" = Some y →
  train_test_split X y = inr split →
  mlflow_set_experiment experiment_name = None →
  files w !! output_dir = None →
  experiments_py name__ w
  = (if decide (name__ = "__main__")
     then @experiments_py_main (libraries_on split) else mret tt) w.
Proof.
  intros Htask Hfile Hcsv HX Hy Hsplit Hexp Hdir.
  unfold experiments_py, pd_read_csv, read_file, makedirs, get_world.
  rewrite Htask, Hexp.
  unfold call, lift_result, or_key_error, mbind, M_bind, mret, M_ret, raise.
  cbv beta iota. rewrite Hfile. cbv beta iota. rewrite Hcsv. cbv beta iota.
  rewrite HX. cbv beta iota. rewrite Hy. cbv beta iota. rewrite Hsplit. cbv beta iota.
  rewrite Hdir. reflexivity.
Qed.

(** Without the data file the program stops at line 31, before anything
    is trained or written. *)
Lemma experiments_py_needs_data_file name__ (w : World) :
  task_init = None →
  files w !! "data/clean_data.csv" = None →
  experiments_py name__ w = (inl (FileNotFoundError "data/clean_data.csv"), w).
Proof.
  intros Htask Hfile. unfold experiments_py, pd_read_csv, read_file, get_world.
  rewrite Htask. unfold call, mbind, M_bind, mret, M_ret, raise.
  cbv beta iota. rewrite Hfile. reflexivity.
Qed.


End module_level_facts.

Section sample_failing_run.
#[local] Existing Instance failing_libraries.

Lemma log_model_with_metrics_failure_witness :
  ∃ id run w',
    log_model_with_metrics (SVC "linear" 42) "SVM (Linear Kernel)" sample_world
    = (inl (ValueError "could not convert string to float"), w')
    ∧ mlruns sample_world !! id = None
    ∧ mlruns w' = <[id := run]> (mlruns sample_world)
    ∧ status run = "FAILED" ∧ end_time run = Some (clock sample_world)
    ∧ params run = ∅ ∧ metrics run = ∅ ∧ artifacts run = [] ∧ logged_models run = []
    ∧ files w' = files sample_world ∧ active_run w' = None
    ∧ frames w' = frames sample_world.
Proof.
  exact (log_model_with_metrics_failure (SVC "linear" 42) "SVM (Linear Kernel)"
           (ValueError "could not convert string to float") sample_world eq_refl).
Defined.

End sample_failing_run.

Section sample_runs.
#[local] Existing Instance sample_libraries.

Lemma log_model_with_metrics_success_witness :
  ∃ id run w',
    log_model_with_metrics (SVC "linear" 42) "SVM (Linear Kernel)" sample_world
    = (inr {| run_id := id; r_confusion_matrix_path := "confusion_matrix_svm_(linear_kernel).png";
              r_classification_report_path := "classification_report_svm_(linear_kernel).txt" |}, w')
    ∧ mlruns sample_world !! id = None
    ∧ mlruns w' = <[id := run]> (mlruns sample_world)
    ∧ status run = "FINISHED"
    ∧ start_time run = clock sample_world ∧ end_time run = Some (clock sample_world)
    ∧ metrics run
      = <["f1_score" := weighted_f1_score y_test [1; 1; 1]%Z]>
          (<["recall" := recall_score y_test [1; 1; 1]%Z]>
             (<["precision" := precision_score y_test [1; 1; 1]%Z]>
                (<["accuracy" := accuracy_score y_test [1; 1; 1]%Z]> ∅)))
    ∧ params run
      = foldl (λ p kv, <[kv.1 := kv.2]> p) (<["model" := "SVM (Linear Kernel)"]> ∅)
          (get_params (SVC "linear" 42))
    ∧ artifacts run = ["mlflow_output/confusion_matrix_svm_(linear_kernel).png";
                       "mlflow_output/classification_report_svm_(linear_kernel).txt"]
    ∧ logged_models run = [SVC "linear" 42]
    ∧ files w'
      = <["mlflow_output/classification_report_svm_(linear_kernel).txt" := classification_report y_test [1; 1; 1]%Z]>
          (<["mlflow_output/confusion_matrix_svm_(linear_kernel).png"
               := heatmap_png y_test [1; 1; 1]%Z
                    ("Confusion Matrix - " ++ "SVM (Linear Kernel)")]> (files sample_world))
    ∧ active_run w' = None ∧ frames w' = frames sample_world
    ∧ clock w' = clock sample_world.
Proof.
  exact (log_model_with_metrics_success (SVC "linear" 42) "SVM (Linear Kernel)"
           [1; 1; 1]%Z sample_world eq_refl).
Defined.

Lemma sample_fits exp :
  exp ∈ experiments → ∃ y_pred, fit_predict exp.1 = inr y_pred.
Proof.
  intros Hin. unfold experiments in Hin.
  repeat (apply elem_of_cons in Hin as [->|Hin]; [by eexists|]). by apply elem_of_nil in Hin.
Qed.

Lemma run_experiments_succeeds_witness :
  ∃ ref records w',
    run_experiments sample_world = (inr ref, w')
    ∧ frames sample_world !! ref = None
    ∧ frames w' = <[ref := records]> (frames sample_world)
    ∧ NoDup (RunID <$> records)
    ∧ Forall2 (λ exp r,
        Model r = exp.2
        ∧ confusion_matrix_path r = "confusion_matrix_" ++ file_stem exp.2 ++ ".png"
        ∧ classification_report_path r
          = "classification_report_" ++ file_stem exp.2 ++ ".txt"
        ∧ mlruns sample_world !! RunID r = None
        ∧ is_Some (files w' !! os_path_join output_dir (classification_report_path r))
        ∧ ∃ y_pred run,
            fit_predict exp.1 = inr y_pred
            ∧ accuracy r = accuracy_score y_test y_pred
            ∧ precision r = precision_score y_test y_pred
            ∧ recall r = recall_score y_test y_pred
            ∧ f1_score r = weighted_f1_score y_test y_pred
            ∧ mlruns w' !! RunID r = Some run
            ∧ status run = "FINISHED" ∧ end_time run = Some (clock sample_world))
        experiments records.
Proof.
  exact (run_experiments_succeeds sample_world sample_fits (λ _, eq_refl)).
Defined.


Lemma generate_report_requires_witness :
  ∃ records,
    frames two_runs_world !! 0 = Some records
    ∧ records ≠ []
    ∧ is_Some (files two_runs_world !! "report_template.html")
    ∧ (∀ r, r ∈ records →
         is_Some (files two_runs_world
                    !! os_path_join output_dir (classification_report_path r))
         ∨ os_path_join output_dir (classification_report_path r)
           = "mlflow_output/performance_comparison.png")
    ∧ (∀ r, r ∈ records →
         ∃ run t, mlruns two_runs_world !! RunID r = Some run ∧ end_time run = Some t).
Proof.
  apply (generate_report_requires 0 two_runs_world (generate_report 0 two_runs_world).2).
  by vm_compute.
Defined.

Lemma generate_report_frame_whatever_happens_witness :
  frames (generate_report 0 two_runs_world).2
  = <[0 := round_metrics <$> two_runs]> (frames two_runs_world)
  ∧ frames (generate_report 0 (generate_report 0 two_runs_world).2).2
    = frames (generate_report 0 two_runs_world).2.
Proof.
  apply (generate_report_frame_whatever_happens 0 two_runs_world two_runs). by vm_compute.
Defined.

End sample_runs.

Section sample_program.
#[local] Existing Instance sample_module_libraries.


End sample_program.

Lemma get_mlflow_model_performance_entries_witness :
  ∃ perf,
    get_mlflow_model_performance [0; 1; 0] two_runs_world = (inr perf, two_runs_world)
    ∧ NoDup perf.*1
    ∧ (∀ id, id ∈ perf.*1 ↔ id ∈ [0; 1; 0]).
Proof.
  eexists. split; [by vm_compute|].
  edestruct (get_mlflow_model_performance_entries two_runs_world [0; 1; 0])
    as (_ & Hnd & Hkeys & _); [by vm_compute|].
  split; [exact Hnd | exact Hkeys].
Defined.

Lemma get_mlflow_model_performance_raises_witness :
  (mlruns two_runs_world !! 7 = None →
   get_mlflow_model_performance ([0] ++ 7 :: [1]) two_runs_world
   = (inl (MlflowException "run not found"), two_runs_world))
  ∧ (∀ run, mlruns two_runs_world !! 7 = Some run → end_time run = None →
     get_mlflow_model_performance ([0] ++ 7 :: [1]) two_runs_world
     = (inl (TypeError "unsupported operand type(s) for -: NoneType and int"),
        two_runs_world)).
Proof.
  apply (get_mlflow_model_performance_raises two_runs_world [0] [1] 7).
  intros i ->%list_elem_of_singleton. exists (finished_run "A"), 1000%Z. by vm_compute.
Defined.
